(** * server_manager.py: hosts-entry management and PID-file based stop

    A shallow embedding of [src/server_manager.py].  The three hosts-file
    functions ([is_entry_in_hosts], [add_to_hosts], [remove_from_hosts]) and
    [stop_php_server] are transcribed as functions over an explicit world;
    every [print], every signal sent, every sleep and the cache flush are
    recorded in an event trace, so that statements about what is reported
    and in which order signals are sent can be made about the trace.

    Text is the decoded [str] of Python: a list of Unicode code points.  Files
    hold their raw characters; the text-mode translation of line ends that
    [open(path, "r")], [open(path, "a")] and [open(path, "w")] perform is
    written out ([universal] on input, [encode_newlines] on output). *)

From Stdlib Require Import List Bool NArith ZArith Lia String Ascii.
Import ListNotations.

Set Implicit Arguments.

(** ** Text *)

Definition char := N.
Definition text := list char.

Definition LF : char := 10%N.
Definition CR : char := 13%N.
Definition HASH : char := 35%N.
Definition PLUS : char := 43%N.
Definition MINUS : char := 45%N.
Definition UNDERSCORE : char := 95%N.

(** A literal of the source, as text. *)
Definition txt (s : string) : text := map N_of_ascii (list_ascii_of_string s).

(** The same followed by a line feed: one line of a file. *)
Definition ln (s : string) : text := txt s ++ [LF].

(** [str.isspace] for one character, the set [str.strip()] removes. *)
Definition is_space (c : char) : bool :=
  ((9 <=? c) && (c <=? 13) || (28 <=? c) && (c <=? 32) || (c =? 133) ||
   (c =? 160) || (c =? 5760) || (8192 <=? c) && (c <=? 8202) ||
   (c =? 8232) || (c =? 8233) || (c =? 8239) || (c =? 8287) ||
   (c =? 12288))%N.

Fixpoint lstrip (s : text) : text :=
  match s with
  | [] => []
  | c :: r => if is_space c then lstrip r else s
  end.

Definition rstrip (s : text) : text := rev (lstrip (rev s)).

(** [s.strip()]: leading white space goes first, then trailing. *)
Definition strip (s : text) : text := rstrip (lstrip s).

(** [s.startswith(p)] *)
Fixpoint startswith (p s : text) : bool :=
  match p, s with
  | [], _ => true
  | _ :: _, [] => false
  | a :: p', b :: s' => (a =? b)%N && startswith p' s'
  end.

(** [p in s] for two strings: [p] occurs in [s] at some position. *)
Fixpoint contains (p s : text) : bool :=
  startswith p s ||
  match s with
  | [] => false
  | _ :: s' => contains p s'
  end.

(** Universal newlines on input: CR LF, a lone CR and a lone LF all read as
    LF.  [after_cr] says the previous raw character was a CR, whose LF has
    been produced already. *)
Fixpoint universal_from (after_cr : bool) (raw : text) : text :=
  match raw with
  | [] => []
  | c :: r =>
      if (c =? CR)%N then LF :: universal_from true r
      else if (c =? LF)%N then
        if after_cr then universal_from false r
        else LF :: universal_from false r
      else c :: universal_from false r
  end.

Definition universal (raw : text) : text := universal_from false raw.

(** Whether the reader, started with [after_cr], has just seen a CR when
    [raw] is consumed. *)
Definition cr_pending (after_cr : bool) (raw : text) : bool :=
  fold_left (fun _ c => (c =? CR)%N) raw after_cr.

(** The lines a text-mode file yields ([for line in f], [f.readlines()]):
    each keeps its LF; only the last may lack one. *)
Fixpoint splitlines (s : text) : list text :=
  match s with
  | [] => []
  | c :: r =>
      if (c =? LF)%N then [c] :: splitlines r
      else match splitlines r with
           | [] => [[c]]
           | l :: ls => (c :: l) :: ls
           end
  end.

(** ** Platform *)

(** [platform.system().lower()], as far as the code tells values apart. *)
Inductive platform := Windows | Linux | Darwin | OtherSystem.

Definition is_windows (sys : platform) : bool :=
  match sys with Windows => true | _ => false end.

Definition is_unix (sys : platform) : bool :=
  match sys with Linux | Darwin => true | _ => false end.

(** [os.linesep] *)
Definition linesep (sys : platform) : text :=
  if is_windows sys then [CR; LF] else [LF].

(** Newline translation on output: every LF written becomes [os.linesep]. *)
Definition encode_newlines (sys : platform) (s : text) : text :=
  flat_map (fun c => if (c =? LF)%N then linesep sys else [c]) s.

(** ** Exceptions, messages and events *)

(** The exception classes the modelled calls raise.  All derive from
    [Exception]; the first four are [OSError] ([IOError] is the same class). *)
Inductive exn :=
| FileNotFoundError
| PermissionError
| ProcessLookupError
| OtherOSError
| ValueError
| OverflowError
| AttributeError
| CalledProcessError.

Definition is_OSError (e : exn) : bool :=
  match e with
  | FileNotFoundError | PermissionError | ProcessLookupError | OtherOSError => true
  | _ => false
  end.

Definition is_ValueError (e : exn) : bool :=
  match e with ValueError => true | _ => false end.

(** The value [get_hosts_file_path] returns. *)
Inductive hosts_path := WindowsHostsPath | EtcHostsPath.

(** One constructor per [print] of the modelled functions, with the values
    the message is formatted from (source line in the comment). *)
Inductive message :=
| MsgUnsupportedOS                                   (* 38 *)
| MsgHostsFileNotFound (p : hosts_path)              (* 52 *)
| MsgHostsReadError (e : exn)                        (* 55 *)
| MsgEntryAlreadyExists (entry : text)               (* 113 *)
| MsgAdded (entry : text) (p : hosts_path)           (* 118 *)
| MsgDnsNoteAdd                                      (* 120 *)
| MsgFlushingDns                                     (* 122, 162 *)
| MsgDnsFlushed                                      (* 125, 165 *)
| MsgDnsFlushFailed (e : exn)                        (* 127, 167 *)
| MsgAddFailed (e : exn)                             (* 130 *)
| MsgEnsurePrivileges                                (* 131, 171 *)
| MsgNoRemovalNeeded (entry : text)                  (* 140 *)
| MsgRemoved (entry : text) (p : hosts_path)         (* 154 *)
| MsgNotActivelyPresent (entry : text)               (* 157 *)
| MsgDnsNoteRemove                                   (* 160 *)
| MsgRemoveFailed (e : exn)                          (* 170 *)
| MsgPidFileNotFound                                 (* 245 *)
| MsgPidReadError (e : exn)                          (* 255 *)
| MsgStopping (pid : Z)                              (* 258 *)
| MsgSentSigterm (pid : Z)                           (* 262 *)
| MsgSendingSigkill (pid : Z)                        (* 269 *)
| MsgSentSigkill (pid : Z)                           (* 271 *)
| MsgTerminated (pid : Z)                            (* 273 *)
| MsgAlreadyStopped (pid : Z)                        (* 277 *)
| MsgStopError (pid : Z) (e : exn)                   (* 280 *)
| MsgStopManually (pid : Z)                          (* 281 *)
| MsgPidFileRemoved                                  (* 287 *)
| MsgPidFileNotRemoved (e : exn).                    (* 289 *)

(** The second argument of [os.kill]. *)
Inductive signal := SIGTERM | SIGKILL | SIG0.

(** What a run does besides changing files: what it prints, the signals it
    sends (with the exception [os.kill] raised, if any), how long it sleeps
    and the commands it runs. *)
Inductive event :=
| EPrint (m : message)
| EKill (pid : Z) (sig : signal) (raised : option exn)
| ESleep (seconds : Z)
| EFlushDns (raised : option exn).

(** ** Programs: state, trace and exceptions *)

Section Prog.

Variable W : Type.

Definition prog (A : Type) : Type := W -> list event * W * (A + exn).

Definition ret {A} (a : A) : prog A := fun w => ([], w, inl a).

Definition raise {A} (e : exn) : prog A := fun w => ([], w, inr e).

Definition bind {A B} (m : prog A) (k : A -> prog B) : prog B :=
  fun w =>
    match m w with
    | (t1, w1, inl a) =>
        match k a w1 with (t2, w2, r) => (t1 ++ t2, w2, r) end
    | (t1, w1, inr e) => (t1, w1, inr e)
    end.

(** [try: m  except ...: handler e]; the handler re-raises what its
    [except] clauses do not name. *)
Definition try_except {A} (m : prog A) (handler : exn -> prog A) : prog A :=
  fun w =>
    match m w with
    | (t1, w1, inl a) => (t1, w1, inl a)
    | (t1, w1, inr e) =>
        match handler e w1 with (t2, w2, r) => (t1 ++ t2, w2, r) end
    end.

Definition emit (ev : event) : prog unit := fun w => ([ev], w, inl tt).

Definition print (m : message) : prog unit := emit (EPrint m).

Definition get : prog W := fun w => ([], w, inl w).

Definition put (w : W) : prog unit := fun _ => ([], w, inl tt).

End Prog.

Arguments ret {W A} a.
Arguments raise {W A} e.
Arguments emit {W} ev.
Arguments print {W} m.
Arguments get {W}.

Notation "x <- m ;; k" := (bind m (fun x => k))
  (at level 61, m at next level, right associativity).
Notation "m ;; k" := (bind m (fun _ => k))
  (at level 61, right associativity).

(** What a run printed, in order. *)
Definition printed (t : list event) : list message :=
  flat_map (fun ev => match ev with EPrint m => [m] | _ => [] end) t.

(** ** The hosts file *)

(** A file on disk: its raw characters and what the process may do with it.
    [creatable] says whether opening the missing file for writing makes it. *)
Inductive file :=
| Absent (creatable : bool)
| Present (raw : text) (readable writable : bool).

Record hosts_world := {
  system : platform;        (* platform.system().lower() *)
  hosts : file;             (* the file at get_hosts_file_path() *)
  flushdns_ok : bool        (* whether ipconfig /flushdns exits with 0 *)
}.

Definition set_hosts (f : file) (w : hosts_world) : hosts_world :=
  {| system := system w; hosts := f; flushdns_ok := flushdns_ok w |}.

(** [open(hosts_path, "r")] followed by reading all of it as text. *)
Definition read_hosts : prog hosts_world text :=
  w <- get ;;
  match hosts w with
  | Absent _ => raise FileNotFoundError
  | Present raw readable _ =>
      if readable then ret (universal raw) else raise PermissionError
  end.

(** [f.write(s)] on the hosts file opened in text mode for output. *)
Definition write_hosts (s : text) : prog hosts_world unit :=
  w <- get ;;
  match hosts w with
  | Absent _ => raise OtherOSError
  | Present raw r wr =>
      put (set_hosts (Present (raw ++ encode_newlines (system w) s) r wr) w)
  end.

(** [open(hosts_path, "a")]: the content stays, a missing file is made. *)
Definition open_hosts_append : prog hosts_world unit :=
  w <- get ;;
  match hosts w with
  | Absent creatable =>
      if creatable then put (set_hosts (Present [] true true) w)
      else raise PermissionError
  | Present _ _ writable =>
      if writable then ret tt else raise PermissionError
  end.

(** [open(hosts_path, "w")]: the content is dropped, a missing file is made. *)
Definition open_hosts_truncate : prog hosts_world unit :=
  w <- get ;;
  match hosts w with
  | Absent creatable =>
      if creatable then put (set_hosts (Present [] true true) w)
      else raise PermissionError
  | Present _ r writable =>
      if writable then put (set_hosts (Present [] r writable) w)
      else raise PermissionError
  end.

(** [subprocess.run(["ipconfig", "/flushdns"], capture_output=True, check=True)] *)
Definition run_flushdns : prog hosts_world unit :=
  w <- get ;;
  if flushdns_ok w then emit (EFlushDns None)
  else (emit (EFlushDns (Some CalledProcessError)) ;; raise CalledProcessError).

Definition get_hosts_file_path : prog hosts_world (option hosts_path) :=
  w <- get ;;
  if is_windows (system w) then ret (Some WindowsHostsPath)
  else if is_unix (system w) then ret (Some EtcHostsPath)
  else (print MsgUnsupportedOS ;; ret None).

(** The test of lines 49 and 148:
    [entry in line and not line.strip().startswith("#")]. *)
Definition active_match (entry line : text) : bool :=
  contains entry line && negb (startswith [HASH] (strip line)).

(** The loop of [is_entry_in_hosts]: [True] at the first line that passes the
    test, [False] when the lines run out. *)
Fixpoint scan_lines (entry_to_check : text) (lines : list text) : bool :=
  match lines with
  | [] => false
  | line :: rest =>
      if active_match entry_to_check line then true
      else scan_lines entry_to_check rest
  end.

Definition is_entry_in_hosts (entry_to_check : text) : prog hosts_world bool :=
  hosts_path <- get_hosts_file_path ;;
  match hosts_path with
  | None => ret false
  | Some p =>
      try_except
        (content <- read_hosts ;;
         ret (scan_lines entry_to_check (splitlines content)))
        (fun e =>
           match e with
           | FileNotFoundError => print (MsgHostsFileNotFound p) ;; ret false
           | _ => print (MsgHostsReadError e) ;; ret false
           end)
  end.

(** Lines 119-127 and 159-167: the note on Unix, the cache flush on Windows. *)
Definition dns_cache_step (note : message) : prog hosts_world unit :=
  w <- get ;;
  if is_unix (system w) then print note
  else if is_windows (system w) then
    print MsgFlushingDns ;;
    try_except
      (run_flushdns ;; print MsgDnsFlushed)
      (fun e => print (MsgDnsFlushFailed e))
  else ret tt.

Definition add_to_hosts (entry_to_add : text) : prog hosts_world bool :=
  hosts_path <- get_hosts_file_path ;;
  match hosts_path with
  | None => ret false
  | Some p =>
      present <- is_entry_in_hosts entry_to_add ;;
      if present then
        print (MsgEntryAlreadyExists entry_to_add) ;; ret true
      else
        try_except
          (open_hosts_append ;;
           write_hosts ([LF] ++ entry_to_add ++ [LF]) ;;
           print (MsgAdded entry_to_add p) ;;
           dns_cache_step MsgDnsNoteAdd ;;
           ret true)
          (fun e =>
             print (MsgAddFailed e) ;; print MsgEnsurePrivileges ;; ret false)
  end.

(** The loop of [remove_from_hosts] over the lines read before: a line that
    passes the test sets the flag and is skipped, any other is written. *)
Fixpoint rewrite_lines (entry_to_remove : text) (lines : list text)
    (entry_found_and_removed : bool) : prog hosts_world bool :=
  match lines with
  | [] => ret entry_found_and_removed
  | line :: rest =>
      if active_match entry_to_remove line then
        rewrite_lines entry_to_remove rest true
      else
        write_hosts line ;;
        rewrite_lines entry_to_remove rest entry_found_and_removed
  end.

Definition remove_from_hosts (entry_to_remove : text) : prog hosts_world bool :=
  hosts_path <- get_hosts_file_path ;;
  match hosts_path with
  | None => ret false
  | Some p =>
      present <- is_entry_in_hosts entry_to_remove ;;
      if negb present then
        print (MsgNoRemovalNeeded entry_to_remove) ;; ret true
      else
        try_except
          (content <- read_hosts ;;
           open_hosts_truncate ;;
           entry_found_and_removed <-
             rewrite_lines entry_to_remove (splitlines content) false ;;
           (if entry_found_and_removed
            then print (MsgRemoved entry_to_remove p)
            else print (MsgNotActivelyPresent entry_to_remove)) ;;
           dns_cache_step MsgDnsNoteRemove ;;
           ret true)
          (fun e =>
             print (MsgRemoveFailed e) ;; print MsgEnsurePrivileges ;; ret false)
  end.

(** The configured entry, line 13. *)
Definition HOSTS_ENTRY : text := txt "127.0.0.1 albert.apple.com".

(** ** Stopping the server through its PID file *)

Section Supervisor.

(** The operating system's processes are not modelled: [os_kill] is whatever
    [os.kill(pid, sig)] does to them and whether it raises, [os_sleep] what
    happens to them while the caller sleeps. *)
Variable K : Type.
Variable os_kill : Z -> signal -> K -> option exn * K.
Variable os_sleep : Z -> K -> K.

(** The interpreter's table of decimal digits (ASCII and other scripts) and
    [sys.get_int_max_str_digits()], where 0 is no limit. *)
Variable decimal : char -> option Z.
Variable max_str_digits : N.

Record sup_world := {
  sup_system : platform;    (* Windows has no signal.SIGKILL *)
  pid_file : file;          (* the file at PHP_SERVER_PID_FILE *)
  pid_file_removable : bool;(* whether os.remove of it is permitted *)
  kernel : K
}.

Definition set_pid_file (f : file) (w : sup_world) : sup_world :=
  {| sup_system := sup_system w; pid_file := f;
     pid_file_removable := pid_file_removable w; kernel := kernel w |}.

Definition set_kernel (k : K) (w : sup_world) : sup_world :=
  {| sup_system := sup_system w; pid_file := pid_file w;
     pid_file_removable := pid_file_removable w; kernel := k |}.

(** The digits of [int(s)] after the sign: decimal digits, single underscores
    only between two digits.  Returns the value and the number of digits. *)
Fixpoint digits_from (acc : Z) (count : N) (after_underscore : bool)
    (s : text) : option (Z * N) :=
  match s with
  | [] => if after_underscore then None else Some (acc, count)
  | c :: r =>
      if (c =? UNDERSCORE)%N then
        if after_underscore then None else digits_from acc count true r
      else
        match decimal c with
        | Some d => digits_from (10 * acc + d) (count + 1) false r
        | None => None
        end
  end.

Definition unsigned_int (s : text) : option Z :=
  match s with
  | [] => None
  | c :: _ =>
      if (c =? UNDERSCORE)%N then None
      else
        match digits_from 0 0 false s with
        | Some (v, n) =>
            if (0 <? max_str_digits)%N && (max_str_digits <? n)%N then None
            else Some v
        | None => None
        end
  end.

(** [int(s)] for a [str] without surrounding white space, which is how line
    253 calls it; [None] is [ValueError]. *)
Definition py_int (s : text) : option Z :=
  match s with
  | [] => None
  | c :: r =>
      if (c =? MINUS)%N then option_map Z.opp (unsigned_int r)
      else if (c =? PLUS)%N then unsigned_int r
      else unsigned_int s
  end.

(** [os.path.exists(PHP_SERVER_PID_FILE)] *)
Definition pid_file_exists : prog sup_world bool :=
  w <- get ;;
  match pid_file w with
  | Absent _ => ret false
  | Present _ _ _ => ret true
  end.

(** [open(PHP_SERVER_PID_FILE, "r")] and [f.read()] *)
Definition read_pid_file : prog sup_world text :=
  w <- get ;;
  match pid_file w with
  | Absent _ => raise FileNotFoundError
  | Present raw readable _ =>
      if readable then ret (universal raw) else raise PermissionError
  end.

(** [os.remove(PHP_SERVER_PID_FILE)] *)
Definition remove_pid_file : prog sup_world unit :=
  w <- get ;;
  match pid_file w with
  | Absent _ => raise FileNotFoundError
  | Present _ _ _ =>
      if pid_file_removable w then put (set_pid_file (Absent true) w)
      else raise PermissionError
  end.

(** [os.kill(pid, sig)], as a call that comes back: it returns or raises.
    A signal that ends the caller itself (its own PID, or PID 0 for its
    process group) is not among the runs described. *)
Definition kill (pid : Z) (sig : signal) : prog sup_world unit :=
  w <- get ;;
  let (raised, k) := os_kill pid sig (kernel w) in
  put (set_kernel k w) ;;
  emit (EKill pid sig raised) ;;
  match raised with
  | None => ret tt
  | Some e => raise e
  end.

(** [time.sleep(seconds)], as a call that comes back.  Ctrl+C during it
    raises [KeyboardInterrupt], which is no [Exception] and which nothing in
    [stop_php_server] catches: such a run ends there and is not among the
    runs described. *)
Definition sleep (seconds : Z) : prog sup_world unit :=
  w <- get ;;
  put (set_kernel (os_sleep seconds (kernel w)) w) ;;
  emit (ESleep seconds).

(** Evaluating [signal.SIGKILL]: the attribute is missing on Windows. *)
Definition signal_SIGKILL : prog sup_world signal :=
  w <- get ;;
  if is_windows (sup_system w) then raise AttributeError else ret SIGKILL.

(** Lines 251-256: [Some pid], or [None] when the handler has printed its
    message and the function is to return [False]. *)
Definition read_pid : prog sup_world (option Z) :=
  try_except
    (content <- read_pid_file ;;
     match py_int (strip content) with
     | Some pid => ret (Some pid)
     | None => raise ValueError
     end)
    (fun e =>
       if is_OSError e || is_ValueError e
       then print (MsgPidReadError e) ;; ret None
       else raise e).

(** Lines 259-282: the value of [success]. *)
Definition terminate (pid : Z) : prog sup_world bool :=
  try_except
    (kill pid SIGTERM ;;
     print (MsgSentSigterm pid) ;;
     sleep 2 ;;
     try_except
       (kill pid SIG0 ;;
        print (MsgSendingSigkill pid) ;;
        sigkill <- signal_SIGKILL ;;
        kill pid sigkill ;;
        print (MsgSentSigkill pid))
       (fun e => if is_OSError e then print (MsgTerminated pid) else raise e) ;;
     ret true)
    (fun e =>
       match e with
       | ProcessLookupError => print (MsgAlreadyStopped pid) ;; ret true
       | _ => print (MsgStopError pid e) ;; print (MsgStopManually pid) ;;
              ret false
       end).

Definition stop_php_server : prog sup_world bool :=
  found <- pid_file_exists ;;
  if negb found then
    print MsgPidFileNotFound ;; ret false
  else
    parsed <- read_pid ;;
    match parsed with
    | None => ret false
    | Some pid =>
        print (MsgStopping pid) ;;
        success <- terminate pid ;;
        (if success : bool then
           try_except
             (remove_pid_file ;; print MsgPidFileRemoved)
             (fun e =>
                if is_OSError e then print (MsgPidFileNotRemoved e)
                else raise e)
         else ret tt) ;;
        ret success
    end.

End Supervisor.

(** The digit table restricted to ASCII, for concrete runs. *)
Definition ascii_decimal (c : char) : option Z :=
  if ((48 <=? c) && (c <=? 57))%N then Some (Z.of_N c - 48)%Z else None.

(** A scripted operating system for concrete runs: the state is the list of
    answers the coming [os.kill] calls get, in order; when the script runs
    out the call succeeds; sleeping changes nothing. *)
Definition scripted_kill (_ : Z) (_ : signal) (script : list (option exn))
  : option exn * list (option exn) :=
  match script with
  | [] => (None, [])
  | r :: rest => (r, rest)
  end.

Definition scripted_sleep (_ : Z) (script : list (option exn))
  : list (option exn) := script.

(** The signals of a trace, in order. *)
Definition signals_sent (t : list event) : list (Z * signal) :=
  flat_map (fun ev => match ev with EKill pid sig _ => [(pid, sig)] | _ => [] end) t.

(** ** Notions the statements are written with *)

Definition trace_of {W A} (o : list event * W * (A + exn)) : list event :=
  fst (fst o).

Definition world_of {W A} (o : list event * W * (A + exn)) : W :=
  snd (fst o).

Definition value_of {W A} (o : list event * W * (A + exn)) : A + exn :=
  snd o.

(** The platforms [get_hosts_file_path] knows a path for. *)
Definition supported (sys : platform) : bool := is_windows sys || is_unix sys.

(** The lines of a file as the code sees them when it reads it. *)
Definition file_lines (raw : text) : list text := splitlines (universal raw).

(** [p] occurs in [s]. *)
Definition substring (p s : text) : Prop := exists a b, s = a ++ p ++ b.

(** The line starts with [#] once leading white space is trimmed. *)
Definition commented (line : text) : Prop :=
  exists ws rest,
    line = ws ++ HASH :: rest /\ Forall (fun c => is_space c = true) ws.

(** The contract of isPresent in the words of the specification: some line
    contains the entry text and does not start with [#] after trimming
    leading white space. *)
Definition isPresent_spec (entry raw : text) : Prop :=
  exists line,
    In line (file_lines raw) /\ substring entry line /\ ~ commented line.

(** An entry that is one line: it holds no line feed and no carriage return. *)
Definition single_line (entry : text) : Prop :=
  Forall (fun c => c <> LF /\ c <> CR) entry.

(** A line "structurally matches" an entry when it is that entry once the
    white space around it (its line end included) is trimmed. *)
Definition structural_match (entry line : text) : Prop := strip line = entry.

(** The raw characters of the hosts file, if there is one. *)
Definition hosts_raw (w : hosts_world) : option text :=
  match hosts w with
  | Present raw _ _ => Some raw
  | Absent _ => None
  end.

(** The path [get_hosts_file_path] gives on a supported platform. *)
Definition path_for (sys : platform) : hosts_path :=
  if is_windows sys then WindowsHostsPath else EtcHostsPath.

(** The lines [remove_from_hosts] writes back. *)
Definition kept (entry : text) (lines : list text) : list text :=
  filter (fun line => negb (active_match entry line)) lines.

(** A readable and writable hosts file with the given raw content. *)
Definition hosts_on (sys : platform) (raw : text) : hosts_world :=
  {| system := sys; hosts := Present raw true true; flushdns_ok := true |}.

(** The file of the scenario in the specification: an unrelated entry and
    the configured entry, commented out. *)
Definition scenario_file : text :=
  ln "1.2.3.4 other.host" ++ ln "# 127.0.0.1 albert.apple.com".

(** The events of an escalation from the graceful to the forced signal:
    SIGTERM delivered, the sleep of 2 seconds, a probe with signal 0 that
    finds the process, then SIGKILL (with whatever [os.kill] raised). *)
Definition escalation (pid : Z) (raised : option exn) : list event :=
  [EKill pid SIGTERM None; EPrint (MsgSentSigterm pid); ESleep 2;
   EKill pid SIG0 None; EPrint (MsgSendingSigkill pid);
   EKill pid SIGKILL raised].

Definition sends_sigkill (ev : event) : bool :=
  match ev with EKill _ SIGKILL _ => true | _ => false end.

(** An ASCII decimal digit, and the number a string of them denotes. *)
Definition ascii_digit (c : char) : Prop := (48 <= c <= 57)%N.

Definition decimal_value (digits : text) : Z :=
  fold_left (fun acc c => (10 * acc + (Z.of_N c - 48))%Z) digits 0%Z.

(** The value of digits under an optional sign. *)
Definition signed (sign : text) (v : Z) : Z :=
  match sign with
  | [c] => if (c =? MINUS)%N then (- v)%Z else v
  | _ => v
  end.

(** [stop_php_server] on the scripted operating system, with the ASCII digit
    table and the default digit limit. *)
Definition scripted_stop
  : prog (sup_world (list (option exn))) bool :=
  stop_php_server scripted_kill scripted_sleep ascii_decimal 4300.

(** A Linux world whose PID file is readable and removable. *)
Definition marker_world (raw : text) (script : list (option exn))
  : sup_world (list (option exn)) :=
  {| sup_system := Linux; pid_file := Present raw true true;
     pid_file_removable := true; kernel := script |}.

(** A line with its line feed, and no other. *)
Definition terminated (line : text) : Prop :=
  exists body, line = body ++ [LF] /\ ~ In LF body.

(** The shape of what a text-mode file yields: terminated lines, then
    possibly one last non-empty line without a line feed. *)
Inductive wf_lines : list text -> Prop :=
| wf_nil : wf_lines []
| wf_last (l : text) : l <> [] -> ~ In LF l -> wf_lines [l]
| wf_cons (l : text) (ls : list text) :
    terminated l -> wf_lines ls -> wf_lines (l :: ls).

(** The lines of a text once a line feed is put after it: an open last
    line is closed, otherwise a blank line follows. *)
Fixpoint close_last (lines : list text) : list text :=
  match lines with
  | [] => [[LF]]
  | [l] => if (last l 0 =? LF)%N then [l; [LF]] else [l ++ [LF]]
  | l :: rest => l :: close_last rest
  end.

(** ** The contract of isPresent, stated apart from the code

    What follows is written from the words of the specification and from
    the documentation of Python's text files, not from the functions above,
    so that the functions can be compared with it. *)

(** White space, by code point: the characters to which Unicode gives the
    bidirectional type WS, B or S or the category Zs. *)
Definition white_space : list char :=
  [9; 10; 11; 12; 13; 28; 29; 30; 31; 32; 133; 160; 5760;
   8192; 8193; 8194; 8195; 8196; 8197; 8198; 8199; 8200; 8201; 8202;
   8232; 8233; 8239; 8287; 12288]%N.

(** The line starts with [#] after trimming leading white space. *)
Definition hash_after_white_space (line : text) : Prop :=
  exists ws rest,
    line = ws ++ HASH :: rest /\ Forall (fun c => In c white_space) ws.

(** The lines of a file.  A line end is a line feed, a carriage return
    followed by a line feed, or a carriage return that no line feed follows;
    the content is cut after each line end, and what is left after the last
    one is a line if it is not empty.  A line is given with its line end as
    one line feed, which is how a file opened as text presents it. *)
Inductive lines_of : text -> list text -> Prop :=
| lines_none : lines_of [] []
| lines_last (body : text) :
    body <> [] -> single_line body -> lines_of body [body]
| lines_lf (body rest : text) (ls : list text) :
    single_line body -> lines_of rest ls ->
    lines_of (body ++ LF :: rest) ((body ++ [LF]) :: ls)
| lines_cr_lf (body rest : text) (ls : list text) :
    single_line body -> lines_of rest ls ->
    lines_of (body ++ CR :: LF :: rest) ((body ++ [LF]) :: ls)
| lines_cr (body rest : text) (ls : list text) :
    single_line body -> (forall r, rest <> LF :: r) -> lines_of rest ls ->
    lines_of (body ++ CR :: rest) ((body ++ [LF]) :: ls).

(** The contract of isPresent: some line of the file contains the entry as
    a substring and does not start with [#] after trimming leading white
    space. *)
Definition isPresent_contract (entry raw : text) : Prop :=
  exists lines line,
    lines_of raw lines /\ In line lines /\
    substring entry line /\ ~ hash_after_white_space line.

(** ** Decimal output *)

(** The decimal digits of a number that is not negative, the last digit
    first; [fuel] bounds their number. *)
Fixpoint rev_digits (fuel : nat) (n : Z) : text :=
  match fuel with
  | O => []
  | S f =>
      Z.to_N (48 + n mod 10) ::
      (if (n <? 10)%Z then [] else rev_digits f (n / 10))
  end.

Definition digits_of (n : Z) : text :=
  rev (rev_digits (S (Z.to_nat (Z.log2 n))) n).

(** [str(z)] for an [int], and its formatting in an f-string. *)
Definition py_str (z : Z) : text :=
  if (z <? 0)%Z then MINUS :: digits_of (- z) else digits_of z.

(** ** Launching the server and the two commands *)

(** What can end a run of the command-line program: an exception of the
    functions above, the end of standard input at a prompt, Ctrl+C (taken
    to arrive only during a wait of the polling loop) and [sys.exit]. *)
Inductive xexn :=
| Raised (e : exn)
| EOFError
| KeyboardInterrupt
| SystemExit (code : Z).

(** The two questions of lines 321 and 337. *)
Inductive prompt := AskAdd | AskRemove.

(** One constructor per [print] of [check_php_installed],
    [start_php_server] and the main block (source line in the comment). *)
Inductive xmessage :=
| MsgPhpInstalled                                    (* 24 *)
| MsgPhpMissing                                      (* 27 *)
| MsgActivatorMissing                                (* 180 *)
| MsgActivatorHint                                   (* 181 *)
| MsgAdminUnknown                                    (* 201 *)
| MsgPrivilegedPort (port : Z)                       (* 205 *)
| MsgRunAsAdministrator (port : Z)                   (* 207 *)
| MsgUseSudo (port : Z)                              (* 209 *)
| MsgStarting (command : list text)                  (* 213 *)
| MsgServingFrom (doc_root : text)                   (* 214 *)
| MsgOutputBelow                                     (* 215 *)
| MsgStarted (pid : Z)                               (* 228 *)
| MsgPidFileNotWritten (e : exn)                     (* 230 *)
| MsgStopManuallyLater                               (* 231 *)
| MsgPhpCommandNotFound                              (* 235 *)
| MsgStartFailed (e : xexn)                          (* 239 *)
| MsgSkipHostsModification                           (* 317 *)
| MsgEntryNotPresentAsk                              (* 320 *)
| MsgAddFailedManual                                 (* 324 *)
| MsgSkipAddition                                    (* 327 *)
| MsgEntryIsPresent                                  (* 329 *)
| MsgSkipHostsRemoval                                (* 333 *)
| MsgEntryPresentAsk                                 (* 336 *)
| MsgRemoveFailedManual                              (* 340 *)
| MsgSkipRemoval                                     (* 342 *)
| MsgEntryNotPresent                                 (* 344 *)
| MsgStartBanner                                     (* 348 *)
| MsgServerStarted (port : Z)                        (* 357 *)
| MsgConnectHint (port : Z)                          (* 358 *)
| MsgCertificateHint                                 (* 359 *)
| MsgPressCtrlC                                      (* 360 *)
| MsgTerminatedOnItsOwn                              (* 366 *)
| MsgCtrlCDetected                                   (* 368 *)
| MsgShutdownComplete                                (* 374 *)
| MsgServerFailedToStart                             (* 376 *)
| MsgRevertingHosts                                  (* 379 *)
| MsgStopBanner                                      (* 384 *)
| MsgNotStoppedCleanly                               (* 386 *)
| MsgStoppedOrNotRunning                             (* 388 *)
| MsgShutdownProcessComplete.                        (* 390 *)

(** The events of the command-line program: those of the functions above,
    its own prints, the check for PHP, the launch of the server (with the
    PID of the child or what [Popen] raised), a poll of the child, a wait of
    half a second and an answer read from standard input ([None] at its
    end). *)
Inductive xevent :=
| Base (ev : event)
| XPrint (m : xmessage)
| XPhpVersion (raised : option exn)
| XPopen (command : list text) (result : Z + exn)
| XPoll (pid : Z) (returncode : option Z)
| XNap (interrupted : bool)
| XInput (p : prompt) (answer : option text).

Section XProg.

Variable W : Type.

Definition xprog (A : Type) : Type := W -> list xevent * W * (A + xexn).

Definition xret {A} (a : A) : xprog A := fun w => ([], w, inl a).

Definition xraise {A} (e : xexn) : xprog A := fun w => ([], w, inr e).

Definition xbind {A B} (m : xprog A) (k : A -> xprog B) : xprog B :=
  fun w =>
    match m w with
    | (t1, w1, inl a) =>
        match k a w1 with (t2, w2, r) => (t1 ++ t2, w2, r) end
    | (t1, w1, inr e) => (t1, w1, inr e)
    end.

Definition xtry {A} (m : xprog A) (handler : xexn -> xprog A) : xprog A :=
  fun w =>
    match m w with
    | (t1, w1, inl a) => (t1, w1, inl a)
    | (t1, w1, inr e) =>
        match handler e w1 with (t2, w2, r) => (t1 ++ t2, w2, r) end
    end.

(** [try: m  finally: cleanup]: the cleanup runs either way; what [m]
    raised is raised again after it, unless the cleanup raises itself. *)
Definition xfinally {A} (m : xprog A) (cleanup : xprog unit) : xprog A :=
  fun w =>
    match m w with
    | (t1, w1, r) =>
        match cleanup w1 with
        | (t2, w2, inl _) => (t1 ++ t2, w2, r)
        | (t2, w2, inr e) => (t1 ++ t2, w2, inr e)
        end
    end.

(** As [xfinally], for a body that reports with [false] that it is still
    running (its polls ran out): then the cleanup has not been reached. *)
Definition xfinally_done (m : xprog bool) (cleanup : xprog unit) : xprog bool :=
  fun w =>
    match m w with
    | (t1, w1, inl false) => (t1, w1, inl false)
    | (t1, w1, r) =>
        match cleanup w1 with
        | (t2, w2, inl _) => (t1 ++ t2, w2, r)
        | (t2, w2, inr e) => (t1 ++ t2, w2, inr e)
        end
    end.

Definition xemit (ev : xevent) : xprog unit := fun w => ([ev], w, inl tt).

Definition xprint (m : xmessage) : xprog unit := xemit (XPrint m).

Definition xget : xprog W := fun w => ([], w, inl w).

Definition xput (w : W) : xprog unit := fun _ => ([], w, inl tt).

(** A function of the first part, run on the part [view] of the world. *)
Definition lift {V A} (view : W -> V) (update : V -> W -> W) (m : prog V A)
  : xprog A :=
  fun w =>
    match m (view w) with
    | (t, v, inl a) => (map Base t, update v w, inl a)
    | (t, v, inr e) => (map Base t, update v w, inr (Raised e))
    end.

End XProg.

Arguments xret {W A} a.
Arguments xraise {W A} e.
Arguments xemit {W} ev.
Arguments xprint {W} m.
Arguments xget {W}.

Notation "x <<- m ;;; k" := (xbind m (fun x => k))
  (at level 61, m at next level, right associativity).
Notation "m ;;; k" := (xbind m (fun _ => k))
  (at level 61, right associativity).

(** What a run of the command-line program printed itself, and the events
    of the functions of the first part within it. *)
Definition xprinted (t : list xevent) : list xmessage :=
  flat_map (fun ev => match ev with XPrint m => [m] | _ => [] end) t.

Definition base_events (t : list xevent) : list event :=
  flat_map (fun ev => match ev with Base e => [e] | _ => [] end) t.

(** [choice == 'y'] for [choice = input(...).lower()]: the strings whose
    lower case is [y] are [y] and [Y]. *)
Definition lower_is_y (answer : text) : bool :=
  match answer with
  | [c] => ((c =? 121) || (c =? 89))%N
  | _ => false
  end.

(** Line 16. *)
Definition DOC_ROOT : text := txt ".".

Section Session.

Variable K : Type.
Variable os_kill : Z -> signal -> K -> option exn * K.
Variable os_sleep : Z -> K -> K.
Variable decimal : char -> option Z.
Variable max_str_digits : N.

(** [subprocess.Popen(command, ...)]: the PID of the child, or the exception.
    [os_poll] is [process.poll()]; [os_nap] is [time.sleep(0.5)] in the
    waiting loop, with [true] when Ctrl+C arrives during it. *)
Variable os_popen : list text -> K -> (Z + exn) * K.
Variable os_poll : Z -> K -> option Z * K.
Variable os_nap : K -> bool * K.

Record session := {
  os_name : platform;            (* platform.system().lower() *)
  hosts_file : file;             (* the file at get_hosts_file_path() *)
  dns_flush_ok : bool;           (* whether ipconfig /flushdns exits with 0 *)
  marker : file;                 (* the file at PHP_SERVER_PID_FILE *)
  marker_removable : bool;       (* whether os.remove of it is permitted *)
  procs : K;                     (* the processes *)
  activator_exists : bool;       (* os.path.exists("activator.php") *)
  euid_is_root : bool;           (* os.geteuid() == 0 *)
  is_user_an_admin : option bool;(* IsUserAnAdmin() != 0; None: ctypes raises *)
  php_version : option exn;      (* what running php --version raises *)
  stdin : list text              (* the lines still to be read by input() *)
}.

Definition hosts_view (s : session) : hosts_world :=
  {| system := os_name s; hosts := hosts_file s; flushdns_ok := dns_flush_ok s |}.

Definition set_hosts_view (v : hosts_world) (s : session) : session :=
  {| os_name := system v; hosts_file := hosts v; dns_flush_ok := flushdns_ok v;
     marker := marker s; marker_removable := marker_removable s;
     procs := procs s; activator_exists := activator_exists s;
     euid_is_root := euid_is_root s; is_user_an_admin := is_user_an_admin s;
     php_version := php_version s; stdin := stdin s |}.

Definition sup_view (s : session) : sup_world K :=
  {| sup_system := os_name s; pid_file := marker s;
     pid_file_removable := marker_removable s; kernel := procs s |}.

Definition set_sup_view (v : sup_world K) (s : session) : session :=
  {| os_name := sup_system v; hosts_file := hosts_file s;
     dns_flush_ok := dns_flush_ok s;
     marker := pid_file v; marker_removable := pid_file_removable v;
     procs := kernel v; activator_exists := activator_exists s;
     euid_is_root := euid_is_root s; is_user_an_admin := is_user_an_admin s;
     php_version := php_version s; stdin := stdin s |}.

Definition set_marker (f : file) (s : session) : session :=
  set_sup_view (set_pid_file f (sup_view s)) s.

Definition set_procs (k : K) (s : session) : session :=
  set_sup_view (set_kernel k (sup_view s)) s.

Definition set_stdin (lines : list text) (s : session) : session :=
  {| os_name := os_name s; hosts_file := hosts_file s;
     dns_flush_ok := dns_flush_ok s;
     marker := marker s; marker_removable := marker_removable s;
     procs := procs s; activator_exists := activator_exists s;
     euid_is_root := euid_is_root s; is_user_an_admin := is_user_an_admin s;
     php_version := php_version s; stdin := lines |}.

(** The same session for a user with other rights. *)
Definition with_admin (root : bool) (admin : option bool) (s : session)
  : session :=
  {| os_name := os_name s; hosts_file := hosts_file s;
     dns_flush_ok := dns_flush_ok s;
     marker := marker s; marker_removable := marker_removable s;
     procs := procs s; activator_exists := activator_exists s;
     euid_is_root := root; is_user_an_admin := admin;
     php_version := php_version s; stdin := stdin s |}.

Definition on_hosts {A} (m : prog hosts_world A) : xprog session A :=
  lift hosts_view set_hosts_view m.

Definition on_supervisor {A} (m : prog (sup_world K) A) : xprog session A :=
  lift sup_view set_sup_view m.

(** [check_php_installed], lines 20-28. *)
Definition check_php_installed : xprog session bool :=
  s <<- xget ;;;
  xemit (XPhpVersion (php_version s)) ;;;
  match php_version s with
  | None => xprint MsgPhpInstalled ;;; xret true
  | Some CalledProcessError | Some FileNotFoundError =>
      xprint MsgPhpMissing ;;; xret false
  | Some e => xraise (Raised e)
  end.

(** [subprocess.Popen(php_command, stdout=sys.stdout, stderr=sys.stderr)] *)
Definition popen (command : list text) : xprog session Z :=
  s <<- xget ;;;
  let (result, k) := os_popen command (procs s) in
  xput (set_procs k s) ;;;
  xemit (XPopen command result) ;;;
  match result with
  | inl pid => xret pid
  | inr e => xraise (Raised e)
  end.

(** Lines 226-227: [open(PHP_SERVER_PID_FILE, "w")] and [f.write(content)];
    the file is made or emptied, then written in text mode. *)
Definition write_marker (content : text) : xprog session unit :=
  s <<- xget ;;;
  match marker s with
  | Absent creatable =>
      if creatable
      then xput (set_marker
                   (Present (encode_newlines (os_name s) content) true true) s)
      else xraise (Raised PermissionError)
  | Present _ r writable =>
      if writable
      then xput (set_marker
                   (Present (encode_newlines (os_name s) content) r writable) s)
      else xraise (Raised PermissionError)
  end.

(** Lines 189-201: whether the user has administrator rights, as far as the
    platform tells. *)
Definition current_user_has_admin : xprog session bool :=
  s <<- xget ;;;
  if is_unix (os_name s) then xret (euid_is_root s)
  else if is_windows (os_name s) then
    match is_user_an_admin s with
    | Some b => xret b
    | None => xprint MsgAdminUnknown ;;; xret false
    end
  else xret false.

(** The command of line 212. *)
Definition php_command (port : Z) (doc_root : text) : list text :=
  [txt "php"; txt "-S"; txt "0.0.0.0:" ++ py_str port; txt "-t"; doc_root].

(** Lines 184-215: the warning about a privileged port for a user without
    administrator rights, and the announcement of the launch. *)
Definition announce_launch (port : Z) (doc_root : text) : xprog session unit :=
  s <<- xget ;;;
  let is_privileged_port := (port <? 1024)%Z in
  has_admin <<- current_user_has_admin ;;;
  (if is_privileged_port && negb has_admin then
     xprint (MsgPrivilegedPort port) ;;;
     if is_windows (os_name s) then xprint (MsgRunAsAdministrator port)
     else xprint (MsgUseSudo port)
   else xret tt) ;;;
  xprint (MsgStarting (php_command port doc_root)) ;;;
  xprint (MsgServingFrom doc_root) ;;;
  xprint MsgOutputBelow.

(** Lines 217-240: the launch and the writing of the PID file. *)
Definition launch (port : Z) (doc_root : text) : xprog session (option Z) :=
  xtry
    (pid <<- popen (php_command port doc_root) ;;;
     xtry
       (write_marker (py_str pid) ;;; xprint (MsgStarted pid))
       (fun e =>
          match e with
          | Raised e' =>
              if is_OSError e'
              then xprint (MsgPidFileNotWritten e') ;;;
                   xprint MsgStopManuallyLater
              else xraise e
          | _ => xraise e
          end) ;;;
     xret (Some pid))
    (fun e =>
       match e with
       | Raised FileNotFoundError => xprint MsgPhpCommandNotFound ;;; xret None
       | Raised _ | EOFError => xprint (MsgStartFailed e) ;;; xret None
       | KeyboardInterrupt | SystemExit _ => xraise e
       end).

(** [start_php_server], lines 177-240: the PID of the child for the
    [Popen] object, [None] for [None]. *)
Definition start_php_server (port : Z) (doc_root : text)
  : xprog session (option Z) :=
  s <<- xget ;;;
  if negb (activator_exists s) then
    xprint MsgActivatorMissing ;;; xprint MsgActivatorHint ;;; xret None
  else
    announce_launch port doc_root ;;; launch port doc_root.

(** [input(question)]: the next line of standard input, [EOFError] at its
    end.  Ctrl+C at the prompt, which nothing catches, ends the program
    there; such a run is not among the runs described. *)
Definition py_input (p : prompt) : xprog session text :=
  s <<- xget ;;;
  match stdin s with
  | [] => xemit (XInput p None) ;;; xraise EOFError
  | answer :: rest =>
      xput (set_stdin rest s) ;;; xemit (XInput p (Some answer)) ;;; xret answer
  end.

(** Lines 315-329. *)
Definition manage_hosts_add_interactive (skip_hosts_mod : bool)
  : xprog session unit :=
  if skip_hosts_mod then xprint MsgSkipHostsModification
  else
    present <<- on_hosts (is_entry_in_hosts HOSTS_ENTRY) ;;;
    if negb present then
      xprint MsgEntryNotPresentAsk ;;;
      choice <<- py_input AskAdd ;;;
      if lower_is_y choice then
        added <<- on_hosts (add_to_hosts HOSTS_ENTRY) ;;;
        if negb added then xprint MsgAddFailedManual ;;; xraise (SystemExit 1)
        else xret tt
      else xprint MsgSkipAddition
    else xprint MsgEntryIsPresent.

(** Lines 331-344. *)
Definition manage_hosts_remove_interactive (skip_hosts_mod : bool)
  : xprog session unit :=
  if skip_hosts_mod then xprint MsgSkipHostsRemoval
  else
    present <<- on_hosts (is_entry_in_hosts HOSTS_ENTRY) ;;;
    if present then
      xprint MsgEntryPresentAsk ;;;
      choice <<- py_input AskRemove ;;;
      if lower_is_y choice then
        removed <<- on_hosts (remove_from_hosts HOSTS_ENTRY) ;;;
        if negb removed then xprint MsgRemoveFailedManual else xret tt
      else xprint MsgSkipRemoval
    else xprint MsgEntryNotPresent.

(** [php_process.poll()] *)
Definition poll (pid : Z) : xprog session (option Z) :=
  s <<- xget ;;;
  let (returncode, k) := os_poll pid (procs s) in
  xput (set_procs k s) ;;; xemit (XPoll pid returncode) ;;; xret returncode.

(** [time.sleep(0.5)] in the waiting loop; Ctrl+C ends it with
    [KeyboardInterrupt]. *)
Definition nap : xprog session unit :=
  s <<- xget ;;;
  let (interrupted, k) := os_nap (procs s) in
  xput (set_procs k s) ;;; xemit (XNap interrupted) ;;;
  if interrupted then xraise KeyboardInterrupt else xret tt.

(** The loop of lines 364-365, for at most [fuel] polls: [true] when the
    child was seen to have exited, [false] when the polls ran out. *)
Fixpoint wait_for_exit (fuel : nat) (pid : Z) : xprog session bool :=
  match fuel with
  | O => xret false
  | S f =>
      returncode <<- poll pid ;;;
      match returncode with
      | Some _ => xret true
      | None => nap ;;; wait_for_exit f pid
      end
  end.

(** What the processes make of that loop: the child is seen to have exited
    ([Some true]), Ctrl+C arrives during a wait ([Some false]), or the polls
    run out ([None]); with the processes as they are then. *)
Fixpoint watch (fuel : nat) (pid : Z) (k : K) : option bool * K :=
  match fuel with
  | O => (None, k)
  | S f =>
      let (returncode, k1) := os_poll pid k in
      match returncode with
      | Some _ => (Some true, k1)
      | None =>
          let (interrupted, k2) := os_nap k1 in
          if interrupted then (Some false, k2) else watch f pid k2
      end
  end.

(** Lines 357-374, the branch of the start command for a server that was
    launched: [true] when the branch ran to its end, [false] when the
    server was still running after [fuel] polls. *)
Definition supervise (fuel : nat) (port : Z) (no_hosts : bool) (pid : Z)
  : xprog session bool :=
  xprint (MsgServerStarted port) ;;;
  xprint (MsgConnectHint port) ;;;
  xprint MsgCertificateHint ;;;
  xprint MsgPressCtrlC ;;;
  xfinally_done
    (xtry
       (exited <<- wait_for_exit fuel pid ;;;
        if exited : bool then xprint MsgTerminatedOnItsOwn ;;; xret true
        else xret false)
       (fun e =>
          match e with
          | KeyboardInterrupt => xprint MsgCtrlCDetected ;;; xret true
          | _ => xraise e
          end))
    (returncode <<- poll pid ;;;
     (match returncode with
      | None =>
          _ <<- on_supervisor
                  (stop_php_server os_kill os_sleep decimal max_str_digits) ;;;
          xret tt
      | Some _ => xret tt
      end) ;;;
     manage_hosts_remove_interactive no_hosts ;;;
     xprint MsgShutdownComplete).

(** Lines 347-381, the start command. *)
Definition start_command (fuel : nat) (port : Z) (no_hosts : bool)
  : xprog session bool :=
  xprint MsgStartBanner ;;;
  installed <<- check_php_installed ;;;
  if negb installed then xraise (SystemExit 1)
  else
    manage_hosts_add_interactive no_hosts ;;;
    php_process <<- start_php_server port DOC_ROOT ;;;
    match php_process with
    | Some pid => supervise fuel port no_hosts pid
    | None =>
        xprint MsgServerFailedToStart ;;;
        present <<-
          (if no_hosts then xret false
           else on_hosts (is_entry_in_hosts HOSTS_ENTRY)) ;;;
        (if present : bool then
           xprint MsgRevertingHosts ;;;
           _ <<- on_hosts (remove_from_hosts HOSTS_ENTRY) ;;;
           xret tt
         else xret tt) ;;;
        xraise (SystemExit 1)
    end.

(** Lines 383-390, the stop command. *)
Definition stop_command (no_hosts : bool) : xprog session unit :=
  xprint MsgStopBanner ;;;
  stopped <<-
    on_supervisor (stop_php_server os_kill os_sleep decimal max_str_digits) ;;;
  (if negb stopped then xprint MsgNotStoppedCleanly
   else xprint MsgStoppedOrNotRunning) ;;;
  manage_hosts_remove_interactive no_hosts ;;;
  xprint MsgShutdownProcessComplete.

End Session.

(** For concrete runs: a [Popen] with a fixed result, and a Linux session of
    a user without special rights, with PHP and [activator.php] in place. *)
Definition fixed_popen (result : Z + exn) (_ : list text)
    (script : list (option exn)) : (Z + exn) * list (option exn) :=
  (result, script).

(** A child whose every [poll()] gives the same answer, and waits that are
    all interrupted or all left alone. *)
Definition fixed_poll (returncode : option Z) (_ : Z)
    (script : list (option exn)) : option Z * list (option exn) :=
  (returncode, script).

Definition fixed_nap (interrupted : bool) (script : list (option exn))
  : bool * list (option exn) :=
  (interrupted, script).

Definition linux_session(hosts_content : file) (pid_file_state : file)
    (script : list (option exn)) (answers : list text)
  : session (list (option exn)) :=
  {| os_name := Linux; hosts_file := hosts_content; dns_flush_ok := true;
     marker := pid_file_state; marker_removable := true; procs := script;
     activator_exists := true; euid_is_root := false;
     is_user_an_admin := None; php_version := None; stdin := answers |}.

(** The three parts of the outcome of a run of the command-line program. *)
Definition xtrace_of {W A} (o : list xevent * W * (A + xexn)) : list xevent :=
  fst (fst o).

Definition xworld_of {W A} (o : list xevent * W * (A + xexn)) : W :=
  snd (fst o).

Definition xvalue_of {W A} (o : list xevent * W * (A + xexn)) : A + xexn :=
  snd o.

(** A stretch of a run in which the program only prints. *)
Definition only_prints (t : list xevent) : Prop :=
  forall ev, In ev t -> exists m, ev = XPrint m.

(** The number that decimal digits denote when the last digit comes first. *)
Definition little_endian_value (digits : text) : Z :=
  fold_right (fun c v => (10 * v + (Z.of_N c - 48))%Z) 0%Z digits.

(** * Properties *)

Unset Implicit Arguments.

(** ** The model on small inputs *)

(** The white space of [str.strip()] below U+3100. *)
Example is_space_table :
  filter is_space (map N.of_nat (seq 0 (N.to_nat 12544))) =
  [9; 10; 11; 12; 13; 28; 29; 30; 31; 32; 133; 160; 5760;
   8192; 8193; 8194; 8195; 8196; 8197; 8198; 8199; 8200; 8201; 8202;
   8232; 8233; 8239; 8287; 12288]%N.
Proof. vm_compute. reflexivity. Qed.

(** The bytes [a CR b CR LF c LF CR LF CR d] read as six lines. *)
Example file_lines_mixed_ends :
  file_lines (txt "a" ++ [CR] ++ txt "b" ++ [CR; LF] ++ txt "c" ++
              [LF; CR; LF; CR] ++ txt "d") =
  [ln "a"; ln "b"; ln "c"; [LF]; [LF]; txt "d"].
Proof. reflexivity. Qed.

Example strip_both_sides :
  strip ([32%N; 9%N] ++ txt "# x y" ++ [32%N; LF]) = txt "# x y".
Proof. reflexivity. Qed.

Example contains_examples :
  contains (txt "b.c") (txt "a.b.c.d") = true /\
  contains (txt "b.c") (txt "a.b") = false /\
  contains [] [] = true.
Proof. repeat split. Qed.

Example py_int_examples :
  map (py_int ascii_decimal 4300)
    [txt "12"; txt "+12"; txt "-12"; txt "007"; txt "1_000"; txt "1__0";
     txt "_1"; txt "1_"; txt "- 1"; txt ""; txt "+"; txt "-_1"; txt "+-1";
     txt "0x10"; txt "1.0"] =
  [Some 12; Some 12; Some (-12); Some 7; Some 1000; None;
   None; None; None; None; None; None; None;
   None; None]%Z.
Proof. reflexivity. Qed.

(** On Windows the text written gets CR LF line ends, and reads back as
    written. *)
Example encode_newlines_windows :
  encode_newlines Windows ([LF] ++ txt "x" ++ [LF]) =
    [CR; LF] ++ txt "x" ++ [CR; LF] /\
  universal (encode_newlines Windows ([LF] ++ txt "x" ++ [LF])) =
    [LF] ++ txt "x" ++ [LF].
Proof. split; reflexivity. Qed.

(** ** Text *)

Lemma startswith_iff (p s : text) :
  startswith p s = true <-> exists b, s = p ++ b.
Proof.
  revert s; induction p as [|a p IH]; intros s; simpl.
  - split; [intros _; now exists s | reflexivity].
  - destruct s as [|b s].
    + split; [discriminate | intros [x Hx]; discriminate].
    + rewrite andb_true_iff, N.eqb_eq, IH. split.
      * intros [-> [x ->]]. now exists x.
      * intros [x Hx]. injection Hx as -> ->. split; [reflexivity | now exists x].
Qed.

Lemma contains_iff (p s : text) : contains p s = true <-> substring p s.
Proof.
  unfold substring. induction s as [|c s IH].
  - simpl. rewrite orb_false_r, startswith_iff. split.
    + intros [b Hb]. exists [], b. exact Hb.
    + intros [a [b Hab]]. destruct a; [now exists b | discriminate].
  - cbn [contains]. rewrite orb_true_iff, IH, startswith_iff. split.
    + intros [[b Hb] | [a [b Hab]]].
      * exists [], b. exact Hb.
      * exists (c :: a), b. simpl. now rewrite Hab.
    + intros [[|c' a] [b Hab]].
      * left. now exists b.
      * right. injection Hab as _ ->. now exists a, b.
Qed.

Lemma lstrip_app_nonspace (x : text) (c : char) :
  is_space c = false -> exists y, lstrip (x ++ [c]) = y ++ [c].
Proof.
  intros Hc. induction x as [|d x [y Hy]]; simpl.
  - rewrite Hc. now exists [].
  - destruct (is_space d).
    + now exists y.
    + exists (d :: x). reflexivity.
Qed.

Lemma rstrip_head (c : char) (r : text) :
  is_space c = false -> exists t, rstrip (c :: r) = c :: t.
Proof.
  intros Hc. unfold rstrip. simpl rev.
  destruct (lstrip_app_nonspace (rev r) c Hc) as [y ->].
  rewrite rev_app_distr. simpl. now exists (rev y).
Qed.

Lemma lstrip_head (s : text) :
  lstrip s = [] \/ exists c r, lstrip s = c :: r /\ is_space c = false.
Proof.
  induction s as [|c s IH]; simpl; [now left|].
  destruct (is_space c) eqn:Hc; [exact IH|].
  right. now exists c, s.
Qed.

(** Trimming on the right as well does not change whether the first
    character left is [#]. *)
Lemma strip_startswith_hash (s : text) :
  startswith [HASH] (strip s) = startswith [HASH] (lstrip s).
Proof.
  unfold strip. destruct (lstrip_head s) as [-> | (c & r & -> & Hc)].
  - reflexivity.
  - destruct (rstrip_head c r Hc) as [t ->]. reflexivity.
Qed.

Lemma lstrip_commented (s : text) :
  startswith [HASH] (lstrip s) = true <-> commented s.
Proof.
  unfold commented. induction s as [|c s IH]; cbn [lstrip].
  - split; [discriminate|]. intros (ws & rest & H & _). now destruct ws.
  - destruct (is_space c) eqn:Hc.
    + rewrite IH. split.
      * intros (ws & rest & -> & Hws). exists (c :: ws), rest. split; [reflexivity|].
        now constructor.
      * intros (ws & rest & H & Hws). destruct ws as [|d ws].
        -- simpl in H. injection H as -> _. discriminate Hc.
        -- simpl in H. injection H as -> ->. exists ws, rest. split; [reflexivity|].
           now inversion Hws.
    + cbn [startswith]. rewrite andb_true_r, N.eqb_eq. split.
      * intros <-. exists [], s. split; [reflexivity | constructor].
      * intros (ws & rest & H & Hws). destruct ws as [|d ws].
        -- simpl in H. now injection H as ->.
        -- simpl in H. injection H as -> _. inversion Hws; congruence.
Qed.

(** The test of the code, in the words of the specification. *)
Lemma active_match_iff (entry line : text) :
  active_match entry line = true <-> substring entry line /\ ~ commented line.
Proof.
  unfold active_match.
  rewrite andb_true_iff, contains_iff, strip_startswith_hash, negb_true_iff.
  rewrite <- lstrip_commented. now rewrite not_true_iff_false.
Qed.

Lemma scan_lines_existsb (entry : text) (lines : list text) :
  scan_lines entry lines = existsb (active_match entry) lines.
Proof.
  induction lines as [|l ls IH]; simpl; [reflexivity|].
  rewrite IH. now destruct (active_match entry l).
Qed.

Lemma scan_lines_false_kept (entry : text) (lines : list text) :
  scan_lines entry lines = false -> kept entry lines = lines.
Proof.
  unfold kept. induction lines as [|l ls IH]; simpl; [reflexivity|].
  destruct (active_match entry l); [discriminate|].
  intros H. simpl. now rewrite IH.
Qed.

(** ** Lines *)

Lemma splitlines_nil_inv (s : text) : splitlines s = [] -> s = [].
Proof.
  destruct s as [|c r]; [reflexivity|]. cbn [splitlines].
  destruct (c =? LF)%N; [discriminate|].
  destruct (splitlines r); discriminate.
Qed.

Lemma concat_splitlines (s : text) : List.concat (splitlines s) = s.
Proof.
  induction s as [|c r IH]; [reflexivity|]. cbn [splitlines].
  destruct (c =? LF)%N.
  - simpl. now rewrite IH.
  - destruct (splitlines r) as [|l ls] eqn:E.
    + apply splitlines_nil_inv in E. now subst.
    + simpl in *. now rewrite IH.
Qed.

Lemma splitlines_app_lf (x y : text) :
  splitlines (x ++ LF :: y) = splitlines (x ++ [LF]) ++ splitlines y.
Proof.
  induction x as [|c r IH]; [reflexivity|].
  cbn [app splitlines]. destruct (c =? LF)%N.
  - now rewrite IH.
  - rewrite IH. destruct (splitlines (r ++ [LF])) as [|l ls] eqn:E.
    + apply splitlines_nil_inv in E. now destruct r.
    + reflexivity.
Qed.

Lemma splitlines_no_lf (l : text) :
  l <> [] -> ~ In LF l -> splitlines l = [l].
Proof.
  induction l as [|c r IH]; [congruence|]. intros _ Hno.
  cbn [splitlines]. destruct (N.eqb_spec c LF) as [->|Hc].
  - exfalso. apply Hno. now left.
  - destruct r as [|d r]; [reflexivity|].
    rewrite IH; [reflexivity | discriminate |].
    intros H. apply Hno. now right.
Qed.

Lemma splitlines_body_lf (body : text) :
  ~ In LF body -> splitlines (body ++ [LF]) = [body ++ [LF]].
Proof.
  induction body as [|c r IH]; intros Hno; [reflexivity|].
  cbn [app splitlines]. destruct (N.eqb_spec c LF) as [->|Hc].
  - exfalso. apply Hno. now left.
  - rewrite IH; [reflexivity|]. intros H. apply Hno. now right.
Qed.

Lemma terminated_cons (c : char) (l : text) :
  c <> LF -> terminated l -> terminated (c :: l).
Proof.
  intros Hc (body & -> & Hno). exists (c :: body). split; [reflexivity|].
  intros [H | H]; [congruence | contradiction].
Qed.

Lemma wf_lines_splitlines (s : text) : wf_lines (splitlines s).
Proof.
  induction s as [|c r IH]; [constructor|]. cbn [splitlines].
  destruct (N.eqb_spec c LF) as [->|Hc].
  - apply wf_cons; [|exact IH]. exists []. split; [reflexivity | intros []].
  - destruct (splitlines r) as [|l ls].
    + apply wf_last; [discriminate|]. intros [H | []]. congruence.
    + inversion IH as [| l' Hne Hno | l' ls' Ht Hwf]; subst.
      * apply wf_last; [discriminate|]. intros [H | H]; [congruence | contradiction].
      * apply wf_cons; [now apply terminated_cons | exact Hwf].
Qed.

Lemma wf_lines_filter (f : text -> bool) (ls : list text) :
  wf_lines ls -> wf_lines (filter f ls).
Proof.
  induction 1 as [| l Hne Hno | l ls Ht Hwf IH]; simpl.
  - constructor.
  - destruct (f l); [now apply wf_last | constructor].
  - destruct (f l); [now apply wf_cons | exact IH].
Qed.

Lemma splitlines_concat (ls : list text) :
  wf_lines ls -> splitlines (List.concat ls) = ls.
Proof.
  induction 1 as [| l Hne Hno | l ls (body & -> & Hno) Hwf IH]; simpl.
  - reflexivity.
  - rewrite app_nil_r. now apply splitlines_no_lf.
  - rewrite <- app_assoc. simpl. rewrite splitlines_app_lf, IH.
    now rewrite splitlines_body_lf.
Qed.

(** Writing back a selection of the lines read gives a file with exactly
    those lines. *)
Lemma splitlines_concat_filter (f : text -> bool) (s : text) :
  splitlines (List.concat (filter f (splitlines s))) = filter f (splitlines s).
Proof.
  apply splitlines_concat, wf_lines_filter, wf_lines_splitlines.
Qed.

(** ** Line ends in and out *)

Lemma universal_from_app (b : bool) (x y : text) :
  universal_from b (x ++ y) =
  universal_from b x ++ universal_from (cr_pending b x) y.
Proof.
  revert b. induction x as [|c r IH]; intros b; [reflexivity|].
  cbn [app universal_from cr_pending fold_left].
  fold (cr_pending (c =? CR)%N r).
  destruct (N.eqb_spec c CR) as [->|Hc].
  - cbn [app]. now rewrite IH.
  - destruct (c =? LF)%N; [destruct b|]; cbn [app]; now rewrite IH.
Qed.

Lemma cr_pending_app_lf (b : bool) (x : text) : cr_pending b (x ++ [LF]) = false.
Proof.
  unfold cr_pending. now rewrite fold_left_app.
Qed.

Lemma universal_from_single (entry y : text) :
  single_line entry ->
  universal_from false (entry ++ y) = entry ++ universal_from false y.
Proof.
  induction 1 as [|c r [Hlf Hcr] _ IH]; [reflexivity|].
  cbn [app universal_from].
  destruct (N.eqb_spec c CR); [contradiction|].
  destruct (N.eqb_spec c LF); [contradiction|].
  now rewrite IH.
Qed.

Lemma universal_ends_lf (b : bool) (x : text) :
  (b = true -> x <> []) -> exists u, universal_from b (x ++ [LF]) = u ++ [LF].
Proof.
  revert b. induction x as [|c r IH]; intros b Hb.
  - destruct b; [now elim Hb|]. now exists [].
  - cbn [app universal_from]. destruct (c =? CR)%N.
    + destruct r as [|d r].
      * now exists [].
      * destruct (IH true) as [u Hu]; [discriminate|].
        rewrite Hu. now exists (LF :: u).
    + destruct (IH false) as [u Hu]; [discriminate|]. rewrite Hu.
      destruct (c =? LF)%N; [destruct b|].
      * now exists u.
      * now exists (LF :: u).
      * now exists (c :: u).
Qed.

Lemma universal_no_cr (b : bool) (x : text) : ~ In CR (universal_from b x).
Proof.
  revert b. induction x as [|c r IH]; intros b; [intros []|].
  cbn [universal_from]. destruct (N.eqb_spec c CR) as [->|Hc].
  - intros [H | H]; [discriminate | now apply IH in H].
  - destruct (c =? LF)%N; [destruct b|]; try apply IH.
    + intros [H | H]; [discriminate | now apply IH in H].
    + intros [H | H]; [congruence | now apply IH in H].
Qed.

Lemma encode_newlines_app (sys : platform) (x y : text) :
  encode_newlines sys (x ++ y) = encode_newlines sys x ++ encode_newlines sys y.
Proof. apply flat_map_app. Qed.

Lemma encode_newlines_no_lf (sys : platform) (x : text) :
  ~ In LF x -> encode_newlines sys x = x.
Proof.
  induction x as [|c r IH]; intros Hno; [reflexivity|]. simpl.
  destruct (N.eqb_spec c LF) as [->|Hc].
  - exfalso. apply Hno. now left.
  - simpl. rewrite IH; [reflexivity|]. intros H. apply Hno. now right.
Qed.

Lemma encode_newlines_lf (sys : platform) : encode_newlines sys [LF] = linesep sys.
Proof. simpl. apply app_nil_r. Qed.

(** Off Windows nothing is translated on output. *)
Lemma encode_newlines_posix (sys : platform) (x : text) :
  is_windows sys = false -> encode_newlines sys x = x.
Proof.
  intros Hs. unfold encode_newlines, linesep. rewrite Hs.
  induction x as [|c r IH]; [reflexivity|]. simpl. rewrite IH.
  now destruct (N.eqb_spec c LF) as [->|].
Qed.

(** What was written in text mode reads back as it was, provided it held no
    carriage return. *)
Lemma universal_encode (sys : platform) (x : text) :
  ~ In CR x -> universal (encode_newlines sys x) = x.
Proof.
  unfold universal. induction x as [|c r IH]; intros Hno; [reflexivity|].
  assert (Hr : ~ In CR r) by (intros H; apply Hno; now right).
  assert (Hc : c <> CR) by (intros ->; apply Hno; now left).
  cbn [encode_newlines flat_map]. fold (encode_newlines sys r).
  destruct (N.eqb_spec c LF) as [->|Hlf].
  - unfold linesep. destruct (is_windows sys); simpl; now rewrite IH.
  - cbn [app universal_from].
    destruct (N.eqb_spec c CR); [contradiction|].
    destruct (N.eqb_spec c LF); [contradiction|]. now rewrite IH.
Qed.

Lemma universal_linesep (b : bool) (sys : platform) (x : text) :
  (b = true -> x <> []) ->
  exists u, universal_from b (x ++ linesep sys) = u ++ [LF] /\
            cr_pending b (x ++ linesep sys) = false.
Proof.
  intros Hb. unfold linesep. destruct (is_windows sys).
  - change [CR; LF] with ([CR] ++ [LF]). rewrite app_assoc.
    destruct (universal_ends_lf b (x ++ [CR])) as [u Hu].
    + intros _. now destruct x.
    + exists u. split; [exact Hu | apply cr_pending_app_lf].
  - destruct (universal_ends_lf b x Hb) as [u Hu].
    exists u. split; [exact Hu | apply cr_pending_app_lf].
Qed.

(** ** Running the hosts-file functions *)

Ltac run_prog :=
  cbv [bind ret raise try_except emit print get put
       get_hosts_file_path read_hosts write_hosts open_hosts_append
       open_hosts_truncate run_flushdns dns_cache_step set_hosts
       system hosts flushdns_ok].

Lemma is_entry_in_hosts_readable (entry : text) (w : hosts_world)
    (raw : text) (wr : bool) :
  supported (system w) = true ->
  hosts w = Present raw true wr ->
  is_entry_in_hosts entry w = ([], w, inl (scan_lines entry (file_lines raw))).
Proof.
  destruct w as [sys h fl]. simpl. intros Hs ->.
  unfold is_entry_in_hosts. destruct sys; try discriminate Hs; reflexivity.
Qed.

Lemma dns_cache_step_run (note : message) (w : hosts_world) :
  exists t, dns_cache_step note w = (t, w, inl tt).
Proof.
  destruct w as [sys h fl]. unfold dns_cache_step.
  destruct sys, fl; run_prog; simpl; eauto.
Qed.

Lemma rewrite_lines_run (entry : text) (lines : list text) :
  forall (found : bool) (sys : platform) (acc : text) (r wr fl : bool),
    rewrite_lines entry lines found
      {| system := sys; hosts := Present acc r wr; flushdns_ok := fl |} =
    ([],
     {| system := sys;
        hosts := Present
                   (acc ++ encode_newlines sys (List.concat (kept entry lines)))
                   r wr;
        flushdns_ok := fl |},
     inl (found || existsb (active_match entry) lines)).
Proof.
  induction lines as [|line rest IH]; intros found sys acc r wr fl.
  - simpl. run_prog. now rewrite app_nil_r, orb_false_r.
  - cbn [rewrite_lines kept filter existsb].
    destruct (active_match entry line) eqn:Hm; cbn [negb].
    + rewrite IH. now rewrite orb_true_r.
    + unfold bind at 1. unfold write_hosts at 1. run_prog. rewrite IH.
      cbn [List.concat app]. fold (kept entry rest).
      now rewrite encode_newlines_app, app_assoc.
Qed.

Lemma add_to_hosts_present (entry : text) (w : hosts_world)
    (raw : text) (wr : bool) :
  supported (system w) = true ->
  hosts w = Present raw true wr ->
  scan_lines entry (file_lines raw) = true ->
  add_to_hosts entry w = ([EPrint (MsgEntryAlreadyExists entry)], w, inl true).
Proof.
  intros Hs Hh Hscan. unfold add_to_hosts, bind at 1.
  assert (Hp : get_hosts_file_path w = ([], w, inl (Some (path_for (system w))))).
  { destruct w as [sys h fl]. simpl in Hs. now destruct sys. }
  rewrite Hp. unfold bind at 1.
  rewrite (is_entry_in_hosts_readable entry w raw wr Hs Hh), Hscan.
  reflexivity.
Qed.

Lemma add_to_hosts_appends (entry : text) (w : hosts_world) (raw : text) :
  supported (system w) = true ->
  hosts w = Present raw true true ->
  scan_lines entry (file_lines raw) = false ->
  exists t,
    add_to_hosts entry w =
    (EPrint (MsgAdded entry (path_for (system w))) :: t,
     set_hosts
       (Present (raw ++ encode_newlines (system w) ([LF] ++ entry ++ [LF]))
          true true) w,
     inl true).
Proof.
  intros Hs Hh Hscan. unfold add_to_hosts, bind at 1.
  assert (Hp : get_hosts_file_path w = ([], w, inl (Some (path_for (system w))))).
  { destruct w as [sys h fl]. simpl in Hs. now destruct sys. }
  rewrite Hp. unfold bind at 1.
  rewrite (is_entry_in_hosts_readable entry w raw true Hs Hh), Hscan.
  destruct w as [sys h fl]. simpl in Hs, Hh. subst h.
  destruct (dns_cache_step_run MsgDnsNoteAdd
              {| system := sys;
                 hosts := Present
                   (raw ++ encode_newlines sys ([LF] ++ entry ++ [LF])) true true;
                 flushdns_ok := fl |}) as [t Ht].
  exists t.
  cbv [try_except bind open_hosts_append write_hosts print emit get put ret
       hosts system flushdns_ok set_hosts].
  rewrite Ht. cbn [app]. now rewrite app_nil_r.
Qed.

Lemma add_to_hosts_denied (entry : text) (w : hosts_world) (raw : text) :
  supported (system w) = true ->
  hosts w = Present raw true false ->
  scan_lines entry (file_lines raw) = false ->
  add_to_hosts entry w =
  ([EPrint (MsgAddFailed PermissionError); EPrint MsgEnsurePrivileges], w,
   inl false).
Proof.
  intros Hs Hh Hscan. unfold add_to_hosts, bind at 1.
  assert (Hp : get_hosts_file_path w = ([], w, inl (Some (path_for (system w))))).
  { destruct w as [sys h fl]. simpl in Hs. now destruct sys. }
  rewrite Hp. unfold bind at 1.
  rewrite (is_entry_in_hosts_readable entry w raw false Hs Hh), Hscan.
  destruct w as [sys h fl]. simpl in Hh. subst h. reflexivity.
Qed.

Lemma remove_from_hosts_absent_entry (entry : text) (w : hosts_world)
    (raw : text) (wr : bool) :
  supported (system w) = true ->
  hosts w = Present raw true wr ->
  scan_lines entry (file_lines raw) = false ->
  remove_from_hosts entry w = ([EPrint (MsgNoRemovalNeeded entry)], w, inl true).
Proof.
  intros Hs Hh Hscan. unfold remove_from_hosts, bind at 1.
  assert (Hp : get_hosts_file_path w = ([], w, inl (Some (path_for (system w))))).
  { destruct w as [sys h fl]. simpl in Hs. now destruct sys. }
  rewrite Hp. unfold bind at 1.
  rewrite (is_entry_in_hosts_readable entry w raw wr Hs Hh), Hscan.
  reflexivity.
Qed.

Lemma remove_from_hosts_rewrites (entry : text) (w : hosts_world) (raw : text) :
  supported (system w) = true ->
  hosts w = Present raw true true ->
  scan_lines entry (file_lines raw) = true ->
  exists t,
    remove_from_hosts entry w =
    (EPrint (MsgRemoved entry (path_for (system w))) :: t,
     set_hosts
       (Present
          (encode_newlines (system w)
             (List.concat (kept entry (file_lines raw)))) true true) w,
     inl true).
Proof.
  intros Hs Hh Hscan. unfold remove_from_hosts, bind at 1.
  assert (Hp : get_hosts_file_path w = ([], w, inl (Some (path_for (system w))))).
  { destruct w as [sys h fl]. simpl in Hs. now destruct sys. }
  rewrite Hp. unfold bind at 1.
  rewrite (is_entry_in_hosts_readable entry w raw true Hs Hh), Hscan.
  destruct w as [sys h fl]. simpl in Hs, Hh. subst h.
  destruct (dns_cache_step_run MsgDnsNoteRemove
              {| system := sys;
                 hosts := Present
                   (encode_newlines sys (List.concat (kept entry (file_lines raw))))
                   true true;
                 flushdns_ok := fl |}) as [t Ht].
  exists t. cbn [negb].
  cbv [try_except bind read_hosts open_hosts_truncate get put ret
       hosts system flushdns_ok set_hosts].
  fold (file_lines raw). rewrite rewrite_lines_run. cbn [app orb].
  rewrite <- scan_lines_existsb, Hscan.
  cbv [print emit]. rewrite Ht. cbn [app]. now rewrite app_nil_r.
Qed.

Lemma remove_from_hosts_denied (entry : text) (w : hosts_world) (raw : text) :
  supported (system w) = true ->
  hosts w = Present raw true false ->
  scan_lines entry (file_lines raw) = true ->
  remove_from_hosts entry w =
  ([EPrint (MsgRemoveFailed PermissionError); EPrint MsgEnsurePrivileges], w,
   inl false).
Proof.
  intros Hs Hh Hscan. unfold remove_from_hosts, bind at 1.
  assert (Hp : get_hosts_file_path w = ([], w, inl (Some (path_for (system w))))).
  { destruct w as [sys h fl]. simpl in Hs. now destruct sys. }
  rewrite Hp. unfold bind at 1.
  rewrite (is_entry_in_hosts_readable entry w raw false Hs Hh), Hscan.
  destruct w as [sys h fl]. simpl in Hh. subst h. reflexivity.
Qed.

(** ** isPresent *)

Lemma scan_lines_iff (entry raw : text) :
  scan_lines entry (file_lines raw) = true <-> isPresent_spec entry raw.
Proof.
  rewrite scan_lines_existsb, existsb_exists. unfold isPresent_spec.
  split; intros (line & Hin & H); exists line; split; trivial;
    now apply active_match_iff.
Qed.

Lemma scan_lines_false_iff (entry raw : text) :
  scan_lines entry (file_lines raw) = false <-> ~ isPresent_spec entry raw.
Proof.
  rewrite <- scan_lines_iff. now rewrite not_true_iff_false.
Qed.

(** [str.isspace] answers [True] exactly for the white space of Unicode. *)
Lemma is_space_white_space (c : char) :
  is_space c = true <-> In c white_space.
Proof.
  split.
  - unfold is_space.
    rewrite !orb_true_iff, !andb_true_iff, !N.leb_le, !N.eqb_eq.
    unfold white_space.
    intros [[[[[[[[[[[Hlo Hhi] | [Hlo Hhi]] | H] | H] | H] | [Hlo Hhi]]
               | H] | H] | H] | H] | H];
      try (subst c; simpl; repeat (first [left; reflexivity | right])).
    + assert (Hc : (c = 9 \/ c = 10 \/ c = 11 \/ c = 12 \/ c = 13)%N) by lia.
      repeat (destruct Hc as [Hc | Hc];
              [subst c; simpl; repeat (first [left; reflexivity | right])|]).
      subst c; simpl; repeat (first [left; reflexivity | right]).
    + assert (Hc : (c = 28 \/ c = 29 \/ c = 30 \/ c = 31 \/ c = 32)%N) by lia.
      repeat (destruct Hc as [Hc | Hc];
              [subst c; simpl; repeat (first [left; reflexivity | right])|]).
      subst c; simpl; repeat (first [left; reflexivity | right]).
    + assert (Hc : (c = 8192 \/ c = 8193 \/ c = 8194 \/ c = 8195 \/
                    c = 8196 \/ c = 8197 \/ c = 8198 \/ c = 8199 \/
                    c = 8200 \/ c = 8201 \/ c = 8202)%N) by lia.
      repeat (destruct Hc as [Hc | Hc];
              [subst c; simpl; repeat (first [left; reflexivity | right])|]).
      subst c; simpl; repeat (first [left; reflexivity | right]).
  - unfold white_space. intros H.
    repeat (destruct H as [<- | H]; [reflexivity|]). contradiction.
Qed.

Lemma commented_iff (line : text) :
  commented line <-> hash_after_white_space line.
Proof.
  unfold commented, hash_after_white_space.
  split; intros (ws & rest & Hl & Hws); exists ws, rest; (split; [exact Hl|]);
    rewrite Forall_forall in *; intros c Hc; apply is_space_white_space;
    now apply Hws.
Qed.

Lemma single_line_not_in (body : text) :
  single_line body -> ~ In LF body /\ ~ In CR body.
Proof.
  unfold single_line. rewrite Forall_forall. intros H.
  split; intros Hin; now destruct (H _ Hin).
Qed.

Lemma universal_from_true_no_lf (rest : text) :
  (forall r, rest <> LF :: r) ->
  universal_from true rest = universal_from false rest.
Proof.
  destruct rest as [|c r]; [reflexivity|]. intros Hno.
  cbn [universal_from]. destruct (N.eqb_spec c CR); [reflexivity|].
  destruct (N.eqb_spec c LF) as [-> | _]; [now elim (Hno r) | reflexivity].
Qed.

Lemma file_lines_cut (body rest : text) :
  single_line body ->
  splitlines (body ++ LF :: universal rest) =
  (body ++ [LF]) :: file_lines rest.
Proof.
  intros Hb. destruct (single_line_not_in body Hb) as [Hlf _].
  rewrite splitlines_app_lf, (splitlines_body_lf body Hlf). reflexivity.
Qed.

(** The lines that reading in text mode yields are the lines of the file,
    and no other cutting of the content is. *)
Lemma lines_of_file_lines (raw : text) (ls : list text) :
  lines_of raw ls -> file_lines raw = ls.
Proof.
  induction 1 as [ | body Hne Hb | body rest ls Hb _ IH
                 | body rest ls Hb _ IH | body rest ls Hb Hno _ IH ].
  - reflexivity.
  - destruct (single_line_not_in body Hb) as [Hlf _].
    unfold file_lines, universal.
    rewrite <- (app_nil_r body) at 1.
    rewrite (universal_from_single body [] Hb). cbn [universal_from].
    rewrite app_nil_r. now apply splitlines_no_lf.
  - unfold file_lines at 1. unfold universal.
    rewrite (universal_from_single body (LF :: rest) Hb).
    cbn [universal_from]. change (LF =? CR)%N with false.
    change (LF =? LF)%N with true. cbv iota.
    fold (universal rest). rewrite (file_lines_cut body rest Hb).
    now rewrite IH.
  - unfold file_lines at 1. unfold universal.
    rewrite (universal_from_single body (CR :: LF :: rest) Hb).
    cbn [universal_from]. change (CR =? CR)%N with true.
    change (LF =? CR)%N with false. change (LF =? LF)%N with true. cbv iota.
    fold (universal rest). rewrite (file_lines_cut body rest Hb).
    now rewrite IH.
  - unfold file_lines at 1. unfold universal.
    rewrite (universal_from_single body (CR :: rest) Hb).
    cbn [universal_from]. change (CR =? CR)%N with true. cbv iota.
    rewrite (universal_from_true_no_lf rest Hno).
    fold (universal rest). rewrite (file_lines_cut body rest Hb).
    now rewrite IH.
Qed.

Lemma first_line_end (raw : text) :
  single_line raw \/
  exists body c rest,
    raw = body ++ c :: rest /\ single_line body /\ (c = LF \/ c = CR).
Proof.
  induction raw as [|c r IH].
  - left. constructor.
  - destruct (N.eq_dec c LF) as [-> | Hlf].
    + right. exists [], LF, r. repeat split; [constructor | now left].
    + destruct (N.eq_dec c CR) as [-> | Hcr].
      * right. exists [], CR, r. repeat split; [constructor | now right].
      * destruct IH as [Hr | (body & d & rest & -> & Hb & Hd)].
        -- left. constructor; [now split | exact Hr].
        -- right. exists (c :: body), d, rest.
           split; [reflexivity|]. split; [|exact Hd].
           constructor; [now split | exact Hb].
Qed.

Lemma lines_of_total (raw : text) : exists ls, lines_of raw ls.
Proof.
  assert (H : forall n raw, (List.length raw <= n)%nat ->
                            exists ls, lines_of raw ls).
  { clear raw. induction n as [|n IH]; intros raw Hn.
    - destruct raw; [|simpl in Hn; lia]. exists []. constructor.
    - destruct (first_line_end raw)
        as [Hs | (body & c & rest & -> & Hb & [-> | ->])].
      + destruct raw as [|c r]; [exists []; constructor|].
        exists [c :: r]. apply lines_last; [discriminate | exact Hs].
      + rewrite length_app in Hn. simpl in Hn.
        destruct (IH rest) as [ls Hls]; [lia|].
        exists ((body ++ [LF]) :: ls). now apply lines_lf.
      + rewrite length_app in Hn. simpl in Hn.
        destruct rest as [|d rest].
        * exists [body ++ [LF]].
          apply lines_cr; [exact Hb | discriminate | constructor].
        * destruct (N.eq_dec d LF) as [-> | Hd].
          -- simpl in Hn. destruct (IH rest) as [ls Hls]; [lia|].
             exists ((body ++ [LF]) :: ls). now apply lines_cr_lf.
          -- simpl in Hn. destruct (IH (d :: rest)) as [ls Hls]; [simpl; lia|].
             exists ((body ++ [LF]) :: ls).
             apply lines_cr; [exact Hb | | exact Hls].
             intros r Hr. injection Hr as -> _. now elim Hd. }
  now apply (H (List.length raw)).
Qed.

Lemma isPresent_spec_contract (entry raw : text) :
  isPresent_spec entry raw <-> isPresent_contract entry raw.
Proof.
  unfold isPresent_spec, isPresent_contract. split.
  - intros (line & Hin & Hsub & Hnc).
    destruct (lines_of_total raw) as [ls Hls].
    exists ls, line. split; [exact Hls|].
    rewrite <- (lines_of_file_lines raw ls Hls).
    split; [exact Hin|]. split; [exact Hsub|].
    now rewrite <- commented_iff.
  - intros (ls & line & Hls & Hin & Hsub & Hnc).
    exists line. rewrite (lines_of_file_lines raw ls Hls).
    split; [exact Hin|]. split; [exact Hsub|]. now rewrite commented_iff.
Qed.

(** C3: on a readable hosts file, [is_entry_in_hosts] returns (without
    printing or changing anything) and its answer is [True] exactly when some
    line of the file contains the entry as a substring and does not start
    with [#] after trimming leading white space.  Lines, white space and
    substrings are those of [isPresent_contract], which are stated apart
    from the functions that the code is made of. *)
Theorem is_entry_in_hosts_iff_isPresent_spec
    (w : hosts_world) (entry raw : text) (wr : bool) :
  supported (system w) = true ->
  hosts w = Present raw true wr ->
  exists b,
    is_entry_in_hosts entry w = ([], w, inl b) /\
    (b = true <-> isPresent_contract entry raw).
Proof.
  intros Hs Hh. exists (scan_lines entry (file_lines raw)). split.
  - now apply is_entry_in_hosts_readable with (wr := wr).
  - rewrite <- isPresent_spec_contract. apply scan_lines_iff.
Qed.

(** A file with CR LF line ends that holds the entry on a commented line and
    on an active one: the contract holds of it, and the answer is [True]. *)
Lemma is_entry_in_hosts_iff_isPresent_spec_witness :
  let raw := txt "1.2.3.4 other.host" ++ [CR; LF] ++
             txt "# 127.0.0.1 albert.apple.com" ++ [CR; LF] ++
             txt "  127.0.0.1 albert.apple.com # local" ++ [CR; LF] in
  isPresent_contract HOSTS_ENTRY raw /\
  exists b,
    is_entry_in_hosts HOSTS_ENTRY (hosts_on Windows raw) =
      ([], hosts_on Windows raw, inl b) /\
    (b = true <-> isPresent_contract HOSTS_ENTRY raw).
Proof.
  cbv zeta. split.
  - exists [ln "1.2.3.4 other.host"; ln "# 127.0.0.1 albert.apple.com";
            ln "  127.0.0.1 albert.apple.com # local"],
      (ln "  127.0.0.1 albert.apple.com # local").
    split; [|split; [|split]].
    + apply (@lines_cr_lf (txt "1.2.3.4 other.host")
               (txt "# 127.0.0.1 albert.apple.com" ++ [CR; LF] ++
                txt "  127.0.0.1 albert.apple.com # local" ++ [CR; LF])
               [ln "# 127.0.0.1 albert.apple.com";
                ln "  127.0.0.1 albert.apple.com # local"]).
      { repeat constructor; discriminate. }
      apply (@lines_cr_lf (txt "# 127.0.0.1 albert.apple.com")
               (txt "  127.0.0.1 albert.apple.com # local" ++ [CR; LF])
               [ln "  127.0.0.1 albert.apple.com # local"]).
      { repeat constructor; discriminate. }
      apply (@lines_cr_lf (txt "  127.0.0.1 albert.apple.com # local") [] []).
      { repeat constructor; discriminate. }
      constructor.
    + right. right. left. reflexivity.
    + exists (txt "  "), (txt " # local" ++ [LF]). reflexivity.
    + intros H. apply commented_iff, lstrip_commented in H. discriminate H.
  - apply (is_entry_in_hosts_iff_isPresent_spec
             (hosts_on Windows
                (txt "1.2.3.4 other.host" ++ [CR; LF] ++
                 txt "# 127.0.0.1 albert.apple.com" ++ [CR; LF] ++
                 txt "  127.0.0.1 albert.apple.com # local" ++ [CR; LF]))
             HOSTS_ENTRY _ true); reflexivity.
Defined.

(** ** remove *)

Lemma encode_newlines_concat (sys : platform) (ls : list text) :
  encode_newlines sys (List.concat ls) =
  List.concat (map (encode_newlines sys) ls).
Proof.
  induction ls as [|l ls IH]; [reflexivity|]. simpl.
  now rewrite encode_newlines_app, IH.
Qed.

Lemma kept_no_cr (entry raw : text) :
  ~ In CR (List.concat (kept entry (file_lines raw))).
Proof.
  intros H. apply in_concat in H. destruct H as (l & Hl & Hc).
  apply filter_In in Hl. destruct Hl as [Hl _].
  apply (universal_no_cr false raw). fold (universal raw).
  rewrite <- (concat_splitlines (universal raw)).
  apply in_concat. now exists l.
Qed.

Lemma kept_In (entry : text) (lines : list text) (line : text) :
  In line (kept entry lines) <->
  In line lines /\ ~ (substring entry line /\ ~ commented line).
Proof.
  unfold kept. rewrite filter_In, negb_true_iff, <- active_match_iff.
  now rewrite not_true_iff_false.
Qed.

(** C2, as the code has it: on a readable and writable hosts file,
    [remove_from_hosts] leaves a file whose lines are the lines of the old
    one, in their order and with their text, except those that contain the
    entry as a substring and do not start with [#] after trimming white
    space (whatever else is on such a line).  The bytes of the new file are
    given in every case.  When no line is to be removed the file is not
    rewritten and stays as it was, whatever its line ends.  When a line is
    removed the file is rewritten from the lines read: each line kept is
    written with its line feed turned into the platform's line end; so when
    the line ends of the old file are the platform's, the lines kept are in
    the new file byte for byte. *)
Theorem remove_from_hosts_keeps_other_lines
    (w : hosts_world) (entry raw : text) :
  supported (system w) = true ->
  hosts w = Present raw true true ->
  exists raw',
    hosts (world_of (remove_from_hosts entry w)) = Present raw' true true /\
    file_lines raw' = kept entry (file_lines raw) /\
    (forall line,
        In line (file_lines raw') <->
        In line (file_lines raw) /\
        ~ (substring entry line /\ ~ commented line)) /\
    (~ isPresent_spec entry raw -> raw' = raw) /\
    (isPresent_spec entry raw ->
     raw' = List.concat
              (map (encode_newlines (system w)) (kept entry (file_lines raw)))) /\
    (encode_newlines (system w) (universal raw) = raw ->
     raw = List.concat (map (encode_newlines (system w)) (file_lines raw)) /\
     raw' = List.concat
              (map (encode_newlines (system w)) (kept entry (file_lines raw)))).
Proof.
  intros Hs Hh.
  assert (Hnorm : encode_newlines (system w) (universal raw) = raw ->
                  raw = List.concat
                          (map (encode_newlines (system w)) (file_lines raw))).
  { intros Hn. rewrite <- encode_newlines_concat. unfold file_lines.
    now rewrite concat_splitlines. }
  destruct (scan_lines entry (file_lines raw)) eqn:Hscan.
  - destruct (remove_from_hosts_rewrites entry w raw Hs Hh Hscan) as [t ->].
    exists (encode_newlines (system w)
              (List.concat (kept entry (file_lines raw)))).
    assert (Hlines :
      file_lines (encode_newlines (system w)
                    (List.concat (kept entry (file_lines raw)))) =
      kept entry (file_lines raw)).
    { unfold file_lines at 1. rewrite universal_encode by apply kept_no_cr.
      apply splitlines_concat_filter. }
    split; [reflexivity|]. split; [exact Hlines|]. split; [|split; [|split]].
    + intros line. rewrite Hlines. apply kept_In.
    + intros Hno. apply scan_lines_false_iff in Hno. congruence.
    + intros _. apply encode_newlines_concat.
    + intros Hn. split; [now apply Hnorm | apply encode_newlines_concat].
  - rewrite (remove_from_hosts_absent_entry entry w raw true Hs Hh Hscan).
    exists raw. cbn [world_of fst snd].
    rewrite (scan_lines_false_kept entry (file_lines raw) Hscan).
    split; [exact Hh|]. split; [reflexivity|]. split; [|split; [|split]].
    + intros line. rewrite <- (scan_lines_false_kept entry _ Hscan) at 1.
      apply kept_In.
    + reflexivity.
    + intros Hp. apply scan_lines_iff in Hp. congruence.
    + intros Hn. split; apply Hnorm, Hn.
Qed.

(** A file with CR LF line ends on Linux, with the entry on its last line:
    the line is removed and the two lines kept are written with LF. *)
Lemma remove_from_hosts_keeps_other_lines_witness :
  let raw := txt "10.0.0.1 keep" ++ [CR; LF] ++
             txt "# 127.0.0.1 albert.apple.com" ++ [CR; LF] ++
             txt "127.0.0.1 albert.apple.com" ++ [CR; LF] in
  exists raw',
    hosts (world_of (remove_from_hosts HOSTS_ENTRY (hosts_on Linux raw))) =
      Present raw' true true /\
    file_lines raw' = kept HOSTS_ENTRY (file_lines raw) /\
    (forall line,
        In line (file_lines raw') <->
        In line (file_lines raw) /\
        ~ (substring HOSTS_ENTRY line /\ ~ commented line)) /\
    (~ isPresent_spec HOSTS_ENTRY raw -> raw' = raw) /\
    (isPresent_spec HOSTS_ENTRY raw ->
     raw' = List.concat
              (map (encode_newlines Linux) (kept HOSTS_ENTRY (file_lines raw)))) /\
    (encode_newlines Linux (universal raw) = raw ->
     raw = List.concat (map (encode_newlines Linux) (file_lines raw)) /\
     raw' = List.concat
              (map (encode_newlines Linux) (kept HOSTS_ENTRY (file_lines raw)))).
Proof.
  cbv zeta.
  apply (remove_from_hosts_keeps_other_lines
           (hosts_on Linux
              (txt "10.0.0.1 keep" ++ [CR; LF] ++
               txt "# 127.0.0.1 albert.apple.com" ++ [CR; LF] ++
               txt "127.0.0.1 albert.apple.com" ++ [CR; LF]))
           HOSTS_ENTRY _);
    reflexivity.
Defined.

(** C2, as stated, fails twice over.  A line for another host name that
    merely contains the entry is deleted with it; and where the file has
    CR LF line ends on a platform whose line end is LF, the lines that are
    kept are written back with LF. *)
Lemma remove_from_hosts_takes_superstring_lines :
  (let other := ln "127.0.0.1 albert.apple.com.evil.example" in
   let raw := other ++ ln "127.0.0.1 albert.apple.com" in
   In other (file_lines raw) /\
   ~ structural_match HOSTS_ENTRY other /\
   hosts_raw (world_of (remove_from_hosts HOSTS_ENTRY (hosts_on Linux raw))) =
     Some []) /\
  (let raw := txt "10.0.0.1 keep" ++ [CR; LF] ++ ln "127.0.0.1 albert.apple.com" in
   hosts_raw (world_of (remove_from_hosts HOSTS_ENTRY (hosts_on Linux raw))) =
     Some (ln "10.0.0.1 keep")).
Proof.
  split; cbv zeta.
  - split; [|split].
    + left. reflexivity.
    + unfold structural_match. vm_compute. discriminate.
    + reflexivity.
  - reflexivity.
Qed.

(** C7: when every line of the hosts file that contains the entry is a
    commented line, [remove_from_hosts] prints that the entry was not found
    and no removal is needed (and not that it removed the entry), returns
    [True] and leaves the world, the file with it, as it was. *)
Theorem remove_from_hosts_only_commented
    (w : hosts_world) (entry raw : text) (wr : bool) :
  supported (system w) = true ->
  hosts w = Present raw true wr ->
  (forall line,
      In line (file_lines raw) -> substring entry line -> commented line) ->
  remove_from_hosts entry w = ([EPrint (MsgNoRemovalNeeded entry)], w, inl true) /\
  ~ In (MsgRemoved entry (path_for (system w)))
       (printed (trace_of (remove_from_hosts entry w))).
Proof.
  intros Hs Hh Hall.
  assert (Hscan : scan_lines entry (file_lines raw) = false).
  { apply scan_lines_false_iff. intros (line & Hin & Hsub & Hnc).
    apply Hnc. now apply Hall. }
  rewrite (remove_from_hosts_absent_entry entry w raw wr Hs Hh Hscan).
  split; [reflexivity|]. simpl. intros [H | []]. discriminate H.
Qed.

Lemma remove_from_hosts_only_commented_witness :
  remove_from_hosts HOSTS_ENTRY (hosts_on Linux scenario_file) =
    ([EPrint (MsgNoRemovalNeeded HOSTS_ENTRY)], hosts_on Linux scenario_file,
     inl true) /\
  ~ In (MsgRemoved HOSTS_ENTRY (path_for Linux))
       (printed (trace_of (remove_from_hosts HOSTS_ENTRY
                             (hosts_on Linux scenario_file)))).
Proof.
  apply (remove_from_hosts_only_commented
           (hosts_on Linux scenario_file) HOSTS_ENTRY scenario_file true).
  - reflexivity.
  - reflexivity.
  - intros line Hin Hsub. apply contains_iff in Hsub.
    destruct Hin as [<- | [<- | []]].
    + vm_compute in Hsub. discriminate Hsub.
    + apply lstrip_commented. reflexivity.
Defined.

(** Where an active line holds the entry, the first thing printed is that
    the entry was removed: the two outcomes are told apart by the message. *)
Lemma remove_from_hosts_reports_removal (w : hosts_world) (entry raw : text) :
  supported (system w) = true ->
  hosts w = Present raw true true ->
  isPresent_spec entry raw ->
  exists t,
    printed (trace_of (remove_from_hosts entry w)) =
    MsgRemoved entry (path_for (system w)) :: t.
Proof.
  intros Hs Hh Hp. apply scan_lines_iff in Hp.
  destruct (remove_from_hosts_rewrites entry w raw Hs Hh Hp) as [t ->].
  now exists (printed t).
Qed.

(** ** add *)

Lemma lstrip_app_lf (entry : text) :
  startswith [HASH] (lstrip (entry ++ [LF])) = startswith [HASH] (lstrip entry).
Proof.
  induction entry as [|c r IH]; [reflexivity|].
  cbn [app lstrip]. now destruct (is_space c).
Qed.

Lemma single_line_no_lf (entry : text) : single_line entry -> ~ In LF entry.
Proof.
  intros H Hin. unfold single_line in H. rewrite Forall_forall in H.
  now destruct (H LF Hin).
Qed.

Lemma universal_linesep_false (sys : platform) :
  universal_from false (linesep sys) = [LF].
Proof. now destruct sys. Qed.

(** The text appended by [add_to_hosts], as raw characters. *)
Lemma appended_raw (sys : platform) (entry : text) :
  encode_newlines sys ([LF] ++ entry ++ [LF]) =
  linesep sys ++ encode_newlines sys entry ++ linesep sys.
Proof.
  now rewrite !encode_newlines_app, encode_newlines_lf.
Qed.

(** The lines of the file after the append: those of the old content with a
    line end put after it, then the entry on a line of its own. *)
Lemma file_lines_appended (sys : platform) (raw entry : text) :
  single_line entry ->
  file_lines (raw ++ linesep sys ++ entry ++ linesep sys) =
  file_lines (raw ++ linesep sys) ++ [entry ++ [LF]].
Proof.
  intros He. unfold file_lines, universal.
  destruct (universal_linesep false sys raw) as (u & Hu & Hp); [discriminate|].
  rewrite app_assoc, universal_from_app, Hp, Hu.
  rewrite (universal_from_single entry (linesep sys) He), universal_linesep_false.
  rewrite <- app_assoc. cbn [app]. rewrite splitlines_app_lf.
  now rewrite (splitlines_body_lf entry (single_line_no_lf entry He)).
Qed.

Lemma file_lines_blank (sys : platform) (r0 : text) :
  file_lines ((r0 ++ [LF]) ++ linesep sys) = file_lines (r0 ++ [LF]) ++ [[LF]].
Proof.
  unfold file_lines, universal.
  rewrite universal_from_app, cr_pending_app_lf, universal_linesep_false.
  destruct (universal_ends_lf false r0) as [u ->]; [discriminate|].
  rewrite <- app_assoc. cbn [app]. now rewrite splitlines_app_lf.
Qed.

Lemma active_match_own_line (entry : text) :
  ~ commented entry -> active_match entry (entry ++ [LF]) = true.
Proof.
  intros Hnc. apply active_match_iff. split.
  - now exists [], [LF].
  - rewrite <- lstrip_commented, lstrip_app_lf, lstrip_commented. exact Hnc.
Qed.

Lemma scan_lines_app_true (entry : text) (ls : list text) (line : text) :
  active_match entry line = true -> scan_lines entry (ls ++ [line]) = true.
Proof.
  intros Hm. rewrite scan_lines_existsb, existsb_app. simpl.
  rewrite Hm. now rewrite orb_true_r.
Qed.

(** C10: when no active line of a readable and writable hosts file contains
    the entry, [add_to_hosts] returns [True] and the file becomes its old
    raw content followed by one line end, the entry and one line end (the
    line end of the platform, LF off Windows).  For an entry that is a single
    line, the lines of the new file are those of the old content closed by a
    line end, then the entry on a line of its own; when the old content
    ended with a line feed, that is the old lines, a blank line, the entry. *)
Theorem add_to_hosts_appends_entry_line
    (w : hosts_world) (entry raw : text) :
  supported (system w) = true ->
  hosts w = Present raw true true ->
  ~ isPresent_spec entry raw ->
  value_of (add_to_hosts entry w) = inl true /\
  exists raw',
    hosts (world_of (add_to_hosts entry w)) = Present raw' true true /\
    raw' = raw ++ linesep (system w) ++
           encode_newlines (system w) entry ++ linesep (system w) /\
    (is_windows (system w) = false -> raw' = raw ++ [LF] ++ entry ++ [LF]) /\
    (single_line entry ->
     raw' = raw ++ linesep (system w) ++ entry ++ linesep (system w) /\
     file_lines raw' =
       file_lines (raw ++ linesep (system w)) ++ [entry ++ [LF]] /\
     (forall r0, raw = r0 ++ [LF] ->
        file_lines raw' = file_lines raw ++ [[LF]; entry ++ [LF]])).
Proof.
  intros Hs Hh Hp. apply scan_lines_false_iff in Hp.
  destruct (add_to_hosts_appends entry w raw Hs Hh Hp) as [t ->].
  split; [reflexivity|].
  exists (raw ++ encode_newlines (system w) ([LF] ++ entry ++ [LF])).
  split; [reflexivity|]. rewrite appended_raw.
  split; [reflexivity|]. split.
  - intros Hw. unfold linesep. rewrite Hw.
    now rewrite (encode_newlines_posix (system w) entry Hw).
  - intros He.
    rewrite (encode_newlines_no_lf (system w) entry (single_line_no_lf entry He)).
    split; [reflexivity|].
    rewrite (file_lines_appended (system w) raw entry He).
    split; [reflexivity|].
    intros r0 ->. rewrite file_lines_blank. now rewrite <- app_assoc.
Qed.

Lemma add_to_hosts_appends_entry_line_witness :
  value_of (add_to_hosts HOSTS_ENTRY (hosts_on Linux scenario_file)) = inl true /\
  exists raw',
    hosts (world_of (add_to_hosts HOSTS_ENTRY (hosts_on Linux scenario_file))) =
      Present raw' true true /\
    raw' = scenario_file ++ linesep Linux ++
           encode_newlines Linux HOSTS_ENTRY ++ linesep Linux /\
    (is_windows Linux = false ->
     raw' = scenario_file ++ [LF] ++ HOSTS_ENTRY ++ [LF]) /\
    (single_line HOSTS_ENTRY ->
     raw' = scenario_file ++ linesep Linux ++ HOSTS_ENTRY ++ linesep Linux /\
     file_lines raw' =
       file_lines (scenario_file ++ linesep Linux) ++ [HOSTS_ENTRY ++ [LF]] /\
     (forall r0, scenario_file = r0 ++ [LF] ->
        file_lines raw' = file_lines scenario_file ++ [[LF]; HOSTS_ENTRY ++ [LF]])).
Proof.
  apply (add_to_hosts_appends_entry_line
           (hosts_on Linux scenario_file) HOSTS_ENTRY scenario_file).
  - reflexivity.
  - reflexivity.
  - intros H. apply scan_lines_iff in H. vm_compute in H. discriminate H.
Defined.

(** C6: for an entry in the sense of the specification, one line that is
    not a comment, a second [add_to_hosts] leaves the world, and so the
    content of the hosts file, as the first one left it.  This holds
    whatever the platform and the state of the hosts file are (present or
    missing, writable or not), with one exception: a file that can be
    written but cannot be read, where the check before the append fails. *)
Theorem add_to_hosts_idempotent (w : hosts_world) (entry : text) :
  single_line entry ->
  ~ commented entry ->
  (forall raw, hosts w <> Present raw false true) ->
  world_of (add_to_hosts entry (world_of (add_to_hosts entry w))) =
  world_of (add_to_hosts entry w).
Proof.
  intros He Hnc Hrw.
  destruct (supported (system w)) eqn:Hs.
  2: { destruct w as [sys h fl]. cbn [system] in Hs.
       destruct sys; try discriminate Hs. reflexivity. }
  destruct (hosts w) as [c | raw rd wr] eqn:Hh.
  - destruct c.
    + assert (H1 : world_of (add_to_hosts entry w) =
                   set_hosts
                     (Present (encode_newlines (system w) ([LF] ++ entry ++ [LF]))
                        true true) w).
      { destruct w as [sys h fl]. cbn [system hosts] in *. subst h.
        destruct sys, fl; try discriminate Hs; reflexivity. }
      rewrite H1.
      erewrite add_to_hosts_present;
        [reflexivity | destruct w; exact Hs | destruct w; reflexivity |].
      rewrite appended_raw.
      rewrite (encode_newlines_no_lf (system w) entry (single_line_no_lf entry He)).
      change (linesep (system w) ++ entry ++ linesep (system w))
        with ([] ++ linesep (system w) ++ entry ++ linesep (system w)).
      rewrite (file_lines_appended (system w) [] entry He).
      apply scan_lines_app_true, active_match_own_line, Hnc.
    + destruct w as [sys h fl]. cbn [system hosts] in *. subst h.
      destruct sys; try discriminate Hs; reflexivity.
  - destruct rd.
    + destruct (scan_lines entry (file_lines raw)) eqn:Hscan.
      * rewrite (add_to_hosts_present entry w raw wr Hs Hh Hscan).
        cbn [world_of fst snd].
        now rewrite (add_to_hosts_present entry w raw wr Hs Hh Hscan).
      * destruct wr.
        -- destruct (add_to_hosts_appends entry w raw Hs Hh Hscan) as [t ->].
           cbn [world_of fst snd].
           erewrite add_to_hosts_present; [reflexivity | exact Hs | reflexivity |].
           rewrite appended_raw.
           rewrite (encode_newlines_no_lf (system w) entry
                      (single_line_no_lf entry He)).
           destruct w as [sys h fl]. cbn [system set_hosts] in *.
           rewrite (file_lines_appended sys raw entry He).
           apply scan_lines_app_true, active_match_own_line, Hnc.
        -- rewrite (add_to_hosts_denied entry w raw Hs Hh Hscan).
           cbn [world_of fst snd].
           now rewrite (add_to_hosts_denied entry w raw Hs Hh Hscan).
    + destruct wr; [now elim (Hrw raw)|].
      destruct w as [sys h fl]. cbn [system hosts] in *. subst h.
      destruct sys; try discriminate Hs; reflexivity.
Qed.

(** The configured entry, added twice to a file that holds it on a commented
    line only. *)
Lemma add_to_hosts_idempotent_witness :
  world_of (add_to_hosts HOSTS_ENTRY
              (world_of (add_to_hosts HOSTS_ENTRY (hosts_on Linux scenario_file)))) =
  world_of (add_to_hosts HOSTS_ENTRY (hosts_on Linux scenario_file)).
Proof.
  apply (add_to_hosts_idempotent (hosts_on Linux scenario_file) HOSTS_ENTRY).
  - unfold single_line, HOSTS_ENTRY. repeat constructor; discriminate.
  - intros H. apply lstrip_commented in H. discriminate H.
  - intros raw H. discriminate H.
Defined.

(** What is not an entry in that sense is outside the theorem: a text that
    is itself a comment line is never found by the check, so every call
    appends it once more. *)
Lemma add_to_hosts_twice_appends_comment_entry :
  let w := hosts_on Linux [] in
  let entry := txt "# note" in
  hosts_raw (world_of (add_to_hosts entry w)) =
    Some ([LF] ++ txt "# note" ++ [LF]) /\
  hosts_raw (world_of (add_to_hosts entry (world_of (add_to_hosts entry w)))) =
    Some ([LF] ++ txt "# note" ++ [LF] ++ [LF] ++ txt "# note" ++ [LF]) /\
  world_of (add_to_hosts entry (world_of (add_to_hosts entry w))) <>
  world_of (add_to_hosts entry w).
Proof.
  cbv zeta. split; [reflexivity|]. split; [reflexivity|].
  intros H. vm_compute in H. discriminate H.
Qed.

(** C8: the scenario of the specification, on each supported platform.  The
    entry is not present, [add_to_hosts] succeeds and appends to the raw
    content, and the new file has the two old lines, a blank line and the
    entry as its last line. *)
Theorem scenario_commented_entry_then_add :
  forall fl : bool,
    Forall
      (fun sys =>
         let w := {| system := sys; hosts := Present scenario_file true true;
                     flushdns_ok := fl |} in
         value_of (is_entry_in_hosts HOSTS_ENTRY w) = inl false /\
         value_of (add_to_hosts HOSTS_ENTRY w) = inl true /\
         hosts_raw (world_of (add_to_hosts HOSTS_ENTRY w)) =
           Some (scenario_file ++ linesep sys ++ HOSTS_ENTRY ++ linesep sys) /\
         option_map file_lines (hosts_raw (world_of (add_to_hosts HOSTS_ENTRY w))) =
           Some [ln "1.2.3.4 other.host"; ln "# 127.0.0.1 albert.apple.com";
                 [LF]; ln "127.0.0.1 albert.apple.com"] /\
         file_lines scenario_file =
           [ln "1.2.3.4 other.host"; ln "# 127.0.0.1 albert.apple.com"])
      [Windows; Linux; Darwin].
Proof.
  intros fl. destruct fl; repeat constructor.
Qed.

(** ** Parsing the PID *)

Lemma lstrip_spaces_app (ws x : text) :
  Forall (fun c => is_space c = true) ws -> lstrip (ws ++ x) = lstrip x.
Proof.
  induction 1 as [|c ws Hc _ IH]; [reflexivity|].
  cbn [app lstrip]. now rewrite Hc.
Qed.

Lemma lstrip_nonspace_head (c : char) (r : text) :
  is_space c = false -> lstrip (c :: r) = c :: r.
Proof. intros Hc. cbn [lstrip]. now rewrite Hc. Qed.

(** [strip] gives back what stands between white space, when that neither
    starts nor ends with white space. *)
Lemma strip_padded (lead body trail : text) :
  Forall (fun c => is_space c = true) lead ->
  Forall (fun c => is_space c = true) trail ->
  body <> [] ->
  Forall (fun c => is_space c = false) body ->
  strip (lead ++ body ++ trail) = body.
Proof.
  intros Hl Ht Hne Hb. unfold strip, rstrip.
  rewrite (lstrip_spaces_app lead _ Hl).
  destruct body as [|c r]; [congruence|].
  rewrite <- app_comm_cons, lstrip_nonspace_head by now inversion Hb.
  rewrite app_comm_cons, rev_app_distr.
  rewrite lstrip_spaces_app by now apply Forall_rev.
  apply Forall_rev in Hb. destruct (rev (c :: r)) as [|d r'] eqn:E.
  - apply (f_equal (@rev char)) in E. rewrite rev_involutive in E. discriminate E.
  - rewrite lstrip_nonspace_head by now inversion Hb.
    rewrite <- E. apply rev_involutive.
Qed.

Lemma universal_from_spaces (b : bool) (ws : text) :
  Forall (fun c => is_space c = true) ws ->
  Forall (fun c => is_space c = true) (universal_from b ws).
Proof.
  intros H. revert b. induction H as [|c ws Hc _ IH]; intros b; [constructor|].
  cbn [universal_from]. destruct (c =? CR)%N.
  - constructor; [reflexivity | apply IH].
  - destruct (c =? LF)%N; [destruct b|]; try apply IH; constructor;
      solve [reflexivity | assumption | apply IH].
Qed.

Lemma universal_from_single_cons (b : bool) (c : char) (r y : text) :
  single_line (c :: r) ->
  universal_from b ((c :: r) ++ y) = (c :: r) ++ universal_from false y.
Proof.
  intros H. inversion H as [|c' r' [Hlf Hcr] Hr]; subst.
  cbn [app universal_from].
  destruct (N.eqb_spec c CR); [contradiction|].
  destruct (N.eqb_spec c LF); [contradiction|].
  now rewrite (universal_from_single r y Hr).
Qed.

Lemma ascii_digit_plain (c : char) :
  ascii_digit c ->
  is_space c = false /\ c <> LF /\ c <> CR /\
  (c =? MINUS)%N = false /\ (c =? PLUS)%N = false /\
  (c =? UNDERSCORE)%N = false.
Proof.
  unfold ascii_digit. intros [Hlo Hhi].
  assert (H : (c = 48 \/ c = 49 \/ c = 50 \/ c = 51 \/ c = 52 \/
               c = 53 \/ c = 54 \/ c = 55 \/ c = 56 \/ c = 57)%N) by lia.
  repeat destruct H as [H | H]; subst c; repeat split; discriminate.
Qed.

Section SupervisorProps.

Variable K : Type.
Variable os_kill : Z -> signal -> K -> option exn * K.
Variable os_sleep : Z -> K -> K.
Variable decimal : char -> option Z.
Variable max_str_digits : N.

Local Notation "'stop_server'" :=
  (stop_php_server os_kill os_sleep decimal max_str_digits).
Local Notation "'parse_int'" := (py_int decimal max_str_digits).

Ltac run_stop :=
  cbv [stop_php_server read_pid terminate pid_file_exists read_pid_file
       remove_pid_file kill sleep signal_SIGKILL
       try_except bind print emit get put ret raise
       set_kernel set_pid_file kernel sup_system pid_file pid_file_removable
       trace_of world_of value_of fst snd negb is_OSError is_ValueError
       is_windows orb].

Ltac split_kill :=
  match goal with
  | |- context [os_kill ?p ?s ?k] =>
      let e := fresh "e" in
      let k' := fresh "k" in
      destruct (os_kill p s k) as [[e|] k']; [destruct e|]
  end.

Ltac trace_leaf :=
  simpl; split;
  [ lia
  | let H := fresh "H" in
    intros ? ? H;
    repeat (destruct H as [H|H];
            [ first
                [ discriminate H
                | injection H as <- <-;
                  match goal with
                  | |- exists pre post, ?a :: _ = _ /\ _ => exists [a]
                  end;
                  eexists; split; [reflexivity | split; reflexivity] ]
            | ]);
    contradiction ].

Hypothesis decimal_ascii :
  forall c, ascii_digit c -> decimal c = Some (Z.of_N c - 48)%Z.

Lemma digits_from_ascii (digits : text) :
  Forall ascii_digit digits ->
  forall (acc : Z) (n : N),
    digits_from decimal acc n false digits =
    Some (fold_left (fun a c => (10 * a + (Z.of_N c - 48))%Z) digits acc,
          (n + N.of_nat (List.length digits))%N).
Proof.
  induction 1 as [|c r Hc _ IH]; intros acc n.
  - simpl. now rewrite N.add_0_r.
  - cbn [digits_from fold_left List.length].
    destruct (ascii_digit_plain c Hc) as (_ & _ & _ & _ & _ & ->).
    rewrite (decimal_ascii c Hc), IH. f_equal. f_equal. lia.
Qed.

Lemma unsigned_int_ascii (digits : text) :
  digits <> [] ->
  Forall ascii_digit digits ->
  (max_str_digits = 0 \/ N.of_nat (List.length digits) <= max_str_digits)%N ->
  unsigned_int decimal max_str_digits digits = Some (decimal_value digits).
Proof.
  intros Hne Hd Hmax. destruct digits as [|c r]; [congruence|].
  unfold unsigned_int.
  destruct (ascii_digit_plain c) as (_ & _ & _ & _ & _ & ->);
    [now inversion Hd|].
  rewrite (digits_from_ascii (c :: r) Hd). rewrite N.add_0_l.
  replace ((0 <? max_str_digits)%N &&
           (max_str_digits <? N.of_nat (List.length (c :: r)))%N) with false;
    [reflexivity|].
  symmetry. apply andb_false_iff. destruct Hmax as [-> | Hle].
  - now left.
  - right. now apply N.ltb_ge.
Qed.

Lemma parse_int_padded (lead sign digits trail : text) :
  Forall (fun c => is_space c = true) lead ->
  Forall (fun c => is_space c = true) trail ->
  sign = [] \/ sign = [PLUS] \/ sign = [MINUS] ->
  digits <> [] ->
  Forall ascii_digit digits ->
  (max_str_digits = 0 \/ N.of_nat (List.length digits) <= max_str_digits)%N ->
  parse_int (strip (universal (lead ++ sign ++ digits ++ trail))) =
  Some (signed sign (decimal_value digits)).
Proof.
  intros Hl Ht Hsign Hne Hd Hmax.
  assert (Hplain : Forall (fun c => is_space c = false /\ c <> LF /\ c <> CR)
                     (sign ++ digits)).
  { apply Forall_app. split.
    - destruct Hsign as [-> | [-> | ->]]; repeat constructor; discriminate.
    - eapply Forall_impl; [|exact Hd]. intros c Hc.
      destruct (ascii_digit_plain c Hc) as (? & ? & ? & _). auto. }
  assert (Hbody : sign ++ digits <> []).
  { intros H. apply app_eq_nil in H. now destruct H. }
  assert (Hstrip : strip (universal (lead ++ sign ++ digits ++ trail)) =
                   sign ++ digits).
  { unfold universal. rewrite universal_from_app, (app_assoc sign).
    destruct (sign ++ digits) as [|c r] eqn:E; [congruence|].
    rewrite universal_from_single_cons.
    - apply strip_padded; try (now apply universal_from_spaces); [discriminate|].
      eapply Forall_impl; [|exact Hplain]. now intros a [Ha _].
    - eapply Forall_impl; [|exact Hplain]. now intros a (_ & Ha). }
  rewrite Hstrip. pose proof (unsigned_int_ascii digits Hne Hd Hmax) as Hu.
  destruct Hsign as [-> | [-> | ->]].
  - destruct digits as [|c r]; [congruence|]. cbn [app py_int signed].
    destruct (ascii_digit_plain c) as (_ & _ & _ & -> & -> & _);
      [now inversion Hd | exact Hu].
  - cbn [app py_int signed]. change (PLUS =? MINUS)%N with false.
    change (PLUS =? PLUS)%N with true. cbv iota. exact Hu.
  - cbn [app py_int signed]. change (MINUS =? MINUS)%N with true.
    cbv iota. now rewrite Hu.
Qed.

(** C9: the PID is [int] of the marker's content with the white space around
    it trimmed.  Whatever that parses to, negative numbers included, is the
    target of the first signal; and an optional sign and ASCII digits with
    white space around them (a line end or spaces after them, say) parse to
    the number they denote. *)
Theorem stop_php_server_parses_trimmed_int
    (w : sup_world K) (raw : text) (wr : bool) :
  pid_file w = Present raw true wr ->
  (forall pid,
      parse_int (strip (universal raw)) = Some pid ->
      exists t,
        trace_of (stop_server w) =
        EPrint (MsgStopping pid) ::
        EKill pid SIGTERM (fst (os_kill pid SIGTERM (kernel w))) :: t) /\
  (forall lead sign digits trail,
      raw = lead ++ sign ++ digits ++ trail ->
      Forall (fun c => is_space c = true) lead ->
      Forall (fun c => is_space c = true) trail ->
      sign = [] \/ sign = [PLUS] \/ sign = [MINUS] ->
      digits <> [] ->
      Forall ascii_digit digits ->
      (max_str_digits = 0 \/
       N.of_nat (List.length digits) <= max_str_digits)%N ->
      parse_int (strip (universal raw)) =
      Some (signed sign (decimal_value digits))).
Proof.
  intros Hpf. split.
  - intros pid Hpid. destruct w as [sys pf rm k]. cbn [pid_file] in Hpf. subst pf.
    run_stop. rewrite Hpid.
    destruct rm, sys; repeat (split_kill; run_stop); simpl;
      eexists; reflexivity.
  - intros lead sign digits trail -> Hl Ht Hsign Hne Hd Hmax.
    now apply parse_int_padded.
Qed.

(** C1, as the code has it: without a PID file [stop_php_server] prints that
    the file was not found and returns [False]; it sends no signal and
    changes nothing. *)
Theorem stop_php_server_without_marker (w : sup_world K) (creatable : bool) :
  pid_file w = Absent creatable ->
  stop_server w = ([EPrint MsgPidFileNotFound], w, inl false).
Proof.
  intros Hpf. destruct w as [sys pf rm k]. cbn [pid_file] in Hpf. subst pf.
  reflexivity.
Qed.

(** C5: when the PID file exists but cannot be read, or its content trimmed
    of white space does not parse as an integer, [stop_php_server] prints
    the read error and returns [False]; it sends no signal and the world,
    the PID file with it, stays as it was. *)
Theorem stop_php_server_corrupt_marker
    (w : sup_world K) (raw : text) (rd wr : bool) :
  pid_file w = Present raw rd wr ->
  rd = false \/ parse_int (strip (universal raw)) = None ->
  stop_server w =
    ([EPrint (MsgPidReadError (if rd then ValueError else PermissionError))],
     w, inl false) /\
  pid_file (world_of (stop_server w)) = Present raw rd wr /\
  signals_sent (trace_of (stop_server w)) = [].
Proof.
  intros Hpf Hbad. destruct w as [sys pf rm k]. cbn [pid_file] in Hpf. subst pf.
  destruct rd.
  - destruct Hbad as [Hrd | Hnone]; [discriminate Hrd|].
    run_stop. rewrite Hnone. repeat split.
  - repeat split.
Qed.

(** C4: in any run of [stop_php_server] SIGKILL is sent at most once, and
    where it is sent the trace holds, in this order and with nothing in
    between, SIGTERM delivered to the same PID, the sleep of 2 seconds, a
    probe with signal 0 that found the process, and the SIGKILL; no other
    signal is sent before or after. *)
Theorem stop_php_server_escalates_once (w : sup_world K) :
  (List.length (filter sends_sigkill (trace_of (stop_server w))) <= 1)%nat /\
  (forall pid r,
      In (EKill pid SIGKILL r) (trace_of (stop_server w)) ->
      exists pre post,
        trace_of (stop_server w) = pre ++ escalation pid r ++ post /\
        signals_sent pre = [] /\ signals_sent post = []).
Proof.
  destruct w as [sys pf rm k]. destruct pf as [c | raw rd wr]; [|destruct rd].
  - run_stop. trace_leaf.
  - run_stop.
    destruct (parse_int (strip (universal raw))) as [pid|].
    + destruct rm, sys; repeat (split_kill; run_stop); trace_leaf.
    + trace_leaf.
  - run_stop. trace_leaf.
Qed.

End SupervisorProps.

(** ** Concrete runs *)

Lemma ascii_decimal_ascii (c : char) :
  ascii_digit c -> ascii_decimal c = Some (Z.of_N c - 48)%Z.
Proof.
  unfold ascii_digit, ascii_decimal. intros [Hlo Hhi].
  apply N.leb_le in Hlo, Hhi. now rewrite Hlo, Hhi.
Qed.

(** C1, as stated, fails: a first stop finds the process gone after SIGTERM,
    returns [True] and removes the PID file; the stop that follows returns
    [False]. *)
Lemma second_stop_reports_failure :
  let w := marker_world (txt "1234") [None; Some ProcessLookupError] in
  value_of (scripted_stop w) = inl true /\
  pid_file (world_of (scripted_stop w)) = Absent true /\
  value_of (scripted_stop (world_of (scripted_stop w))) = inl false /\
  printed (trace_of (scripted_stop (world_of (scripted_stop w)))) =
    [MsgPidFileNotFound].
Proof. cbv zeta. repeat split. Qed.

Lemma stop_php_server_without_marker_witness :
  let w := world_of (scripted_stop
                       (marker_world (txt "1234") [None; Some ProcessLookupError])) in
  scripted_stop w = ([EPrint MsgPidFileNotFound], w, inl false).
Proof.
  cbv zeta.
  apply (stop_php_server_without_marker (list (option exn)) scripted_kill scripted_sleep
           ascii_decimal 4300
           (world_of (scripted_stop
                        (marker_world (txt "1234") [None; Some ProcessLookupError])))
           true).
  reflexivity.
Defined.

Lemma stop_php_server_corrupt_marker_witness :
  let w := marker_world (ln "not-a-pid") [] in
  scripted_stop w = ([EPrint (MsgPidReadError ValueError)], w, inl false) /\
  pid_file (world_of (scripted_stop w)) = Present (ln "not-a-pid") true true /\
  signals_sent (trace_of (scripted_stop w)) = [].
Proof.
  cbv zeta.
  apply (stop_php_server_corrupt_marker (list (option exn)) scripted_kill scripted_sleep
           ascii_decimal 4300 (marker_world (ln "not-a-pid") [])
           (ln "not-a-pid") true true).
  - reflexivity.
  - right. reflexivity.
Defined.

Lemma stop_php_server_parses_trimmed_int_witness :
  py_int ascii_decimal 4300 (strip (universal (ln "-1"))) = Some (-1)%Z /\
  exists t,
    trace_of (scripted_stop (marker_world (ln "-1") [])) =
    EPrint (MsgStopping (-1)) :: EKill (-1) SIGTERM None :: t.
Proof.
  destruct (stop_php_server_parses_trimmed_int (list (option exn))
              scripted_kill scripted_sleep ascii_decimal 4300
              ascii_decimal_ascii (marker_world (ln "-1") [])
              (ln "-1") true eq_refl) as [Htarget Hparse].
  assert (H : py_int ascii_decimal 4300 (strip (universal (ln "-1"))) =
              Some (-1)%Z).
  { apply (Hparse [] [MINUS] (txt "1") [LF]).
    - reflexivity.
    - constructor.
    - repeat constructor.
    - right. right. reflexivity.
    - discriminate.
    - repeat constructor; discriminate.
    - right. discriminate. }
  split; [exact H | exact (Htarget (-1)%Z H)].
Defined.

Lemma stop_php_server_escalates_once_witness :
  let t := trace_of (scripted_stop (marker_world (ln "1234") [None; None; None])) in
  (List.length (filter sends_sigkill t) <= 1)%nat /\
  (forall pid r,
      In (EKill pid SIGKILL r) t ->
      exists pre post,
        t = pre ++ escalation pid r ++ post /\
        signals_sent pre = [] /\ signals_sent post = []).
Proof.
  cbv zeta.
  apply (stop_php_server_escalates_once (list (option exn)) scripted_kill scripted_sleep
           ascii_decimal 4300 (marker_world (ln "1234") [None; None; None])).
Defined.

(** A stubborn process: SIGTERM is delivered, the probe still finds the
    process, SIGKILL follows, and nothing more. *)
Example stop_stubborn_process :
  scripted_stop (marker_world (ln "1234") [None; None; None]) =
  ([EPrint (MsgStopping 1234)] ++ escalation 1234 None ++
   [EPrint (MsgSentSigkill 1234); EPrint MsgPidFileRemoved],
   {| sup_system := Linux; pid_file := Absent true;
      pid_file_removable := true; kernel := [] |},
   inl true).
Proof. reflexivity. Qed.

(** * Further properties of the hosts-file functions *)

(** A hosts file that cannot be opened for reading, or a platform without a
    known path: everything before the loop of [is_entry_in_hosts]. *)
Lemma is_entry_in_hosts_unreadable (entry : text) (w : hosts_world) :
  supported (system w) = false \/
  (exists c, hosts w = Absent c) \/
  (exists raw wr, hosts w = Present raw false wr) ->
  exists t, is_entry_in_hosts entry w = (t, w, inl false).
Proof.
  destruct w as [sys h fl]. cbn [system hosts].
  intros [Hs | [[c ->] | (raw & wr & ->)]].
  - destruct sys; try discriminate Hs. eexists. reflexivity.
  - destruct sys; eexists; reflexivity.
  - destruct sys; eexists; reflexivity.
Qed.

(** X1: on every world [is_entry_in_hosts] returns a boolean and leaves the
    world as it was; the boolean is [True] only on a supported platform with
    a readable hosts file that has an active line containing the entry. *)
Theorem is_entry_in_hosts_true_only_when_readable
    (entry : text) (w : hosts_world) :
  exists t b,
    is_entry_in_hosts entry w = (t, w, inl b) /\
    (b = true <->
     supported (system w) = true /\
     exists raw wr, hosts w = Present raw true wr /\ isPresent_spec entry raw).
Proof.
  destruct (supported (system w)) eqn:Hs.
  - destruct (hosts w) as [c | raw [|] wr] eqn:Hh.
    + destruct (is_entry_in_hosts_unreadable entry w) as [t Ht]; [eauto|].
      exists t, false. split; [exact Ht|]. split; [discriminate|].
      intros (_ & raw & wr & H & _). discriminate H.
    + exists [], (scan_lines entry (file_lines raw)). split.
      * now apply is_entry_in_hosts_readable with (wr := wr).
      * rewrite scan_lines_iff. split.
        -- intros Hp. split; [reflexivity|]. now exists raw, wr.
        -- intros (_ & raw' & wr' & H & Hp). now injection H as <- _.
    + destruct (is_entry_in_hosts_unreadable entry w) as [t Ht]; [eauto 6|].
      exists t, false. split; [exact Ht|]. split; [discriminate|].
      intros (_ & raw' & wr' & H & _). discriminate H.
  - destruct (is_entry_in_hosts_unreadable entry w) as [t Ht]; [auto|].
    exists t, false. split; [exact Ht|]. split; [discriminate|].
    intros (H & _). discriminate H.
Qed.

Lemma scan_lines_kept (entry : text) (lines : list text) :
  scan_lines entry (kept entry lines) = false.
Proof.
  rewrite scan_lines_existsb. unfold kept.
  induction lines as [|l ls IH]; [reflexivity|]. simpl.
  destruct (active_match entry l) eqn:Hm; simpl; [exact IH|].
  now rewrite Hm.
Qed.

Lemma file_lines_written (sys : platform) (entry raw : text) :
  file_lines (encode_newlines sys (List.concat (kept entry (file_lines raw)))) =
  kept entry (file_lines raw).
Proof.
  unfold file_lines at 1. rewrite universal_encode by apply kept_no_cr.
  apply splitlines_concat_filter.
Qed.

(** The world [remove_from_hosts] leaves when the file can be read and
    written, whether or not it finds the entry. *)
Lemma remove_from_hosts_writable (entry : text) (w : hosts_world) (raw : text) :
  supported (system w) = true ->
  hosts w = Present raw true true ->
  exists t raw',
    remove_from_hosts entry w = (t, set_hosts (Present raw' true true) w, inl true) /\
    file_lines raw' = kept entry (file_lines raw).
Proof.
  intros Hs Hh. destruct (scan_lines entry (file_lines raw)) eqn:Hscan.
  - destruct (remove_from_hosts_rewrites entry w raw Hs Hh Hscan) as [t Ht].
    eexists. eexists. split; [exact Ht | apply file_lines_written].
  - rewrite (remove_from_hosts_absent_entry entry w raw true Hs Hh Hscan).
    exists [EPrint (MsgNoRemovalNeeded entry)], raw. split.
    + destruct w as [sys h fl]. cbn [hosts] in Hh. now subst h.
    + symmetry. now apply scan_lines_false_kept.
Qed.

(** X2: after [remove_from_hosts] on a readable and writable hosts file,
    [is_entry_in_hosts] answers [False] for that entry, whatever the entry
    and the file were. *)
Theorem remove_from_hosts_then_absent (entry : text) (w : hosts_world) (raw : text) :
  supported (system w) = true ->
  hosts w = Present raw true true ->
  value_of (remove_from_hosts entry w) = inl true /\
  value_of (is_entry_in_hosts entry (world_of (remove_from_hosts entry w))) =
    inl false.
Proof.
  intros Hs Hh.
  destruct (remove_from_hosts_writable entry w raw Hs Hh) as (t & raw' & -> & Hl).
  split; [reflexivity|]. cbn [world_of fst snd].
  erewrite is_entry_in_hosts_readable; [|exact Hs|reflexivity].
  cbn [value_of snd]. rewrite Hl. now rewrite scan_lines_kept.
Qed.

Lemma remove_from_hosts_then_absent_witness :
  value_of (remove_from_hosts HOSTS_ENTRY
              (hosts_on Linux (scenario_file ++ ln "127.0.0.1 albert.apple.com"))) =
    inl true /\
  value_of (is_entry_in_hosts HOSTS_ENTRY
              (world_of (remove_from_hosts HOSTS_ENTRY
                 (hosts_on Linux (scenario_file ++ ln "127.0.0.1 albert.apple.com"))))) =
    inl false.
Proof.
  apply (remove_from_hosts_then_absent HOSTS_ENTRY
           (hosts_on Linux (scenario_file ++ ln "127.0.0.1 albert.apple.com"))
           (scenario_file ++ ln "127.0.0.1 albert.apple.com"));
    reflexivity.
Defined.

(** X3: after a successful [add_to_hosts] of an entry that is a single line
    and not a comment, [is_entry_in_hosts] answers [True] for it. *)
Theorem add_to_hosts_then_present (entry : text) (w : hosts_world) (raw : text) :
  supported (system w) = true ->
  hosts w = Present raw true true ->
  single_line entry ->
  ~ commented entry ->
  value_of (add_to_hosts entry w) = inl true /\
  value_of (is_entry_in_hosts entry (world_of (add_to_hosts entry w))) =
    inl true.
Proof.
  intros Hs Hh He Hnc.
  destruct (scan_lines entry (file_lines raw)) eqn:Hscan.
  - rewrite (add_to_hosts_present entry w raw true Hs Hh Hscan).
    split; [reflexivity|]. cbn [world_of fst snd].
    rewrite (is_entry_in_hosts_readable entry w raw true Hs Hh).
    cbn [value_of snd]. now rewrite Hscan.
  - destruct (add_to_hosts_appends entry w raw Hs Hh Hscan) as [t ->].
    split; [reflexivity|]. cbn [world_of fst snd].
    erewrite is_entry_in_hosts_readable; [|exact Hs|reflexivity].
    cbn [value_of snd]. f_equal. rewrite appended_raw.
    rewrite (encode_newlines_no_lf (system w) entry (single_line_no_lf entry He)).
    destruct w as [sys h fl]. cbn [system set_hosts].
    rewrite (file_lines_appended sys raw entry He).
    apply scan_lines_app_true, active_match_own_line, Hnc.
Qed.

Lemma add_to_hosts_then_present_witness :
  value_of (add_to_hosts HOSTS_ENTRY (hosts_on Windows scenario_file)) = inl true /\
  value_of (is_entry_in_hosts HOSTS_ENTRY
              (world_of (add_to_hosts HOSTS_ENTRY (hosts_on Windows scenario_file)))) =
    inl true.
Proof.
  apply (add_to_hosts_then_present HOSTS_ENTRY
           (hosts_on Windows scenario_file) scenario_file).
  - reflexivity.
  - reflexivity.
  - unfold single_line, HOSTS_ENTRY. repeat constructor; discriminate.
  - intros H. apply lstrip_commented in H. discriminate H.
Defined.

(** X4: a second [remove_from_hosts] changes nothing: the world after two
    calls is the world after one (readable hosts file, writable or not). *)
Theorem remove_from_hosts_idempotent
    (entry : text) (w : hosts_world) (raw : text) (wr : bool) :
  supported (system w) = true ->
  hosts w = Present raw true wr ->
  world_of (remove_from_hosts entry (world_of (remove_from_hosts entry w))) =
  world_of (remove_from_hosts entry w).
Proof.
  intros Hs Hh. destruct wr.
  - destruct (remove_from_hosts_writable entry w raw Hs Hh) as (t & raw' & -> & Hl).
    cbn [world_of fst snd].
    erewrite remove_from_hosts_absent_entry;
      [reflexivity | exact Hs | reflexivity |].
    rewrite Hl. apply scan_lines_kept.
  - destruct (scan_lines entry (file_lines raw)) eqn:Hscan.
    + rewrite (remove_from_hosts_denied entry w raw Hs Hh Hscan).
      cbn [world_of fst snd].
      now rewrite (remove_from_hosts_denied entry w raw Hs Hh Hscan).
    + rewrite (remove_from_hosts_absent_entry entry w raw false Hs Hh Hscan).
      cbn [world_of fst snd].
      now rewrite (remove_from_hosts_absent_entry entry w raw false Hs Hh Hscan).
Qed.

Lemma remove_from_hosts_idempotent_witness :
  world_of (remove_from_hosts HOSTS_ENTRY
              (world_of (remove_from_hosts HOSTS_ENTRY
                 (hosts_on Linux (ln "127.0.0.1 albert.apple.com" ++ scenario_file))))) =
  world_of (remove_from_hosts HOSTS_ENTRY
              (hosts_on Linux (ln "127.0.0.1 albert.apple.com" ++ scenario_file))).
Proof.
  apply (remove_from_hosts_idempotent HOSTS_ENTRY
           (hosts_on Linux (ln "127.0.0.1 albert.apple.com" ++ scenario_file))
           (ln "127.0.0.1 albert.apple.com" ++ scenario_file) true);
    reflexivity.
Defined.

(** ** A line feed after the last line *)

Lemma splitlines_nonempty (s l : text) : In l (splitlines s) -> l <> [].
Proof.
  revert l. induction s as [|c r IH]; intros l; [intros []|].
  cbn [splitlines]. destruct (c =? LF)%N.
  - intros [<- | H]; [discriminate | now apply IH].
  - destruct (splitlines r) as [|l0 ls].
    + intros [<- | []]. discriminate.
    + intros [<- | H]; [discriminate | apply IH; now right].
Qed.

Lemma splitlines_snoc_lf (u : text) :
  splitlines (u ++ [LF]) = close_last (splitlines u).
Proof.
  induction u as [|c r IH]; [reflexivity|].
  cbn [app splitlines]. rewrite IH.
  destruct (N.eqb_spec c LF) as [->|Hc].
  - destruct (splitlines r) as [|l ls]; reflexivity.
  - pose proof (splitlines_nonempty r) as Hne.
    destruct (splitlines r) as [|l [|l2 ls]].
    + cbn [close_last last app]. destruct (N.eqb_spec c LF); [contradiction|].
      reflexivity.
    + assert (Hl : l <> []) by (apply Hne; now left).
      destruct l as [|d l]; [congruence|].
      cbn [close_last]. change (last (c :: d :: l) 0%N) with (last (d :: l) 0%N).
      now destruct (last (d :: l) 0 =? LF)%N.
    + reflexivity.
Qed.

Lemma substring_app_lf (entry l : text) :
  entry <> [] -> ~ In LF entry ->
  (substring entry (l ++ [LF]) <-> substring entry l).
Proof.
  intros Hne Hno. split.
  - intros (a & b & H). destruct (exists_last Hne) as (e' & x & ->).
    destruct b as [|y b].
    + rewrite app_nil_r, app_assoc in H. apply app_inj_tail in H.
      destruct H as [_ <-]. exfalso. apply Hno, in_or_app. right. now left.
    + assert (Hb : y :: b <> []) by discriminate.
      destruct (exists_last Hb) as (b' & z & Hz). rewrite Hz in H.
      rewrite 2 app_assoc in H. apply app_inj_tail in H. destruct H as [H _].
      exists a, b'. now rewrite app_assoc.
  - intros (a & b & ->). exists a, (b ++ [LF]). now rewrite <- !app_assoc.
Qed.

Lemma active_match_app_lf (entry l : text) :
  entry <> [] -> ~ In LF entry ->
  active_match entry (l ++ [LF]) = active_match entry l.
Proof.
  intros Hne Hno. unfold active_match.
  rewrite !strip_startswith_hash, lstrip_app_lf. f_equal.
  apply eq_true_iff_eq. rewrite !contains_iff.
  now apply substring_app_lf.
Qed.

Lemma active_match_blank (entry : text) :
  entry <> [] -> ~ In LF entry -> active_match entry [LF] = false.
Proof.
  intros Hne Hno. apply not_true_iff_false. intros H.
  apply active_match_iff in H. destruct H as [(a & b & H) _].
  destruct a as [|x a].
  - destruct entry as [|e r]; [congruence|]. injection H as <- _.
    apply Hno. now left.
  - injection H as _ H. destruct a; [destruct entry|]; try discriminate H.
    congruence.
Qed.

Lemma scan_lines_close_last (entry : text) (lines : list text) :
  entry <> [] -> ~ In LF entry ->
  scan_lines entry (close_last lines) = scan_lines entry lines.
Proof.
  intros Hne Hno. induction lines as [|l [|l2 ls] IH].
  - cbn [close_last scan_lines]. now rewrite active_match_blank.
  - cbn [close_last]. destruct (last l 0 =? LF)%N; cbn [scan_lines].
    + now rewrite active_match_blank.
    + now rewrite active_match_app_lf.
  - change (close_last (l :: l2 :: ls)) with (l :: close_last (l2 :: ls)).
    cbn [scan_lines] in *. now rewrite IH.
Qed.

Lemma universal_linesep_after (b : bool) (sys : platform) :
  universal_from b (linesep sys) = [LF] \/
  (universal_from b (linesep sys) = [] /\ b = true /\ is_windows sys = false).
Proof. destruct b, sys; auto. Qed.

(** Putting the platform's line end after the content adds no active line
    with the entry. *)
Lemma scan_lines_with_linesep (sys : platform) (entry raw : text) :
  entry <> [] -> ~ In LF entry ->
  scan_lines entry (file_lines (raw ++ linesep sys)) =
  scan_lines entry (file_lines raw).
Proof.
  intros Hne Hno. unfold file_lines, universal. rewrite universal_from_app.
  destruct (universal_linesep_after (cr_pending false raw) sys)
    as [-> | (-> & _)].
  - rewrite splitlines_snoc_lf. now apply scan_lines_close_last.
  - now rewrite app_nil_r.
Qed.

Lemma cr_pending_in (raw : text) : cr_pending false raw = true -> In CR raw.
Proof.
  unfold cr_pending. induction raw as [|c r IH] using rev_ind; [discriminate|].
  rewrite fold_left_app. cbn [fold_left]. intros H. apply N.eqb_eq in H.
  subst c. apply in_or_app. right. now left.
Qed.

(** A file whose line ends are the platform's reads, with one more line end
    written after it, as itself and that line end. *)
Lemma encode_universal_linesep (sys : platform) (raw : text) :
  encode_newlines sys (universal raw) = raw ->
  encode_newlines sys (universal (raw ++ linesep sys)) = raw ++ linesep sys.
Proof.
  intros Hn. unfold universal. rewrite universal_from_app.
  destruct (universal_linesep_after (cr_pending false raw) sys)
    as [-> | (_ & Hp & Hw)].
  - rewrite encode_newlines_app, encode_newlines_lf. fold (universal raw).
    now rewrite Hn.
  - exfalso. apply cr_pending_in in Hp.
    rewrite (encode_newlines_posix sys _ Hw) in Hn. rewrite <- Hn in Hp.
    now apply (universal_no_cr false raw).
Qed.

(** X5: adding an entry that was not there and removing it again does not
    give the old file back: the file is left with all its lines and one more
    line end.  For an old file with the platform's line ends the new raw
    content is the old one followed by the platform's line end. *)
Theorem add_then_remove_leaves_line_end
    (entry : text) (w : hosts_world) (raw : text) :
  supported (system w) = true ->
  hosts w = Present raw true true ->
  single_line entry ->
  entry <> [] ->
  ~ commented entry ->
  ~ isPresent_spec entry raw ->
  exists raw2,
    hosts (world_of (remove_from_hosts entry (world_of (add_to_hosts entry w)))) =
      Present raw2 true true /\
    raw2 = encode_newlines (system w) (universal (raw ++ linesep (system w))) /\
    file_lines raw2 = file_lines (raw ++ linesep (system w)) /\
    (encode_newlines (system w) (universal raw) = raw ->
     raw2 = raw ++ linesep (system w)).
Proof.
  intros Hs Hh He Hne Hnc Hp. apply scan_lines_false_iff in Hp.
  pose proof (single_line_no_lf entry He) as Hno.
  destruct (add_to_hosts_appends entry w raw Hs Hh Hp) as [t ->].
  cbn [world_of fst snd]. rewrite appended_raw, (encode_newlines_no_lf _ _ Hno).
  destruct w as [sys h fl]. unfold set_hosts.
  cbn [system hosts flushdns_ok] in *. subst h.
  assert (Hlines :
    kept entry (file_lines (raw ++ linesep sys ++ entry ++ linesep sys)) =
    file_lines (raw ++ linesep sys)).
  { rewrite (file_lines_appended sys raw entry He). unfold kept.
    rewrite filter_app. cbn [filter].
    rewrite (active_match_own_line entry Hnc). cbn [negb]. rewrite app_nil_r.
    apply scan_lines_false_kept.
    now rewrite scan_lines_with_linesep. }
  edestruct (remove_from_hosts_rewrites entry
               {| system := sys;
                  hosts := Present (raw ++ linesep sys ++ entry ++ linesep sys)
                             true true;
                  flushdns_ok := fl |}) as [t' ->];
    [exact Hs | reflexivity | |].
  { rewrite (file_lines_appended sys raw entry He).
    apply scan_lines_app_true, active_match_own_line, Hnc. }
  unfold set_hosts. cbn [world_of fst snd system hosts flushdns_ok].
  rewrite Hlines. unfold file_lines at 1. rewrite concat_splitlines.
  eexists. split; [reflexivity|]. split; [reflexivity|]. split.
  - unfold file_lines.
    rewrite universal_encode; [reflexivity | apply (universal_no_cr false)].
  - apply encode_universal_linesep.
Qed.

Lemma add_then_remove_leaves_line_end_witness :
  exists raw2,
    hosts (world_of (remove_from_hosts HOSTS_ENTRY
             (world_of (add_to_hosts HOSTS_ENTRY (hosts_on Linux scenario_file))))) =
      Present raw2 true true /\
    raw2 = encode_newlines Linux (universal (scenario_file ++ linesep Linux)) /\
    file_lines raw2 = file_lines (scenario_file ++ linesep Linux) /\
    (encode_newlines Linux (universal scenario_file) = scenario_file ->
     raw2 = scenario_file ++ linesep Linux).
Proof.
  apply (add_then_remove_leaves_line_end HOSTS_ENTRY
           (hosts_on Linux scenario_file) scenario_file).
  - reflexivity.
  - reflexivity.
  - unfold single_line, HOSTS_ENTRY. repeat constructor; discriminate.
  - discriminate.
  - intros H. apply lstrip_commented in H. discriminate H.
  - intros H. apply scan_lines_iff in H. vm_compute in H. discriminate H.
Defined.

(** ** Failures and unusual files *)

Ltac run_hosts :=
  cbv [add_to_hosts remove_from_hosts is_entry_in_hosts
       bind ret raise try_except emit print get put
       get_hosts_file_path read_hosts write_hosts open_hosts_append
       open_hosts_truncate run_flushdns dns_cache_step set_hosts
       system hosts flushdns_ok is_windows is_unix negb
       trace_of world_of value_of fst snd].

Ltac failure_leaf :=
  (eexists; eexists; eexists; split; [reflexivity|]);
  first [ discriminate | intros _; split; [reflexivity | simpl; auto 10] ].

(** X6: [add_to_hosts] always returns a boolean; when it returns [False] the
    world is as it was, and the reason was printed: the platform is not
    supported, or the file could not be opened for appending and the hint
    about privileges is given. *)
Theorem add_to_hosts_failure_leaves_world (entry : text) (w : hosts_world) :
  exists t w' b,
    add_to_hosts entry w = (t, w', inl b) /\
    (b = false ->
     w' = w /\
     (In MsgUnsupportedOS (printed t) \/ In MsgEnsurePrivileges (printed t))).
Proof.
  destruct w as [sys h fl].
  destruct h as [c | raw rd wr]; [|destruct rd].
  - destruct sys, c, fl; run_hosts; simpl; failure_leaf.
  - destruct (scan_lines entry (splitlines (universal raw))) eqn:Hscan;
      destruct sys, wr, fl; run_hosts; rewrite ?Hscan; simpl; failure_leaf.
  - destruct sys, wr, fl; run_hosts; simpl; failure_leaf.
Qed.

(** X7: [remove_from_hosts] always returns a boolean; when it returns
    [False] the world is as it was (the file is opened for writing, and so
    emptied, only after it was read), and the reason was printed. *)
Theorem remove_from_hosts_failure_leaves_world (entry : text) (w : hosts_world) :
  exists t w' b,
    remove_from_hosts entry w = (t, w', inl b) /\
    (b = false ->
     w' = w /\
     (In MsgUnsupportedOS (printed t) \/ In MsgEnsurePrivileges (printed t))).
Proof.
  destruct w as [sys h fl].
  destruct h as [c | raw rd wr]; [|destruct rd].
  - destruct sys, c, fl; run_hosts; simpl; failure_leaf.
  - destruct (scan_lines entry (splitlines (universal raw))) eqn:Hscan;
      destruct sys, wr, fl; run_hosts; rewrite ?Hscan; simpl;
      rewrite ?rewrite_lines_run, <- ?scan_lines_existsb, ?Hscan; simpl;
      failure_leaf.
  - destruct sys, wr, fl; run_hosts; simpl; failure_leaf.
Qed.

(** X8: where the hosts file is missing and can be made, [add_to_hosts]
    makes it: the check prints that the file was not found, and the file
    then holds a line end, the entry and a line end. *)
Theorem add_to_hosts_creates_missing_file (entry : text) (w : hosts_world) :
  supported (system w) = true ->
  hosts w = Absent true ->
  printed (trace_of (is_entry_in_hosts entry w)) =
    [MsgHostsFileNotFound (path_for (system w))] /\
  value_of (add_to_hosts entry w) = inl true /\
  hosts (world_of (add_to_hosts entry w)) =
    Present (linesep (system w) ++ encode_newlines (system w) entry ++
             linesep (system w)) true true.
Proof.
  destruct w as [sys h fl]. cbn [system hosts]. intros Hs ->.
  rewrite <- appended_raw.
  destruct sys, fl; try discriminate Hs; repeat split.
Qed.

Lemma add_to_hosts_creates_missing_file_witness :
  let w := {| system := Linux; hosts := Absent true; flushdns_ok := true |} in
  printed (trace_of (is_entry_in_hosts HOSTS_ENTRY w)) =
    [MsgHostsFileNotFound (path_for Linux)] /\
  value_of (add_to_hosts HOSTS_ENTRY w) = inl true /\
  hosts (world_of (add_to_hosts HOSTS_ENTRY w)) =
    Present (linesep Linux ++ encode_newlines Linux HOSTS_ENTRY ++ linesep Linux)
      true true.
Proof.
  cbv zeta.
  apply (add_to_hosts_creates_missing_file HOSTS_ENTRY
           {| system := Linux; hosts := Absent true; flushdns_ok := true |});
    reflexivity.
Defined.

(** X9: a hosts file that can be written but not read counts as not holding
    the entry, so every [add_to_hosts] appends the entry again, whatever the
    file holds. *)
Theorem add_to_hosts_unreadable_appends
    (entry : text) (w : hosts_world) (raw : text) :
  supported (system w) = true ->
  hosts w = Present raw false true ->
  value_of (add_to_hosts entry w) = inl true /\
  hosts (world_of (add_to_hosts entry w)) =
    Present (raw ++ encode_newlines (system w) ([LF] ++ entry ++ [LF]))
      false true /\
  hosts (world_of (add_to_hosts entry (world_of (add_to_hosts entry w)))) =
    Present ((raw ++ encode_newlines (system w) ([LF] ++ entry ++ [LF])) ++
             encode_newlines (system w) ([LF] ++ entry ++ [LF]))
      false true.
Proof.
  destruct w as [sys h fl]. cbn [system hosts]. intros Hs ->.
  destruct sys, fl; try discriminate Hs; repeat split.
Qed.

Lemma add_to_hosts_unreadable_appends_witness :
  let w := {| system := Linux;
              hosts := Present (ln "127.0.0.1 albert.apple.com") false true;
              flushdns_ok := true |} in
  value_of (add_to_hosts HOSTS_ENTRY w) = inl true /\
  hosts (world_of (add_to_hosts HOSTS_ENTRY w)) =
    Present (ln "127.0.0.1 albert.apple.com" ++
             encode_newlines Linux ([LF] ++ HOSTS_ENTRY ++ [LF]))
      false true /\
  hosts (world_of (add_to_hosts HOSTS_ENTRY (world_of (add_to_hosts HOSTS_ENTRY w)))) =
    Present ((ln "127.0.0.1 albert.apple.com" ++
              encode_newlines Linux ([LF] ++ HOSTS_ENTRY ++ [LF])) ++
             encode_newlines Linux ([LF] ++ HOSTS_ENTRY ++ [LF]))
      false true.
Proof.
  cbv zeta.
  apply (add_to_hosts_unreadable_appends HOSTS_ENTRY
           {| system := Linux;
              hosts := Present (ln "127.0.0.1 albert.apple.com") false true;
              flushdns_ok := true |}
           (ln "127.0.0.1 albert.apple.com"));
    reflexivity.
Defined.

(** X10: the safeguard of lines 155-157 is never reached: whatever the
    world, [remove_from_hosts] does not print that the entry was not
    actively present. *)
Theorem remove_from_hosts_never_reports_inactive
    (entry : text) (w : hosts_world) :
  ~ In (MsgNotActivelyPresent entry)
       (printed (trace_of (remove_from_hosts entry w))).
Proof.
  destruct w as [sys h fl].
  destruct h as [c | raw rd wr]; [|destruct rd].
  - destruct sys, c, fl; run_hosts; simpl; intuition discriminate.
  - destruct (scan_lines entry (splitlines (universal raw))) eqn:Hscan;
      destruct sys, wr, fl; run_hosts; rewrite ?Hscan; simpl;
      rewrite ?rewrite_lines_run, <- ?scan_lines_existsb, ?Hscan; simpl;
      intuition discriminate.
  - destruct sys, wr, fl; run_hosts; simpl; intuition discriminate.
Qed.

(** * Further properties of [stop_php_server] *)

Section SupervisorMore.

Variable K : Type.
Variable os_kill : Z -> signal -> K -> option exn * K.
Variable os_sleep : Z -> K -> K.
Variable decimal : char -> option Z.
Variable max_str_digits : N.

Local Notation "'stop_server'" :=
  (stop_php_server os_kill os_sleep decimal max_str_digits).
Local Notation "'parse_int'" := (py_int decimal max_str_digits).

Ltac run_stop :=
  cbv [stop_php_server read_pid terminate pid_file_exists read_pid_file
       remove_pid_file kill sleep signal_SIGKILL
       try_except bind print emit get put ret raise
       set_kernel set_pid_file kernel sup_system pid_file pid_file_removable
       trace_of world_of value_of fst snd negb is_OSError is_ValueError
       is_windows orb].

Ltac split_kill :=
  match goal with
  | |- context [os_kill ?p ?s ?k] =>
      let e := fresh "e" in
      let k' := fresh "k" in
      destruct (os_kill p s k) as [[e|] k']; [destruct e|]
  end.

Ltac stop_cases w raw :=
  let sys := fresh "sys" in
  let rm := fresh "rm" in
  let k := fresh "k" in
  let c := fresh "c" in
  let rd := fresh "rd" in
  let wr := fresh "wr" in
  destruct w as [sys [c | raw rd wr] rm k]; [|destruct rd];
  [ run_stop
  | run_stop;
    destruct (parse_int (strip (universal raw)));
    [ destruct rm, sys; repeat (split_kill; run_stop) | ]
  | run_stop ].

(** X11: what a call of [stop_php_server] that returns does to the PID
    file.  When it returns [False] the PID file is as it was; when it
    returns [True] the PID file is gone if removing it is permitted, and
    otherwise it stays and the failure to remove it is printed.  Platform
    and permission are never changed. *)
Theorem stop_php_server_marker_fate (w : sup_world K) :
  sup_system (world_of (stop_server w)) = sup_system w /\
  pid_file_removable (world_of (stop_server w)) = pid_file_removable w /\
  (value_of (stop_server w) = inl false ->
   pid_file (world_of (stop_server w)) = pid_file w) /\
  (value_of (stop_server w) = inl true ->
   if pid_file_removable w
   then pid_file (world_of (stop_server w)) = Absent true /\
        In MsgPidFileRemoved (printed (trace_of (stop_server w)))
   else pid_file (world_of (stop_server w)) = pid_file w /\
        In (MsgPidFileNotRemoved PermissionError)
           (printed (trace_of (stop_server w)))).
Proof.
  stop_cases w raw; simpl;
    repeat split; try discriminate; simpl; auto 20.
Qed.



(** X13: when the SIGTERM call raises, nothing more is tried: no sleep, no
    probe, no SIGKILL.  The run reports success exactly when the exception
    is [ProcessLookupError] (the process is gone already); any other
    exception, a denied permission say, is reported as an error. *)
Theorem stop_php_server_sigterm_raises
    (w : sup_world K) (raw : text) (wr : bool) (pid : Z) (e : exn) :
  pid_file w = Present raw true wr ->
  parse_int (strip (universal raw)) = Some pid ->
  fst (os_kill pid SIGTERM (kernel w)) = Some e ->
  signals_sent (trace_of (stop_server w)) = [(pid, SIGTERM)] /\
  ~ In (ESleep 2) (trace_of (stop_server w)) /\
  value_of (stop_server w) =
    inl (match e with ProcessLookupError => true | _ => false end) /\
  In (match e with
      | ProcessLookupError => MsgAlreadyStopped pid
      | _ => MsgStopError pid e
      end) (printed (trace_of (stop_server w))).
Proof.
  intros Hpf Hpid. destruct w as [sys pf rm k]. cbn [pid_file] in Hpf. subst pf.
  run_stop. rewrite Hpid.
  destruct (os_kill pid SIGTERM k) as [[e1|] k1]; simpl;
    intros He; [injection He as <- | discriminate He].
  destruct e1, rm; simpl; repeat split; auto 10; intuition discriminate.
Qed.

(** X14: when SIGTERM is delivered and the probe after the sleep raises, no
    SIGKILL is sent, and the run reports success exactly when the exception
    is an [OSError]: a probe that is denied ([PermissionError]) is taken for
    a process that terminated, like one that finds no process. *)
Theorem stop_php_server_probe_raises
    (w : sup_world K) (raw : text) (wr : bool) (pid : Z) (e : exn) :
  pid_file w = Present raw true wr ->
  parse_int (strip (universal raw)) = Some pid ->
  fst (os_kill pid SIGTERM (kernel w)) = None ->
  fst (os_kill pid SIG0
         (os_sleep 2 (snd (os_kill pid SIGTERM (kernel w))))) = Some e ->
  signals_sent (trace_of (stop_server w)) = [(pid, SIGTERM); (pid, SIG0)] /\
  value_of (stop_server w) = inl (is_OSError e) /\
  (is_OSError e = true ->
   In (MsgTerminated pid) (printed (trace_of (stop_server w)))).
Proof.
  intros Hpf Hpid. destruct w as [sys pf rm k]. cbn [pid_file] in Hpf. subst pf.
  run_stop. rewrite Hpid.
  destruct (os_kill pid SIGTERM k) as [[e1|] k1]; simpl;
    intros He1; [discriminate He1|]. clear He1.
  run_stop.
  destruct (os_kill pid SIG0 (os_sleep 2 k1)) as [[e2|] k2]; simpl;
    intros He2; [injection He2 as <- | discriminate He2].
  destruct e2, rm; simpl; repeat split; auto 10; intuition discriminate.
Qed.


(** X15: on Windows, where [signal.SIGKILL] does not exist, no run sends
    SIGKILL; a process that the probe still finds after SIGTERM makes the
    run fail with the [AttributeError] reported and the PID file left. *)
Theorem stop_php_server_windows_cannot_force (w : sup_world K) :
  sup_system w = Windows ->
  filter sends_sigkill (trace_of (stop_server w)) = [] /\
  (forall raw wr pid,
      pid_file w = Present raw true wr ->
      parse_int (strip (universal raw)) = Some pid ->
      fst (os_kill pid SIGTERM (kernel w)) = None ->
      fst (os_kill pid SIG0
             (os_sleep 2 (snd (os_kill pid SIGTERM (kernel w))))) = None ->
      value_of (stop_server w) = inl false /\
      pid_file (world_of (stop_server w)) = pid_file w /\
      In (MsgStopError pid AttributeError)
         (printed (trace_of (stop_server w)))).
Proof.
  intros Hsys. split.
  - destruct w as [sys [c | raw [|] wr] rm k]; cbn [sup_system] in Hsys;
      subst sys; run_stop; try reflexivity.
    destruct (parse_int (strip (universal raw))) as [pid|]; [|reflexivity].
    destruct rm; repeat (split_kill; run_stop); reflexivity.
  - intros raw wr pid Hpf Hpid.
    destruct w as [sys pf rm k]. cbn [pid_file sup_system] in Hpf, Hsys.
    subst pf sys. run_stop. rewrite Hpid.
    destruct (os_kill pid SIGTERM k) as [[e1|] k1]; simpl;
      intros He1; [discriminate He1|]. clear He1. run_stop.
    destruct (os_kill pid SIG0 (os_sleep 2 k1)) as [[e2|] k2]; simpl;
      intros He2; [discriminate He2|].
    repeat split. simpl. auto 10.
Qed.

(** X16: off Windows, when SIGTERM is delivered and the probe finds the
    process, SIGKILL is sent and no further probe follows: the run reports
    success when that call returns or raises an [OSError], and failure on
    any other exception. *)
Theorem stop_php_server_trusts_sigkill
    (w : sup_world K) (raw : text) (wr : bool) (pid : Z) :
  sup_system w <> Windows ->
  pid_file w = Present raw true wr ->
  parse_int (strip (universal raw)) = Some pid ->
  fst (os_kill pid SIGTERM (kernel w)) = None ->
  fst (os_kill pid SIG0
         (os_sleep 2 (snd (os_kill pid SIGTERM (kernel w))))) = None ->
  signals_sent (trace_of (stop_server w)) =
    [(pid, SIGTERM); (pid, SIG0); (pid, SIGKILL)] /\
  value_of (stop_server w) =
    inl (match fst (os_kill pid SIGKILL
                      (snd (os_kill pid SIG0
                              (os_sleep 2
                                 (snd (os_kill pid SIGTERM (kernel w)))))))
         with
         | None => true
         | Some e => is_OSError e
         end).
Proof.
  intros Hsys Hpf Hpid.
  destruct w as [sys pf rm k]. cbn [pid_file sup_system] in Hpf, Hsys. subst pf.
  run_stop. rewrite Hpid.
  destruct (os_kill pid SIGTERM k) as [[e1|] k1]; simpl;
    intros He1; [discriminate He1|]. clear He1. run_stop.
  destruct (os_kill pid SIG0 (os_sleep 2 k1)) as [[e2|] k2]; simpl;
    intros He2; [discriminate He2|]. clear He2. run_stop.
  destruct sys; try congruence; run_stop;
    destruct (os_kill pid SIGKILL k2) as [[[]|] k3], rm; split; reflexivity.
Qed.

End SupervisorMore.


Lemma stop_php_server_sigterm_raises_witness :
  let w := marker_world (ln "1234") [Some PermissionError] in
  signals_sent (trace_of (scripted_stop w)) = [(1234, SIGTERM)]%Z /\
  ~ In (ESleep 2) (trace_of (scripted_stop w)) /\
  value_of (scripted_stop w) = inl false /\
  In (MsgStopError 1234 PermissionError) (printed (trace_of (scripted_stop w))).
Proof.
  cbv zeta.
  apply (stop_php_server_sigterm_raises (list (option exn)) scripted_kill
           scripted_sleep ascii_decimal 4300
           (marker_world (ln "1234") [Some PermissionError]) (ln "1234") true
           1234%Z PermissionError);
    reflexivity.
Defined.

Lemma stop_php_server_probe_raises_witness :
  let w := marker_world (ln "1234") [None; Some PermissionError] in
  signals_sent (trace_of (scripted_stop w)) =
    [(1234, SIGTERM); (1234, SIG0)]%Z /\
  value_of (scripted_stop w) = inl (is_OSError PermissionError) /\
  (is_OSError PermissionError = true ->
   In (MsgTerminated 1234) (printed (trace_of (scripted_stop w)))).
Proof.
  cbv zeta.
  apply (stop_php_server_probe_raises (list (option exn)) scripted_kill
           scripted_sleep ascii_decimal 4300
           (marker_world (ln "1234") [None; Some PermissionError]) (ln "1234")
           true 1234%Z PermissionError);
    reflexivity.
Defined.

Lemma stop_php_server_windows_cannot_force_witness :
  let w := {| sup_system := Windows; pid_file := Present (ln "1234") true true;
              pid_file_removable := true; kernel := [None; None] |} in
  filter sends_sigkill (trace_of (scripted_stop w)) = [] /\
  value_of (scripted_stop w) = inl false /\
  pid_file (world_of (scripted_stop w)) = pid_file w /\
  In (MsgStopError 1234 AttributeError) (printed (trace_of (scripted_stop w))).
Proof.
  cbv zeta.
  destruct (stop_php_server_windows_cannot_force (list (option exn))
              scripted_kill scripted_sleep ascii_decimal 4300
              {| sup_system := Windows;
                 pid_file := Present (ln "1234") true true;
                 pid_file_removable := true; kernel := [None; None] |}
              eq_refl) as [Hnone Halive].
  split; [exact Hnone|].
  apply (Halive (ln "1234") true 1234%Z); reflexivity.
Defined.

Lemma stop_php_server_trusts_sigkill_witness :
  let w := marker_world (ln "1234") [None; None; Some PermissionError] in
  signals_sent (trace_of (scripted_stop w)) =
    [(1234, SIGTERM); (1234, SIG0); (1234, SIGKILL)]%Z /\
  value_of (scripted_stop w) = inl true.
Proof.
  cbv zeta.
  apply (stop_php_server_trusts_sigkill (list (option exn)) scripted_kill
           scripted_sleep ascii_decimal 4300
           (marker_world (ln "1234") [None; None; Some PermissionError])
           (ln "1234") true 1234%Z);
    solve [reflexivity | discriminate].
Defined.

(** * Launching the server *)

(** ** Decimal output and input *)

Lemma decimal_value_rev (digits : text) :
  decimal_value (rev digits) = little_endian_value digits.
Proof.
  unfold decimal_value, little_endian_value.
  rewrite <- (rev_involutive digits) at 2.
  now rewrite fold_left_rev_right.
Qed.

Lemma rev_digits_value (fuel : nat) :
  forall n : Z,
    (0 <= n < 10 ^ Z.of_nat fuel)%Z ->
    little_endian_value (rev_digits fuel n) = n.
Proof.
  induction fuel as [|f IH]; intros n Hn.
  - simpl in Hn. cbn [rev_digits little_endian_value fold_right]. lia.
  - cbn [rev_digits]. unfold little_endian_value. cbn [fold_right].
    fold (little_endian_value (if (n <? 10)%Z then [] else rev_digits f (n / 10))).
    pose proof (Z.mod_pos_bound n 10 ltac:(lia)) as Hm.
    rewrite Z2N.id by lia.
    destruct (Z.ltb_spec n 10) as [Hlt | Hge].
    + cbn [little_endian_value fold_right]. rewrite (Z.mod_small n 10) by lia. lia.
    + rewrite IH.
      * pose proof (Z.div_mod n 10 ltac:(lia)). lia.
      * split; [apply Z.div_pos; lia|].
        apply Z.div_lt_upper_bound; [lia|].
        rewrite Nat2Z.inj_succ, Z.pow_succ_r in Hn by lia. lia.
Qed.

Lemma rev_digits_ascii (fuel : nat) :
  forall n : Z, (0 <= n)%Z -> Forall ascii_digit (rev_digits fuel n).
Proof.
  induction fuel as [|f IH]; intros n Hn; [constructor|].
  cbn [rev_digits]. constructor.
  - unfold ascii_digit. pose proof (Z.mod_pos_bound n 10 ltac:(lia)). lia.
  - destruct (n <? 10)%Z; [constructor|]. apply IH. apply Z.div_pos; lia.
Qed.

Lemma rev_digits_length (fuel : nat) (n : Z) :
  (List.length (rev_digits fuel n) <= fuel)%nat.
Proof.
  revert n. induction fuel as [|f IH]; intros n; [apply le_n|].
  cbn [rev_digits List.length]. destruct (n <? 10)%Z.
  - simpl. lia.
  - specialize (IH (n / 10)%Z). lia.
Qed.

Lemma fuel_suffices (n : Z) :
  (0 <= n)%Z -> (n < 10 ^ Z.of_nat (S (Z.to_nat (Z.log2 n))))%Z.
Proof.
  intros Hn. rewrite Nat2Z.inj_succ, Z2Nat.id by apply Z.log2_nonneg.
  destruct (Z.eq_dec n 0) as [-> | Hpos].
  - simpl. lia.
  - pose proof (Z.log2_spec n ltac:(lia)) as [_ Hlt].
    eapply Z.lt_le_trans; [exact Hlt|].
    apply Z.pow_le_mono_l. lia.
Qed.

Lemma digits_of_spec (n : Z) :
  (0 <= n)%Z ->
  digits_of n <> [] /\ Forall ascii_digit (digits_of n) /\
  decimal_value (digits_of n) = n /\
  (List.length (digits_of n) <= S (Z.to_nat (Z.log2 n)))%nat.
Proof.
  intros Hn. unfold digits_of. repeat split.
  - cbn [rev_digits]. intros H. apply (f_equal (@rev char)) in H.
    rewrite rev_involutive in H. discriminate H.
  - apply Forall_rev, rev_digits_ascii, Hn.
  - rewrite decimal_value_rev. apply rev_digits_value.
    split; [exact Hn | now apply fuel_suffices].
  - rewrite length_rev. apply rev_digits_length.
Qed.

Section SessionProps.

Variable K : Type.
Variable os_kill : Z -> signal -> K -> option exn * K.
Variable os_sleep : Z -> K -> K.
Variable decimal : char -> option Z.
Variable max_str_digits : N.
Variable os_popen : list text -> K -> (Z + exn) * K.
Variable os_poll : Z -> K -> option Z * K.
Variable os_nap : K -> bool * K.

Hypothesis decimal_ascii :
  forall c, ascii_digit c -> decimal c = Some (Z.of_N c - 48)%Z.

Local Notation "'parse_int'" := (py_int decimal max_str_digits).
Local Notation "'stop_server'" :=
  (stop_php_server os_kill os_sleep decimal max_str_digits).
Local Notation "'start_server'" := (start_php_server os_popen).

Lemma py_str_no_line_end (z : Z) :
  Forall (fun c => c <> LF /\ c <> CR) (py_str z).
Proof.
  assert (Hd : forall n, (0 <= n)%Z ->
                 Forall (fun c => c <> LF /\ c <> CR) (digits_of n)).
  { intros n Hn. destruct (digits_of_spec n Hn) as (_ & Hd & _).
    eapply Forall_impl; [|exact Hd]. intros c Hc.
    destruct (ascii_digit_plain c Hc) as (_ & ? & ? & _). auto. }
  unfold py_str. destruct (Z.ltb_spec z 0).
  - constructor; [split; discriminate | apply Hd; lia].
  - now apply Hd.
Qed.

(** The decimal text of a number is written as it is and parses back. *)
Lemma py_str_round_trip (sys : platform) (z : Z) :
  (max_str_digits = 0 \/ 64 <= max_str_digits)%N ->
  (Z.abs z < 2 ^ 63)%Z ->
  encode_newlines sys (py_str z) = py_str z /\
  parse_int (strip (universal (encode_newlines sys (py_str z)))) = Some z.
Proof.
  intros Hmax Hz.
  assert (Henc : encode_newlines sys (py_str z) = py_str z).
  { apply encode_newlines_no_lf. intros H.
    pose proof (py_str_no_line_end z) as Hf. rewrite Forall_forall in Hf.
    now destruct (Hf LF H). }
  split; [exact Henc|]. rewrite Henc.
  assert (Hlen : forall n, (0 <= n < 2 ^ 63)%Z ->
            (max_str_digits = 0 \/
             N.of_nat (List.length (digits_of n)) <= max_str_digits)%N).
  { intros n Hn. destruct Hmax as [-> | Hmax]; [now left | right].
    destruct (digits_of_spec n) as (_ & _ & _ & Hl); [lia|].
    assert (Z.log2 n < 63)%Z.
    { destruct (Z.eq_dec n 0) as [-> | Hne]; [reflexivity|].
      apply Z.log2_lt_pow2; lia. }
    pose proof (Z.log2_nonneg n). lia. }
  unfold py_str. destruct (Z.ltb_spec z 0) as [Hneg | Hpos].
  - destruct (digits_of_spec (- z)) as (Hne & Hd & Hv & _); [lia|].
    pose proof (parse_int_padded decimal max_str_digits decimal_ascii
                  [] [MINUS] (digits_of (- z)) []) as H.
    cbn [app] in H. rewrite app_nil_r in H. rewrite H; auto.
    + cbn [signed]. change (MINUS =? MINUS)%N with true. cbv iota.
      rewrite Hv. f_equal. lia.
    + apply Hlen. lia.
  - destruct (digits_of_spec z) as (Hne & Hd & Hv & _); [lia|].
    pose proof (parse_int_padded decimal max_str_digits decimal_ascii
                  [] [] (digits_of z) []) as H.
    cbn [app] in H. rewrite app_nil_r in H. rewrite H; auto.
    + cbn [signed]. now rewrite Hv.
    + apply Hlen. lia.
Qed.

(** X17: what [str] writes for a PID, [int] reads back after the trimming
    of [stop_php_server]: on every platform the text written to the PID
    file is the decimal text itself and parses to the same number (for a
    PID that fits 64 bits, and a digit limit that is off or at least 64). *)
Theorem py_int_py_str (sys : platform) (z : Z) :
  (max_str_digits = 0 \/ 64 <= max_str_digits)%N ->
  (Z.abs z < 2 ^ 63)%Z ->
  encode_newlines sys (py_str z) = py_str z /\
  parse_int (strip (universal (encode_newlines sys (py_str z)))) = Some z.
Proof. exact (py_str_round_trip sys z). Qed.


Ltac run_session :=
  cbv [start_php_server announce_launch launch current_user_has_admin
       popen write_marker
       check_php_installed py_input manage_hosts_add_interactive
       manage_hosts_remove_interactive poll nap supervise start_command
       stop_command on_hosts on_supervisor lift
       xbind xret xraise xtry xfinally xfinally_done xemit xprint xget xput
       hosts_view set_hosts_view sup_view set_sup_view set_marker set_procs
       set_stdin set_pid_file set_kernel with_admin
       os_name hosts_file dns_flush_ok marker marker_removable procs
       activator_exists euid_is_root is_user_an_admin php_version stdin
       sup_system pid_file pid_file_removable kernel
       system hosts flushdns_ok
       xtrace_of xworld_of xvalue_of trace_of world_of value_of
       fst snd negb andb is_windows is_unix
       is_OSError].

Ltac run_stop :=
  cbv [stop_php_server read_pid terminate pid_file_exists read_pid_file
       remove_pid_file kill sleep signal_SIGKILL
       try_except bind print emit get put ret raise
       set_kernel set_pid_file kernel sup_system pid_file pid_file_removable
       trace_of world_of value_of fst snd negb is_OSError is_ValueError
       is_windows orb].

Ltac split_kill :=
  match goal with
  | |- context [os_kill ?p ?s ?k] =>
      let e := fresh "e" in
      let k' := fresh "k" in
      destruct (os_kill p s k) as [[e|] k']; [destruct e|]
  end.

Lemma py_str_encoded (sys : platform) (pid : Z) :
  encode_newlines sys (py_str pid) = py_str pid.
Proof.
  apply encode_newlines_no_lf. intros H.
  pose proof (py_str_no_line_end pid) as Hf.
  rewrite Forall_forall in Hf. now destruct (Hf LF H).
Qed.

Lemma xbind_run {W A B} (m : xprog W A) (f : A -> xprog W B)
    (w w1 w2 : W) (t1 t2 : list xevent) (a : A) (r : B + xexn) :
  m w = (t1, w1, inl a) ->
  f a w1 = (t2, w2, r) ->
  xbind m f w = (t1 ++ t2, w2, r).
Proof. intros Hm Hf. unfold xbind. now rewrite Hm, Hf. Qed.

Lemma xbind_raised {W A B} (m : xprog W A) (f : A -> xprog W B)
    (w w1 : W) (t1 : list xevent) (e : xexn) :
  m w = (t1, w1, inr e) ->
  xbind m f w = (t1, w1, inr e).
Proof. intros Hm. unfold xbind. now rewrite Hm. Qed.

Lemma only_prints_app (t1 t2 : list xevent) :
  only_prints t1 -> only_prints t2 -> only_prints (t1 ++ t2).
Proof.
  intros H1 H2 ev Hin. apply in_app_or in Hin. destruct Hin; auto.
Qed.

Ltac no_such_event :=
  let H := fresh "H" in
  intros H; simpl in H;
  repeat (destruct H as [H | H]; [discriminate H|]);
  contradiction.

Ltac prints_only :=
  let ev := fresh "ev" in
  let H := fresh "H" in
  intros ev H; simpl in H;
  repeat (destruct H as [H | H]; [subst ev; eexists; reflexivity|]);
  contradiction.

(** The announcement prints and does nothing else; the warning about the
    port is among what it prints only for a port below 1024. *)
Lemma announce_launch_run (s : session K) (port : Z) (doc_root : text) :
  exists pre,
    announce_launch port doc_root s = (pre, s, inl tt) /\
    only_prints pre /\
    (In (XPrint (MsgPrivilegedPort port)) pre -> (port < 1024)%Z) /\
    (forall pid, ~ In (XPrint (MsgStarted pid)) pre).
Proof.
  destruct s as [os hf fl mk rm ps act root adm php inp].
  destruct os, root, adm as [[|]|]; run_session;
    destruct (Z.ltb_spec port 1024); simpl;
    (eexists; split; [reflexivity|]); (split; [prints_only|]);
    (split; [|intros pid0; no_such_event]);
    first [ intros _; assumption | no_such_event ].
Qed.

Lemma launch_written
    (s : session K) (port : Z) (doc_root : text) (pid : Z) (k : K) :
  os_popen (php_command port doc_root) (procs s) = (inl pid, k) ->
  (marker s = Absent true \/ exists old r, marker s = Present old r true) ->
  exists r,
    launch os_popen port doc_root s =
      ([XPopen (php_command port doc_root) (inl pid); XPrint (MsgStarted pid)],
       set_marker (Present (py_str pid) r true) (set_procs k s),
       inl (Some pid)) /\
    (marker s = Absent true -> r = true) /\
    (forall old r0, marker s = Present old r0 true -> r = r0).
Proof.
  intros Hpopen Hmarker.
  destruct s as [os hf fl mk rm ps act root adm php inp].
  cbn [procs marker] in Hpopen, Hmarker.
  pose proof (py_str_encoded os pid) as Henc.
  destruct Hmarker as [-> | (old & r & ->)];
    run_session; rewrite Hpopen; run_session; rewrite Henc; simpl;
    (eexists; split; [reflexivity|]); split; congruence.
Qed.

Lemma launch_unwritten
    (s : session K) (port : Z) (doc_root : text) (pid : Z) (k : K) :
  os_popen (php_command port doc_root) (procs s) = (inl pid, k) ->
  (marker s = Absent false \/ exists old r, marker s = Present old r false) ->
  launch os_popen port doc_root s =
    ([XPopen (php_command port doc_root) (inl pid);
      XPrint (MsgPidFileNotWritten PermissionError);
      XPrint MsgStopManuallyLater],
     set_procs k s, inl (Some pid)).
Proof.
  intros Hpopen Hmarker.
  destruct s as [os hf fl mk rm ps act root adm php inp].
  cbn [procs marker] in Hpopen, Hmarker.
  destruct Hmarker as [-> | (old & r & ->)];
    run_session; rewrite Hpopen; run_session; reflexivity.
Qed.

Lemma launch_failed
    (s : session K) (port : Z) (doc_root : text) (e : exn) (k : K) :
  os_popen (php_command port doc_root) (procs s) = (inr e, k) ->
  exists m,
    launch os_popen port doc_root s =
      ([XPopen (php_command port doc_root) (inr e); XPrint m],
       set_procs k s, inl None).
Proof.
  intros Hpopen.
  destruct s as [os hf fl mk rm ps act root adm php inp].
  cbn [procs] in Hpopen. run_session. rewrite Hpopen. run_session.
  destruct e; simpl; eexists; reflexivity.
Qed.

(** With [activator.php] in place, [start_php_server] is the announcement
    followed by the launch. *)
Lemma start_php_server_run (s : session K) (port : Z) (doc_root : text) :
  activator_exists s = true ->
  exists pre,
    only_prints pre /\
    (In (XPrint (MsgPrivilegedPort port)) pre -> (port < 1024)%Z) /\
    (forall pid, ~ In (XPrint (MsgStarted pid)) pre) /\
    start_server port doc_root s =
      (pre ++ xtrace_of (launch os_popen port doc_root s),
       xworld_of (launch os_popen port doc_root s),
       xvalue_of (launch os_popen port doc_root s)).
Proof.
  intros Hact.
  destruct (announce_launch_run s port doc_root) as (pre & Hpre & Hp & Hw & Hn).
  exists pre. split; [exact Hp|]. split; [exact Hw|]. split; [exact Hn|].
  unfold start_php_server, xbind at 1, xget. rewrite Hact. cbn [negb].
  destruct (launch os_popen port doc_root s) as [[t s1] r] eqn:Hl.
  cbn [xtrace_of xworld_of xvalue_of fst snd].
  rewrite (xbind_run _ _ s s s1 pre t tt r Hpre Hl). reflexivity.
Qed.

Lemma start_php_server_launched
    (s : session K) (port : Z) (doc_root : text) (pid : Z) (k : K) :
  activator_exists s = true ->
  os_popen (php_command port doc_root) (procs s) = (inl pid, k) ->
  (marker s = Absent true \/ exists old r, marker s = Present old r true) ->
  exists t r,
    start_server port doc_root s =
      (t, set_marker (Present (py_str pid) r true) (set_procs k s),
       inl (Some pid)) /\
    In (XPrint (MsgStarted pid)) t /\
    (marker s = Absent true -> r = true) /\
    (forall old r0, marker s = Present old r0 true -> r = r0).
Proof.
  intros Hact Hpopen Hmarker.
  destruct (start_php_server_run s port doc_root Hact) as (pre & _ & _ & _ & ->).
  destruct (launch_written s port doc_root pid k Hpopen Hmarker)
    as (r & -> & Hnew & Hold).
  cbn [xtrace_of xworld_of xvalue_of fst snd].
  eexists. exists r. split; [reflexivity|]. split; [|split; assumption].
  apply in_or_app. right. simpl. auto.
Qed.

Lemma stop_targets_parsed_pid (w : sup_world K) (raw : text) (wr : bool) (pid : Z) :
  pid_file w = Present raw true wr ->
  parse_int (strip (universal raw)) = Some pid ->
  exists t,
    trace_of (stop_server w) =
    EPrint (MsgStopping pid) ::
    EKill pid SIGTERM (fst (os_kill pid SIGTERM (kernel w))) :: t.
Proof.
  intros Hpf Hpid. destruct w as [sys pf rm k]. cbn [pid_file] in Hpf. subst pf.
  run_stop. rewrite Hpid.
  destruct rm, sys; repeat (split_kill; run_stop); simpl;
    eexists; reflexivity.
Qed.

(** X18: when the server is launched and the PID file can be written,
    [start_php_server] returns the child and the PID file then holds exactly
    the decimal text of its PID, without a line end and with nothing left
    of an older content. *)
Theorem start_php_server_writes_pid
    (s : session K) (port : Z) (doc_root : text) (pid : Z) (k : K) :
  activator_exists s = true ->
  os_popen (php_command port doc_root) (procs s) = (inl pid, k) ->
  (marker s = Absent true \/ exists old r, marker s = Present old r true) ->
  xvalue_of (start_server port doc_root s) = inl (Some pid) /\
  (exists r, marker (xworld_of (start_server port doc_root s)) =
             Present (py_str pid) r true) /\
  procs (xworld_of (start_server port doc_root s)) = k /\
  In (XPrint (MsgStarted pid)) (xtrace_of (start_server port doc_root s)).
Proof.
  intros Hact Hpopen Hmarker.
  destruct (start_php_server_launched s port doc_root pid k Hact Hpopen Hmarker)
    as (t & r & -> & Hin & _).
  cbn [xvalue_of xworld_of xtrace_of fst snd].
  split; [reflexivity|]. split; [now exists r|]. split; [reflexivity|exact Hin].
Qed.

(** X19: a start followed by a stop signals the child that was launched:
    after [start_php_server] has written the PID file, the first thing
    [stop_php_server] does is to send SIGTERM to the PID that [Popen]
    returned. *)
Theorem start_then_stop_signals_child
    (s : session K) (port : Z) (doc_root : text) (pid : Z) (k : K) :
  activator_exists s = true ->
  os_popen (php_command port doc_root) (procs s) = (inl pid, k) ->
  (marker s = Absent true \/ exists old, marker s = Present old true true) ->
  (max_str_digits = 0 \/ 64 <= max_str_digits)%N ->
  (Z.abs pid < 2 ^ 63)%Z ->
  exists t,
    trace_of (stop_server (sup_view (xworld_of (start_server port doc_root s)))) =
    EPrint (MsgStopping pid) ::
    EKill pid SIGTERM (fst (os_kill pid SIGTERM k)) :: t.
Proof.
  intros Hact Hpopen Hmarker Hmax Hpid.
  destruct (start_php_server_launched s port doc_root pid k Hact Hpopen)
    as (t & r & -> & _ & Hnew & Hold).
  { destruct Hmarker as [H | [old H]]; eauto. }
  assert (Hr : r = true).
  { destruct Hmarker as [H | [old H]]; [auto | now apply (Hold old)]. }
  subst r. cbn [xworld_of fst snd].
  destruct (py_str_round_trip (os_name s) pid Hmax Hpid) as [Henc Hparse].
  rewrite Henc in Hparse.
  destruct (stop_targets_parsed_pid
              (sup_view (set_marker (Present (py_str pid) true true)
                           (set_procs k s)))
              (py_str pid) true pid eq_refl Hparse) as [t' Ht'].
  exists t'. exact Ht'.
Qed.


(** Whatever the rights of the user, the launch is the same. *)
Lemma launch_with_admin
    (s : session K) (root : bool) (adm : option bool)
    (port : Z) (doc_root : text) :
  launch os_popen port doc_root (with_admin root adm s) =
    (xtrace_of (launch os_popen port doc_root s),
     with_admin root adm (xworld_of (launch os_popen port doc_root s)),
     xvalue_of (launch os_popen port doc_root s)).
Proof.
  destruct s as [os hf fl mk rm ps act root0 adm0 php inp].
  run_session.
  destruct (os_popen (php_command port doc_root) ps) as [[pid|e] k];
    [|destruct e]; run_session;
    try (destruct mk as [[|] | old r [|]]; run_session); reflexivity.
Qed.

(** The launch touches the PID file and the processes only, returns a value
    always, and leaves the PID file alone when it returns [None]. *)
Lemma launch_outcome (s : session K) (port : Z) (doc_root : text) :
  exists t s1 r,
    launch os_popen port doc_root s = (t, s1, inl r) /\
    hosts_view s1 = hosts_view s /\
    stdin s1 = stdin s /\
    (r = None <->
     exists e, fst (os_popen (php_command port doc_root) (procs s)) = inr e) /\
    (r = None -> marker s1 = marker s).
Proof.
  destruct s as [os hf fl mk rm ps act root adm php inp].
  run_session.
  destruct (os_popen (php_command port doc_root) ps) as [[pid|e] k];
    [|destruct e]; run_session;
    try (destruct mk as [[|] | old r [|]]; run_session); simpl;
    (eexists; eexists; eexists; split; [reflexivity|]);
    (split; [reflexivity|]); (split; [reflexivity|]);
    (split; [split; [try discriminate; eauto
                    | intros [e' H];
                      solve [reflexivity | simpl in H; discriminate H]]|]);
    intros H; solve [discriminate H | reflexivity].
Qed.

(** X20: [start_php_server] raises nothing and touches neither the hosts
    file nor standard input.  It returns [None] exactly when
    [activator.php] is missing or [Popen] raises; then the PID file is as it
    was (a marker of an earlier run stays), and without [activator.php]
    nothing at all is changed or launched. *)
Theorem start_php_server_outcome (s : session K) (port : Z) (doc_root : text) :
  exists t s1 r,
    start_server port doc_root s = (t, s1, inl r) /\
    hosts_view s1 = hosts_view s /\
    stdin s1 = stdin s /\
    (r = None <->
     activator_exists s = false \/
     exists e, fst (os_popen (php_command port doc_root) (procs s)) = inr e) /\
    (r = None -> marker s1 = marker s) /\
    (activator_exists s = false -> s1 = s).
Proof.
  destruct (activator_exists s) eqn:Hact.
  - destruct (start_php_server_run s port doc_root Hact) as (pre & _ & _ & _ & ->).
    destruct (launch_outcome s port doc_root)
      as (t & s1 & r & -> & Hh & Hi & Hr & Hm).
    cbn [xtrace_of xworld_of xvalue_of fst snd].
    eexists; eexists; eexists; split; [reflexivity|].
    repeat split; try assumption.
    + intros H. right. now apply Hr.
    + intros [H | H]; [discriminate H | now apply Hr].
    + discriminate.
  - exists [XPrint MsgActivatorMissing; XPrint MsgActivatorHint], s, None.
    split.
    + unfold start_php_server, xbind at 1, xget. rewrite Hact. reflexivity.
    + repeat split; auto.
Qed.

(** X21: when the server is launched but the PID file cannot be written,
    [start_php_server] still returns the child: the failure is printed, the
    PID file stays as it was, and no success message about the PID is
    printed. *)
Theorem start_php_server_marker_unwritable
    (s : session K) (port : Z) (doc_root : text) (pid : Z) (k : K) :
  activator_exists s = true ->
  os_popen (php_command port doc_root) (procs s) = (inl pid, k) ->
  (marker s = Absent false \/ exists old r, marker s = Present old r false) ->
  xvalue_of (start_server port doc_root s) = inl (Some pid) /\
  marker (xworld_of (start_server port doc_root s)) = marker s /\
  In (XPrint (MsgPidFileNotWritten PermissionError))
     (xtrace_of (start_server port doc_root s)) /\
  ~ In (XPrint (MsgStarted pid)) (xtrace_of (start_server port doc_root s)).
Proof.
  intros Hact Hpopen Hmarker.
  destruct (start_php_server_run s port doc_root Hact)
    as (pre & _ & _ & Hpre & ->).
  rewrite (launch_unwritten s port doc_root pid k Hpopen Hmarker).
  cbn [xtrace_of xworld_of xvalue_of fst snd].
  split; [reflexivity|]. split; [now destruct s|]. split.
  - apply in_or_app. right. simpl. auto.
  - intros H. apply in_app_or in H. destruct H as [H | H].
    + now apply (Hpre pid).
    + revert H. no_such_event.
Qed.

Lemma launch_never_warns (s : session K) (port : Z) (doc_root : text) :
  ~ In (XPrint (MsgPrivilegedPort port))
       (xtrace_of (launch os_popen port doc_root s)).
Proof.
  destruct s as [os hf fl mk rm ps act root0 adm0 php inp]. run_session.
  destruct (os_popen (php_command port doc_root) ps) as [[pid|e] k];
    [|destruct e]; run_session;
    try (destruct mk as [[|] | old r0 [|]]; run_session);
    no_such_event.
Qed.

(** X22: the rights of the user change what [start_php_server] prints and
    nothing else: result and world are the same whatever they are; the
    warning about a privileged port is printed only for a port below 1024. *)
Theorem start_php_server_privilege_advisory
    (s : session K) (root : bool) (adm : option bool)
    (port : Z) (doc_root : text) :
  xvalue_of (start_server port doc_root (with_admin root adm s)) =
    xvalue_of (start_server port doc_root s) /\
  xworld_of (start_server port doc_root (with_admin root adm s)) =
    with_admin root adm (xworld_of (start_server port doc_root s)) /\
  (In (XPrint (MsgPrivilegedPort port))
      (xtrace_of (start_server port doc_root s)) -> (port < 1024)%Z).
Proof.
  destruct (activator_exists s) eqn:Hact.
  - assert (Hact' : activator_exists (with_admin root adm s) = true)
      by exact Hact.
    destruct (start_php_server_run s port doc_root Hact)
      as (pre & _ & Hw & _ & ->).
    destruct (start_php_server_run _ port doc_root Hact')
      as (pre' & _ & _ & _ & ->).
    rewrite launch_with_admin.
    cbn [xtrace_of xworld_of xvalue_of fst snd].
    split; [reflexivity|]. split; [reflexivity|].
    intros H. apply in_app_or in H. destruct H as [H | H]; [now apply Hw|].
    now apply launch_never_warns in H.
  - destruct s as [os hf fl mk rm ps act root0 adm0 php inp].
    cbn [activator_exists] in Hact. subst act.
    run_session. simpl. repeat split. no_such_event.
Qed.

End SessionProps.

Lemma py_int_py_str_witness :
  encode_newlines Windows (py_str 4321) = py_str 4321 /\
  py_int ascii_decimal 4300
    (strip (universal (encode_newlines Windows (py_str 4321)))) = Some 4321%Z.
Proof.
  apply (py_int_py_str ascii_decimal 4300 ascii_decimal_ascii Windows 4321%Z).
  - right. discriminate.
  - reflexivity.
Defined.

Lemma start_php_server_writes_pid_witness :
  let s := linux_session (Present scenario_file true true)
             (Present (ln "999 stale") true true) [] [] in
  xvalue_of (start_php_server (fixed_popen (inl 4321%Z)) 80 DOC_ROOT s) =
    inl (Some 4321%Z) /\
  (exists r,
      marker (xworld_of (start_php_server (fixed_popen (inl 4321%Z)) 80 DOC_ROOT s)) =
      Present (py_str 4321) r true) /\
  procs (xworld_of (start_php_server (fixed_popen (inl 4321%Z)) 80 DOC_ROOT s)) =
    [] /\
  In (XPrint (MsgStarted 4321))
     (xtrace_of (start_php_server (fixed_popen (inl 4321%Z)) 80 DOC_ROOT s)).
Proof.
  cbv zeta.
  apply (start_php_server_writes_pid (list (option exn))
           (fixed_popen (inl 4321%Z))
           (linux_session (Present scenario_file true true)
              (Present (ln "999 stale") true true) [] [])
           80%Z DOC_ROOT 4321%Z []).
  - reflexivity.
  - reflexivity.
  - right. exists (ln "999 stale"), true. reflexivity.
Defined.

Lemma start_then_stop_signals_child_witness :
  let s := linux_session (Present scenario_file true true) (Absent true)
             [None; None] [] in
  exists t,
    trace_of (scripted_stop
                (sup_view (xworld_of (start_php_server (fixed_popen (inl 4321%Z))
                                        80 DOC_ROOT s)))) =
    EPrint (MsgStopping 4321) ::
    EKill 4321 SIGTERM (fst (scripted_kill 4321 SIGTERM [None; None])) :: t.
Proof.
  cbv zeta.
  apply (start_then_stop_signals_child (list (option exn)) scripted_kill
           scripted_sleep ascii_decimal 4300 (fixed_popen (inl 4321%Z))
           ascii_decimal_ascii
           (linux_session (Present scenario_file true true) (Absent true)
              [None; None] [])
           80%Z DOC_ROOT 4321%Z [None; None]).
  - reflexivity.
  - reflexivity.
  - left. reflexivity.
  - right. discriminate.
  - reflexivity.
Defined.

Lemma start_php_server_marker_unwritable_witness :
  let s := linux_session (Present scenario_file true true)
             (Present (ln "999 stale") true false) [] [] in
  xvalue_of (start_php_server (fixed_popen (inl 4321%Z)) 8080 DOC_ROOT s) =
    inl (Some 4321%Z) /\
  marker (xworld_of (start_php_server (fixed_popen (inl 4321%Z)) 8080 DOC_ROOT s)) =
    marker s /\
  In (XPrint (MsgPidFileNotWritten PermissionError))
     (xtrace_of (start_php_server (fixed_popen (inl 4321%Z)) 8080 DOC_ROOT s)) /\
  ~ In (XPrint (MsgStarted 4321))
       (xtrace_of (start_php_server (fixed_popen (inl 4321%Z)) 8080 DOC_ROOT s)).
Proof.
  cbv zeta.
  apply (start_php_server_marker_unwritable (list (option exn))
           (fixed_popen (inl 4321%Z))
           (linux_session (Present scenario_file true true)
              (Present (ln "999 stale") true false) [] [])
           8080%Z DOC_ROOT 4321%Z []).
  - reflexivity.
  - reflexivity.
  - right. exists (ln "999 stale"), true. reflexivity.
Defined.

(** * The two commands *)

Lemma is_entry_in_hosts_returns (entry : text) (w : hosts_world) :
  exists t b, is_entry_in_hosts entry w = (t, w, inl b).
Proof.
  destruct w as [sys [c | raw [|] wr] fl].
  - destruct sys; eexists; eexists; reflexivity.
  - destruct sys; eexists; eexists; reflexivity.
  - destruct sys; eexists; eexists; reflexivity.
Qed.

Lemma add_to_hosts_returns (entry : text) (w : hosts_world) :
  exists t w' b,
    add_to_hosts entry w = (t, w', inl b) /\
    system w' = system w /\ flushdns_ok w' = flushdns_ok w /\
    (b = false -> w' = w).
Proof.
  destruct w as [sys h fl].
  destruct h as [c | raw rd wr]; [|destruct rd].
  - destruct sys, c, fl; run_hosts; simpl;
      (eexists; eexists; eexists; split; [reflexivity|]);
      repeat split; intros H; solve [discriminate H | reflexivity].
  - destruct (scan_lines entry (splitlines (universal raw))) eqn:Hscan;
      destruct sys, wr, fl; run_hosts; rewrite ?Hscan; simpl;
      (eexists; eexists; eexists; split; [reflexivity|]);
      repeat split; intros H; solve [discriminate H | reflexivity].
  - destruct sys, wr, fl; run_hosts; simpl;
      (eexists; eexists; eexists; split; [reflexivity|]);
      repeat split; intros H; solve [discriminate H | reflexivity].
Qed.

Lemma remove_from_hosts_returns (entry : text) (w : hosts_world) :
  exists t w' b,
    remove_from_hosts entry w = (t, w', inl b) /\
    system w' = system w /\ flushdns_ok w' = flushdns_ok w.
Proof.
  destruct w as [sys h fl].
  destruct h as [c | raw rd wr]; [|destruct rd].
  - destruct sys, c, fl; run_hosts; simpl;
      eexists; eexists; eexists; repeat split.
  - destruct (scan_lines entry (splitlines (universal raw))) eqn:Hscan;
      destruct sys, wr, fl; run_hosts; rewrite ?Hscan; simpl;
      rewrite ?rewrite_lines_run, <- ?scan_lines_existsb, ?Hscan; simpl;
      eexists; eexists; eexists; repeat split.
  - destruct sys, wr, fl; run_hosts; simpl;
      eexists; eexists; eexists; repeat split.
Qed.

Section CommandProps.

Variable K : Type.
Variable os_kill : Z -> signal -> K -> option exn * K.
Variable os_sleep : Z -> K -> K.
Variable decimal : char -> option Z.
Variable max_str_digits : N.
Variable os_popen : list text -> K -> (Z + exn) * K.
Variable os_poll : Z -> K -> option Z * K.
Variable os_nap : K -> bool * K.

Local Notation "'stop_server'" :=
  (stop_php_server os_kill os_sleep decimal max_str_digits).
Local Notation "'parse_int'" := (py_int decimal max_str_digits).

Ltac run_stop :=
  cbv [stop_php_server read_pid terminate pid_file_exists read_pid_file
       remove_pid_file kill sleep signal_SIGKILL
       try_except bind print emit get put ret raise
       set_kernel set_pid_file kernel sup_system pid_file pid_file_removable
       trace_of world_of value_of fst snd negb is_OSError is_ValueError
       is_windows orb].

Ltac split_kill :=
  match goal with
  | |- context [os_kill ?p ?s ?k] =>
      let e := fresh "e" in
      let k' := fresh "k" in
      destruct (os_kill p s k) as [[e|] k']; [destruct e|]
  end.

Lemma stop_php_server_returns (w : sup_world K) :
  exists t w' b,
    stop_server w = (t, w', inl b) /\
    sup_system w' = sup_system w /\
    (pid_file w' <> pid_file w -> b = true).
Proof.
  destruct w as [sys [c | raw rd wr] rm k]; [|destruct rd].
  - run_stop. eexists; eexists; eexists; repeat split. congruence.
  - run_stop. destruct (parse_int (strip (universal raw))).
    + destruct rm, sys; repeat (split_kill; run_stop); simpl;
        (eexists; eexists; eexists; split; [reflexivity|]);
        split; solve [reflexivity | congruence].
    + eexists; eexists; eexists; repeat split. congruence.
  - run_stop. eexists; eexists; eexists; repeat split. congruence.
Qed.

Lemma on_hosts_run {A} (m : prog hosts_world A) (s : session K)
    (t : list event) (v : hosts_world) (a : A) :
  m (hosts_view s) = (t, v, inl a) ->
  on_hosts m s = (map Base t, set_hosts_view v s, inl a).
Proof. intros H. unfold on_hosts, lift. now rewrite H. Qed.

Lemma set_hosts_view_same (s : session K) : set_hosts_view (hosts_view s) s = s.
Proof. now destruct s. Qed.

Ltac run_session :=
  cbv [start_php_server announce_launch launch current_user_has_admin
       popen write_marker
       check_php_installed py_input manage_hosts_add_interactive
       manage_hosts_remove_interactive poll nap supervise start_command
       stop_command on_hosts on_supervisor lift
       xbind xret xraise xtry xfinally xfinally_done xemit xprint xget xput
       hosts_view set_hosts_view sup_view set_sup_view set_marker set_procs
       set_stdin set_pid_file set_kernel with_admin
       os_name hosts_file dns_flush_ok marker marker_removable procs
       activator_exists euid_is_root is_user_an_admin php_version stdin
       sup_system pid_file pid_file_removable kernel
       system hosts flushdns_ok
       xtrace_of xworld_of xvalue_of trace_of world_of value_of
       fst snd negb andb is_windows is_unix
       is_OSError].

Ltac frame_leaf :=
  repeat split; auto; try discriminate;
  try solve [ congruence
            | exfalso; match goal with H : _ <> _ |- _ => apply H; reflexivity end
            | eauto ].

(** What [manage_hosts_remove_interactive] can do: it ends normally or at
    the end of standard input; it changes nothing but the hosts file and the
    lines left on standard input; and it changes the hosts file only when
    it was not told to skip and the answer read was [y] or [Y]. *)
Lemma manage_hosts_remove_interactive_run (no_hosts : bool) (s : session K) :
  exists t v i r,
    manage_hosts_remove_interactive no_hosts s =
      (t, set_stdin i (set_hosts_view v s), r) /\
    (r = inl tt \/ r = inr EOFError) /\
    system v = os_name s /\ flushdns_ok v = dns_flush_ok s /\
    (no_hosts = true -> v = hosts_view s /\ i = stdin s /\ r = inl tt) /\
    (hosts v <> hosts_file s ->
     no_hosts = false /\
     exists a, stdin s = a :: i /\ lower_is_y a = true).
Proof.
  destruct s as [os hf fl mk rm ps act root adm php inp].
  destruct no_hosts.
  - exists [XPrint MsgSkipHostsRemoval],
      {| system := os; hosts := hf; flushdns_ok := fl |}, inp, (inl tt).
    frame_leaf.
  - destruct (is_entry_in_hosts_returns HOSTS_ENTRY
                {| system := os; hosts := hf; flushdns_ok := fl |})
      as (t0 & b & Hq).
    run_session. rewrite Hq. destruct b.
    + destruct inp as [|a rest].
      * exists (map Base t0 ++ [XPrint MsgEntryPresentAsk; XInput AskRemove None]),
          {| system := os; hosts := hf; flushdns_ok := fl |}, [], (inr EOFError).
        simpl. frame_leaf.
      * destruct (lower_is_y a) eqn:Hy.
        -- destruct (remove_from_hosts_returns HOSTS_ENTRY
                       {| system := os; hosts := hf; flushdns_ok := fl |})
             as (t1 & [sys' h' fl'] & b' & Hr & Hsys & Hfl).
           cbn [system flushdns_ok] in Hsys, Hfl. subst sys' fl'.
           rewrite Hr. destruct b'; simpl;
             (eexists; exists {| system := os; hosts := h'; flushdns_ok := fl |},
                rest; eexists; split; [reflexivity|]);
             frame_leaf.
        -- simpl.
           eexists; exists {| system := os; hosts := hf; flushdns_ok := fl |},
             rest; eexists; split; [reflexivity|].
           frame_leaf.
    + simpl.
      eexists; exists {| system := os; hosts := hf; flushdns_ok := fl |},
        inp; eexists; split; [reflexivity|].
      frame_leaf.
Qed.

(** The same for [manage_hosts_add_interactive], which can also end with
    [sys.exit(1)]: then the answer was [y] or [Y], [add_to_hosts] returned
    [False] and the hosts file is as it was. *)
Lemma manage_hosts_add_interactive_run (no_hosts : bool) (s : session K) :
  exists t v i r,
    manage_hosts_add_interactive no_hosts s =
      (t, set_stdin i (set_hosts_view v s), r) /\
    (r = inl tt \/ r = inr EOFError \/ r = inr (SystemExit 1)) /\
    system v = os_name s /\ flushdns_ok v = dns_flush_ok s /\
    (no_hosts = true -> v = hosts_view s /\ i = stdin s /\ r = inl tt) /\
    (hosts v <> hosts_file s ->
     no_hosts = false /\
     exists a, stdin s = a :: i /\ lower_is_y a = true) /\
    (r = inr (SystemExit 1) ->
     v = hosts_view s /\
     (exists a, stdin s = a :: i /\ lower_is_y a = true) /\
     value_of (add_to_hosts HOSTS_ENTRY (hosts_view s)) = inl false).
Proof.
  destruct s as [os hf fl mk rm ps act root adm php inp].
  destruct no_hosts.
  - exists [XPrint MsgSkipHostsModification],
      {| system := os; hosts := hf; flushdns_ok := fl |}, inp, (inl tt).
    frame_leaf.
  - destruct (is_entry_in_hosts_returns HOSTS_ENTRY
                {| system := os; hosts := hf; flushdns_ok := fl |})
      as (t0 & b & Hq).
    run_session. rewrite Hq. destruct b.
    + simpl.
      eexists; exists {| system := os; hosts := hf; flushdns_ok := fl |},
        inp; eexists; split; [reflexivity|].
      frame_leaf.
    + destruct inp as [|a rest].
      * exists (map Base t0 ++ [XPrint MsgEntryNotPresentAsk; XInput AskAdd None]),
          {| system := os; hosts := hf; flushdns_ok := fl |}, [], (inr EOFError).
        simpl. frame_leaf.
      * destruct (lower_is_y a) eqn:Hy.
        -- destruct (add_to_hosts_returns HOSTS_ENTRY
                       {| system := os; hosts := hf; flushdns_ok := fl |})
             as (t1 & [sys' h' fl'] & b' & Hr & Hsys & Hfl & Hfail).
           cbn [system flushdns_ok] in Hsys, Hfl. subst sys' fl'.
           rewrite Hr. destruct b'; simpl.
           ++ eexists; exists {| system := os; hosts := h'; flushdns_ok := fl |},
                rest; eexists; split; [reflexivity|].
              frame_leaf.
           ++ specialize (Hfail eq_refl). injection Hfail as ->.
              eexists; exists {| system := os; hosts := hf; flushdns_ok := fl |},
                rest; eexists; split; [reflexivity|].
              frame_leaf.
        -- simpl.
           eexists; exists {| system := os; hosts := hf; flushdns_ok := fl |},
             rest; eexists; split; [reflexivity|].
           frame_leaf.
Qed.

Ltac run_command :=
  cbv [stop_command start_command check_php_installed
       on_supervisor lift
       xbind xret xraise xtry xemit xprint xget xput
       sup_view set_sup_view hosts_view set_hosts_view set_stdin
       os_name hosts_file dns_flush_ok marker marker_removable procs
       activator_exists euid_is_root is_user_an_admin php_version stdin
       sup_system pid_file pid_file_removable kernel
       system hosts flushdns_ok
       xtrace_of xworld_of xvalue_of world_of fst snd negb].

(** X23: the stop command never calls [sys.exit]: whatever
    [stop_php_server] returns is only reported.  What it does to the PID
    file and the processes is what its one call of [stop_php_server] does;
    with [--no-hosts] it leaves the hosts file and standard input alone; and
    it changes the hosts file only after reading the answer [y] or [Y]. *)
Theorem stop_command_outcome (no_hosts : bool) (s : session K) :
  exists t s1 r,
    stop_command os_kill os_sleep decimal max_str_digits no_hosts s = (t, s1, r) /\
    (forall code, r <> inr (SystemExit code)) /\
    sup_view s1 = world_of (stop_server (sup_view s)) /\
    (no_hosts = true -> hosts_view s1 = hosts_view s /\ stdin s1 = stdin s) /\
    (hosts_file s1 <> hosts_file s ->
     no_hosts = false /\
     exists a rest, stdin s = a :: rest /\ lower_is_y a = true).
Proof.
  destruct s as [os hf fl mk rm ps act root adm php inp].
  destruct (stop_php_server_returns
              {| sup_system := os; pid_file := mk;
                 pid_file_removable := rm; kernel := ps |})
    as (t0 & [sys' pf' rm' k'] & b & Hs & Hsys & _).
  cbn [sup_system] in Hsys. subst sys'.
  destruct (manage_hosts_remove_interactive_run no_hosts
              {| os_name := os; hosts_file := hf; dns_flush_ok := fl;
                 marker := pf'; marker_removable := rm'; procs := k';
                 activator_exists := act; euid_is_root := root;
                 is_user_an_admin := adm; php_version := php; stdin := inp |})
    as (t1 & [sys1 h1 fl1] & i & r & Hm & Hr & Hv & Hfl & Hskip & Hchg).
  cbn [system flushdns_ok os_name dns_flush_ok hosts hosts_file stdin
       hosts_view] in Hv, Hfl, Hskip, Hchg.
  subst sys1 fl1.
  run_command. rewrite Hs. run_command.
  destruct b; cbn [negb]; run_command; rewrite Hm; run_command;
    (destruct Hr as [-> | ->]; simpl;
     (eexists; eexists; eexists; split; [reflexivity|]);
     (split; [intros code H; discriminate H|]);
     (split; [reflexivity|]);
     (split;
      [ intros Hn; destruct (Hskip Hn) as (Hv' & -> & Hr');
        injection Hv' as ->; split; reflexivity
      | intros Hne; destruct (Hchg Hne) as (Hn & a & Ha & Hy);
        split; [exact Hn | now exists a, i] ])).
Qed.

(** ** The wait for the server *)

Lemma set_procs_same (s : session K) : set_procs (procs s) s = s.
Proof. now destruct s. Qed.

Ltac find_event :=
  first [ left; reflexivity
        | right; find_event
        | apply in_or_app; left; find_event
        | apply in_or_app; right; find_event ].

(** The polling loop ends as [watch] says, and touches the processes only. *)
Lemma wait_for_exit_watch (fuel : nat) (pid : Z) (s : session K) :
  exists t,
    wait_for_exit os_poll os_nap fuel pid s =
      (t, set_procs (snd (watch os_poll os_nap fuel pid (procs s))) s,
       match fst (watch os_poll os_nap fuel pid (procs s)) with
       | Some true => inl true
       | Some false => inr KeyboardInterrupt
       | None => inl false
       end).
Proof.
  revert s. induction fuel as [|f IH]; intros s.
  - exists []. cbn [wait_for_exit watch fst snd]. now rewrite set_procs_same.
  - destruct s as [os hf fl mk rm ps act root adm php inp].
    cbn [wait_for_exit watch procs]. run_session.
    destruct (os_poll pid ps) as [[rc|] k1]; run_session.
    + eexists. reflexivity.
    + destruct (os_nap k1) as [[|] k2]; run_session.
      * eexists. reflexivity.
      * destruct (IH {| os_name := os; hosts_file := hf; dns_flush_ok := fl;
                        marker := mk; marker_removable := rm; procs := k2;
                        activator_exists := act; euid_is_root := root;
                        is_user_an_admin := adm; php_version := php;
                        stdin := inp |}) as [t Ht].
        rewrite Ht. cbn [procs]. run_session. eexists. reflexivity.
Qed.

Ltac run_supervise :=
  cbv [supervise poll on_supervisor lift
       xbind xret xraise xtry xfinally_done xemit xprint xget xput
       sup_view set_sup_view hosts_view set_hosts_view set_stdin set_procs
       set_kernel
       os_name hosts_file dns_flush_ok marker marker_removable procs
       activator_exists euid_is_root is_user_an_admin php_version stdin
       sup_system pid_file pid_file_removable kernel
       system hosts flushdns_ok
       xtrace_of xworld_of xvalue_of world_of fst snd negb].

Lemma supervise_pending (fuel : nat) (port : Z) (no_hosts : bool) (pid : Z)
    (s : session K) :
  fst (watch os_poll os_nap fuel pid (procs s)) = None ->
  exists t,
    supervise os_kill os_sleep decimal max_str_digits os_poll os_nap
      fuel port no_hosts pid s =
    (t, set_procs (snd (watch os_poll os_nap fuel pid (procs s))) s, inl false).
Proof.
  intros Hw. destruct (wait_for_exit_watch fuel pid s) as [t Ht].
  rewrite Hw in Ht.
  destruct s as [os hf fl mk rm ps act root adm php inp].
  cbn [procs] in *.
  run_supervise. rewrite Ht. run_supervise. eexists. reflexivity.
Qed.

(** The branch of the start command for a launched server, once the wait
    has ended: the last poll decides whether [stop_php_server] is called;
    then the hosts entry is offered for removal. *)
Lemma supervise_done (fuel : nat) (port : Z) (no_hosts : bool) (pid : Z)
    (s : session K) (b : bool) (k : K) (rc : option Z) (k' : K) :
  watch os_poll os_nap fuel pid (procs s) = (Some b, k) ->
  os_poll pid k = (rc, k') ->
  exists t v i r,
    supervise os_kill os_sleep decimal max_str_digits os_poll os_nap
      fuel port no_hosts pid s =
      (t,
       set_stdin i
         (set_hosts_view v
            match rc with
            | Some _ => set_procs k' s
            | None =>
                set_sup_view
                  (world_of (stop_server (sup_view (set_procs k' s)))) s
            end), r) /\
    (r = inl true \/ r = inr EOFError) /\
    In (XPrint (if b then MsgTerminatedOnItsOwn else MsgCtrlCDetected)) t /\
    system v = os_name s /\ flushdns_ok v = dns_flush_ok s /\
    (no_hosts = true -> v = hosts_view s /\ i = stdin s /\ r = inl true) /\
    (hosts v <> hosts_file s ->
     no_hosts = false /\
     exists a, stdin s = a :: i /\ lower_is_y a = true).
Proof.
  intros Hw Hp. destruct (wait_for_exit_watch fuel pid s) as [t Ht].
  rewrite Hw in Ht. cbn [fst snd] in Ht.
  destruct s as [os hf fl mk rm ps act root adm php inp].
  cbn [procs] in Hw, Ht.
  assert (Hstop :
    exists t0 pf' rm' k'' b0,
      stop_server {| sup_system := os; pid_file := mk;
                     pid_file_removable := rm; kernel := k' |} =
      (t0, {| sup_system := os; pid_file := pf';
              pid_file_removable := rm'; kernel := k'' |}, inl b0)).
  { destruct (stop_php_server_returns
                {| sup_system := os; pid_file := mk;
                   pid_file_removable := rm; kernel := k' |})
      as (t0 & [sys' pf' rm' k''] & b0 & Hs & Hsys & _).
    cbn [sup_system] in Hsys. subst sys'. now exists t0, pf', rm', k'', b0. }
  destruct Hstop as (t0 & pf' & rm' & k'' & b0 & Hs).
  run_supervise. rewrite Ht.
  destruct b, rc as [code|]; run_supervise; rewrite Hp; run_supervise;
    rewrite ?Hs; run_supervise;
    match goal with
    | |- context [manage_hosts_remove_interactive ?n ?s0] =>
        destruct (manage_hosts_remove_interactive_run n s0)
          as (t1 & [sys1 h1 fl1] & i & r & Hm & Hr & Hv & Hfl & Hskip & Hchg)
    end;
    cbn [system flushdns_ok os_name dns_flush_ok hosts hosts_file stdin
         hosts_view] in Hv, Hfl, Hskip, Hchg;
    subst sys1 fl1; rewrite Hm; run_supervise;
    (destruct Hr as [-> | ->]; simpl;
     (eexists; exists {| system := os; hosts := h1; flushdns_ok := fl |}, i;
      eexists; split; [reflexivity|]);
     (split; [first [left; reflexivity | right; reflexivity]|]);
     (split; [find_event|]);
     (split; [reflexivity|]); (split; [reflexivity|]);
     (split;
      [ intros Hn; destruct (Hskip Hn) as (Hv' & -> & Hr');
        injection Hv' as ->; repeat split; congruence
      | intros Hne; destruct (Hchg Hne) as (Hn & a & Ha & Hy);
        split; [exact Hn | now exists a] ])).
Qed.



(** ** The start command *)

Local Notation "'start'" :=
  (start_command os_kill os_sleep decimal max_str_digits os_popen os_poll
     os_nap).
Local Notation "'start_server'" := (start_php_server os_popen).
Local Notation "'attend'" :=
  (supervise os_kill os_sleep decimal max_str_digits os_poll os_nap).

Ltac run_start :=
  cbv [start_command check_php_installed on_hosts lift
       xbind xret xraise xtry xemit xprint xget xput
       hosts_view set_hosts_view
       os_name hosts_file dns_flush_ok marker marker_removable procs
       activator_exists euid_is_root is_user_an_admin php_version stdin
       system hosts flushdns_ok
       xtrace_of xworld_of xvalue_of world_of value_of fst snd negb].

Lemma hosts_view_set (v : hosts_world) (s : session K) :
  hosts_view (set_hosts_view v s) = v.
Proof. now destruct v. Qed.

(** [start_php_server] returns, and touches neither the hosts file nor
    standard input. *)
Lemma start_php_server_frame (s : session K) (port : Z) (doc_root : text) :
  exists t s1 r,
    start_server port doc_root s = (t, s1, inl r) /\
    hosts_view s1 = hosts_view s /\ stdin s1 = stdin s.
Proof.
  destruct (activator_exists s) eqn:Hact.
  - destruct (start_php_server_run K os_popen s port doc_root Hact)
      as (pre & _ & _ & _ & ->).
    destruct (launch_outcome K os_popen s port doc_root)
      as (t & s1 & r & -> & Hh & Hi & _).
    cbn [xtrace_of xworld_of xvalue_of fst snd].
    eexists; eexists; eexists; split; [reflexivity|]. now split.
  - exists [XPrint MsgActivatorMissing; XPrint MsgActivatorHint], s, None.
    split; [|now split].
    unfold start_php_server, xbind at 1, xget. rewrite Hact. reflexivity.
Qed.

(** The start command when PHP is there and the question about the hosts
    entry ended the run. *)
Lemma start_command_add_raised
    (fuel : nat) (port : Z) (no_hosts : bool) (s : session K)
    (t1 : list xevent) (s1 : session K) (e : xexn) :
  php_version s = None ->
  manage_hosts_add_interactive no_hosts s = (t1, s1, inr e) ->
  start fuel port no_hosts s =
    (XPrint MsgStartBanner :: XPhpVersion None :: XPrint MsgPhpInstalled :: t1,
     s1, inr e).
Proof.
  intros Hphp Hadd.
  destruct s as [os hf fl mk rm ps act root adm php inp].
  cbn [php_version] in Hphp. subst php.
  run_start. rewrite Hadd. reflexivity.
Qed.

(** The start command when the server was launched. *)
Lemma start_command_launched
    (fuel : nat) (port : Z) (no_hosts : bool) (s : session K)
    (t1 t2 : list xevent) (s1 s2 : session K) (pid : Z) :
  php_version s = None ->
  manage_hosts_add_interactive no_hosts s = (t1, s1, inl tt) ->
  start_server port DOC_ROOT s1 = (t2, s2, inl (Some pid)) ->
  start fuel port no_hosts s =
    (XPrint MsgStartBanner :: XPhpVersion None :: XPrint MsgPhpInstalled ::
       t1 ++ t2 ++ xtrace_of (attend fuel port no_hosts pid s2),
     xworld_of (attend fuel port no_hosts pid s2),
     xvalue_of (attend fuel port no_hosts pid s2)).
Proof.
  intros Hphp Hadd Hstart.
  destruct s as [os hf fl mk rm ps act root adm php inp].
  cbn [php_version] in Hphp. subst php.
  run_start. rewrite Hadd. run_start. rewrite Hstart. run_start.
  destruct (attend fuel port no_hosts pid s2) as [[t3 s3] r3]. reflexivity.
Qed.

(** The start command when the server was not launched: it ends with
    [sys.exit(1)]; unless told to leave the hosts file alone it removes an
    entry that is there, without a question. *)
Lemma start_command_not_launched
    (fuel : nat) (port : Z) (no_hosts : bool) (s : session K)
    (t1 t2 : list xevent) (s1 s2 : session K) :
  php_version s = None ->
  manage_hosts_add_interactive no_hosts s = (t1, s1, inl tt) ->
  start_server port DOC_ROOT s1 = (t2, s2, inl None) ->
  exists t3 v,
    start fuel port no_hosts s =
      (XPrint MsgStartBanner :: XPhpVersion None :: XPrint MsgPhpInstalled ::
         t1 ++ t2 ++ XPrint MsgServerFailedToStart :: t3,
       set_hosts_view v s2, inr (SystemExit 1)) /\
    (no_hosts = true -> v = hosts_view s2 /\ t3 = []) /\
    (no_hosts = false ->
     value_of (is_entry_in_hosts HOSTS_ENTRY (hosts_view s2)) = inl false ->
     v = hosts_view s2) /\
    (no_hosts = false ->
     value_of (is_entry_in_hosts HOSTS_ENTRY (hosts_view s2)) = inl true ->
     v = world_of (remove_from_hosts HOSTS_ENTRY (hosts_view s2)) /\
     In (XPrint MsgRevertingHosts) t3).
Proof.
  intros Hphp Hadd Hstart.
  destruct s as [os hf fl mk rm ps act root adm php inp].
  cbn [php_version] in Hphp. subst php.
  destruct s2 as [os2 hf2 fl2 mk2 rm2 ps2 act2 root2 adm2 php2 inp2].
  run_start. rewrite Hadd. run_start. rewrite Hstart. run_start.
  destruct no_hosts.
  - run_start.
    exists [], {| system := os2; hosts := hf2; flushdns_ok := fl2 |}.
    split; [reflexivity|]. split; [now split|]. split; discriminate.
  - destruct (is_entry_in_hosts_returns HOSTS_ENTRY
                {| system := os2; hosts := hf2; flushdns_ok := fl2 |})
      as (t0 & b & Hq).
    rewrite Hq. destruct b; run_start.
    + destruct (remove_from_hosts_returns HOSTS_ENTRY
                  {| system := os2; hosts := hf2; flushdns_ok := fl2 |})
        as (t4 & v & b' & Hr & _).
      rewrite Hr. run_start. destruct v as [sys4 h4 fl4].
      eexists; exists {| system := sys4; hosts := h4; flushdns_ok := fl4 |}.
      split; [reflexivity|]. split; [discriminate|].
      split; [intros _ H; discriminate H|].
      intros _ _. split; [reflexivity|]. find_event.
    + eexists; exists {| system := os2; hosts := hf2; flushdns_ok := fl2 |}.
      split; [reflexivity|]. split; [discriminate|].
      split; [intros _ _; reflexivity|]. intros _ H; discriminate H.
Qed.

(** X24: without a working PHP the start command ends before it has asked
    or touched anything: with exit status 1 when [php --version] fails or
    [php] is not found, and with the exception itself when running it
    raises another one, such as [PermissionError], which
    [check_php_installed] does not catch. *)
Theorem start_command_without_php
    (fuel : nat) (port : Z) (no_hosts : bool) (s : session K) (e : exn) :
  php_version s = Some e ->
  xworld_of (start fuel port no_hosts s) = s /\
  xvalue_of (start fuel port no_hosts s) =
    inr (match e with
         | CalledProcessError | FileNotFoundError => SystemExit 1
         | _ => Raised e
         end) /\
  (forall ev, In ev (xtrace_of (start fuel port no_hosts s)) ->
     ev = XPrint MsgStartBanner \/ ev = XPhpVersion (Some e) \/
     ev = XPrint MsgPhpMissing).
Proof.
  intros Hphp.
  destruct s as [os hf fl mk rm ps act root adm php inp].
  cbn [php_version] in Hphp. subst php.
  destruct e; run_start; (split; [reflexivity|]); (split; [reflexivity|]);
    intros ev Hin; simpl in Hin;
    repeat (destruct Hin as [Hin | Hin]; [subst ev; auto|]);
    contradiction.
Qed.

(** X25: when the hosts entry is there before the start command runs and
    the server cannot be launched, the command removes the entry without
    asking: nothing is read from standard input, the hosts file is what
    [remove_from_hosts] makes of it, and the exit status is 1.  The entry
    need not have been added by this run. *)
Theorem start_command_failed_launch_removes_entry
    (fuel : nat) (port : Z) (s : session K) :
  php_version s = None ->
  value_of (is_entry_in_hosts HOSTS_ENTRY (hosts_view s)) = inl true ->
  xvalue_of (start_server port DOC_ROOT s) = inl None ->
  exists t s1,
    start fuel port false s = (t, s1, inr (SystemExit 1)) /\
    hosts_view s1 = world_of (remove_from_hosts HOSTS_ENTRY (hosts_view s)) /\
    stdin s1 = stdin s /\
    In (XPrint MsgRevertingHosts) t.
Proof.
  intros Hphp Hpresent Hnone.
  destruct (is_entry_in_hosts_returns HOSTS_ENTRY (hosts_view s))
    as (t0 & b & Hq).
  rewrite Hq in Hpresent. cbn [value_of snd] in Hpresent.
  injection Hpresent as ->.
  assert (Hadd : manage_hosts_add_interactive false s =
                 (map Base t0 ++ [XPrint MsgEntryIsPresent], s, inl tt)).
  { unfold manage_hosts_add_interactive.
    rewrite (xbind_run _ _ s s s (map Base t0) [XPrint MsgEntryIsPresent]
               true (inl tt)); [reflexivity| |reflexivity].
    rewrite (on_hosts_run _ s t0 (hosts_view s) true Hq).
    now rewrite set_hosts_view_same. }
  destruct (start_php_server_frame s port DOC_ROOT)
    as (t2 & s2 & r & Hstart & Hh & Hi).
  rewrite Hstart in Hnone. cbn [xvalue_of snd] in Hnone.
  injection Hnone as ->.
  destruct (start_command_not_launched fuel port false s _ _ s s2
              Hphp Hadd Hstart)
    as (t3 & v & Hrun & _ & _ & Hrev).
  rewrite Hh in Hrev. rewrite Hq in Hrev.
  destruct (Hrev eq_refl eq_refl) as [-> Hin].
  eexists; eexists; split; [exact Hrun|].
  split; [apply hosts_view_set|]. split; [exact Hi|].
  right; right; right. apply in_or_app. right. apply in_or_app. right.
  right. exact Hin.
Qed.

Lemma set_views_same (s : session K) :
  set_stdin (stdin s) (set_hosts_view (hosts_view s) s) = s.
Proof. now destruct s. Qed.

(** How the branch for a launched server can end, and what it leaves alone
    when told not to touch the hosts file. *)
Lemma supervise_status
    (fuel : nat) (port : Z) (no_hosts : bool) (pid : Z) (s : session K) :
  exists t s1 r,
    attend fuel port no_hosts pid s = (t, s1, r) /\
    (r = inl true \/ r = inl false \/ (no_hosts = false /\ r = inr EOFError)) /\
    (no_hosts = true -> hosts_view s1 = hosts_view s /\ stdin s1 = stdin s).
Proof.
  destruct (watch os_poll os_nap fuel pid (procs s)) as [[b|] k] eqn:Hw.
  - destruct (os_poll pid k) as [rc k'] eqn:Hp.
    destruct (supervise_done fuel port no_hosts pid s b k rc k' Hw Hp)
      as (t & v & i & r & -> & Hr & _ & _ & _ & Hskip & _).
    eexists; eexists; eexists; split; [reflexivity|]. split.
    + destruct no_hosts.
      * destruct (Hskip eq_refl) as (_ & _ & ->). now left.
      * destruct Hr as [-> | ->]; [now left | right; right; now split].
    + intros Hn. destruct (Hskip Hn) as (-> & -> & _).
      destruct rc as [code|]; now destruct s.
  - assert (Hnone : fst (watch os_poll os_nap fuel pid (procs s)) = None)
      by now rewrite Hw.
    destruct (supervise_pending fuel port no_hosts pid s Hnone) as [t ->].
    eexists; eexists; eexists; split; [reflexivity|]. split.
    + right. now left.
    + intros _. now destruct s.
Qed.

Lemma start_command_php_raised
    (fuel : nat) (port : Z) (no_hosts : bool) (s : session K) (e : exn) :
  php_version s = Some e ->
  xworld_of (start fuel port no_hosts s) = s /\
  xvalue_of (start fuel port no_hosts s) =
    inr (match e with
         | CalledProcessError | FileNotFoundError => SystemExit 1
         | _ => Raised e
         end).
Proof.
  intros Hphp.
  destruct s as [os hf fl mk rm ps act root adm php inp].
  cbn [php_version] in Hphp. subst php.
  destruct e; run_start; split; reflexivity.
Qed.

(** X26: with [--no-hosts] the start command leaves the hosts file and
    standard input as they are, whatever becomes of PHP, of the launch and
    of the server. *)
Theorem start_command_no_hosts_leaves_hosts
    (fuel : nat) (port : Z) (s : session K) :
  hosts_view (xworld_of (start fuel port true s)) = hosts_view s /\
  stdin (xworld_of (start fuel port true s)) = stdin s.
Proof.
  destruct (php_version s) as [e|] eqn:Hphp.
  - destruct (start_command_php_raised fuel port true s e Hphp) as [-> _].
    now split.
  - destruct (manage_hosts_add_interactive_run true s)
      as (t1 & v & i & r1 & Hadd & _ & _ & _ & Hskip & _).
    destruct (Hskip eq_refl) as (-> & -> & ->).
    rewrite set_views_same in Hadd.
    destruct (start_php_server_frame s port DOC_ROOT)
      as (t2 & s2 & [pid|] & Hstart & Hh & Hi).
    + rewrite (start_command_launched fuel port true s t1 t2 s s2 pid
                 Hphp Hadd Hstart).
      destruct (supervise_status fuel port true pid s2)
        as (t3 & s3 & r3 & -> & _ & Hframe).
      cbn [xworld_of fst snd].
      destruct (Hframe eq_refl) as [-> ->]. now split.
    + destruct (start_command_not_launched fuel port true s t1 t2 s s2
                  Hphp Hadd Hstart)
        as (t3 & v & -> & Hv & _).
      destruct (Hv eq_refl) as [-> _].
      cbn [xworld_of fst snd]. rewrite hosts_view_set. split; [exact Hh|].
      now destruct s2.
Qed.

(** X30: where the exit status of the start command comes from.  When
    the command ends through [sys.exit], the status is 1 and one of three
    things has happened: [php --version] failed or [php] was not found; or
    the answer to the question about the hosts entry was [y] or [Y] and
    [add_to_hosts] returned [False]; or [start_php_server] returned [None]
    after the step for the hosts entry had ended normally. *)
Theorem start_command_exit_reasons
    (fuel : nat) (port : Z) (no_hosts : bool) (s : session K) (code : Z) :
  xvalue_of (start fuel port no_hosts s) = inr (SystemExit code) ->
  code = 1%Z /\
  (php_version s = Some CalledProcessError \/
   php_version s = Some FileNotFoundError \/
   (php_version s = None /\ no_hosts = false /\
    (exists a rest, stdin s = a :: rest /\ lower_is_y a = true) /\
    value_of (add_to_hosts HOSTS_ENTRY (hosts_view s)) = inl false) \/
   (php_version s = None /\
    xvalue_of (manage_hosts_add_interactive no_hosts s) = inl tt /\
    xvalue_of (start_server port DOC_ROOT
                 (xworld_of (manage_hosts_add_interactive no_hosts s))) =
      inl None)).
Proof.
  intros Hexit.
  destruct (php_version s) as [e|] eqn:Hphp.
  - destruct (start_command_php_raised fuel port no_hosts s e Hphp) as [_ Hv].
    rewrite Hv in Hexit.
    destruct e; try discriminate Hexit; injection Hexit as <-;
      (split; [reflexivity|]); auto.
  - destruct (manage_hosts_add_interactive_run no_hosts s)
      as (t1 & v & i & r1 & Hadd & Hr1 & _ & _ & Hskip & _ & Hfail).
    destruct Hr1 as [-> | [-> | ->]].
    + destruct (start_php_server_frame (set_stdin i (set_hosts_view v s))
                  port DOC_ROOT)
        as (t2 & s2 & [pid|] & Hstart & _).
      * rewrite (start_command_launched fuel port no_hosts s t1 t2 _ s2 pid
                   Hphp Hadd Hstart) in Hexit.
        destruct (supervise_status fuel port no_hosts pid s2)
          as (t3 & s3 & r3 & Hsup & Hr3 & _).
        rewrite Hsup in Hexit. cbn [xvalue_of snd] in Hexit.
        destruct Hr3 as [-> | [-> | [_ ->]]]; discriminate Hexit.
      * destruct (start_command_not_launched fuel port no_hosts s t1 t2 _ s2
                    Hphp Hadd Hstart)
          as (t3 & v' & Hrun & _).
        rewrite Hrun in Hexit. cbn [xvalue_of snd] in Hexit.
        injection Hexit as <-. split; [reflexivity|].
        right; right; right. split; [reflexivity|].
        rewrite Hadd. cbn [xvalue_of xworld_of fst snd]. rewrite Hstart.
        split; reflexivity.
    + rewrite (start_command_add_raised fuel port no_hosts s t1 _ EOFError
                 Hphp Hadd) in Hexit.
      discriminate Hexit.
    + rewrite (start_command_add_raised fuel port no_hosts s t1 _
                 (SystemExit 1) Hphp Hadd) in Hexit.
      cbn [xvalue_of snd] in Hexit. injection Hexit as <-.
      split; [reflexivity|]. right; right; left.
      destruct (Hfail eq_refl) as (_ & (a & Ha & Hy) & Hf).
      split; [reflexivity|]. split.
      * destruct no_hosts; [|reflexivity].
        destruct (Hskip eq_refl) as (_ & _ & H). discriminate H.
      * split; [now exists a, i | exact Hf].
Qed.

End CommandProps.

Lemma start_command_without_php_witness :
  let s :=
    {| os_name := Linux; hosts_file := Present scenario_file true true;
       dns_flush_ok := true; marker := Absent true; marker_removable := true;
       procs := @nil (option exn); activator_exists := true;
       euid_is_root := false; is_user_an_admin := None;
       php_version := Some FileNotFoundError; stdin := [txt "y"] |} in
  let run :=
    start_command scripted_kill scripted_sleep ascii_decimal 4300
      (fixed_popen (inl 4321%Z)) (fixed_poll None) (fixed_nap false)
      3 80 false s in
  xworld_of run = s /\
  xvalue_of run = inr (SystemExit 1) /\
  (forall ev, In ev (xtrace_of run) ->
     ev = XPrint MsgStartBanner \/ ev = XPhpVersion (Some FileNotFoundError) \/
     ev = XPrint MsgPhpMissing).
Proof.
  cbv zeta.
  apply (start_command_without_php (list (option exn)) scripted_kill
           scripted_sleep ascii_decimal 4300 (fixed_popen (inl 4321%Z))
           (fixed_poll None) (fixed_nap false) 3%nat 80%Z false
           {| os_name := Linux; hosts_file := Present scenario_file true true;
              dns_flush_ok := true; marker := Absent true;
              marker_removable := true;
              procs := @nil (option exn); activator_exists := true;
              euid_is_root := false; is_user_an_admin := None;
              php_version := Some FileNotFoundError; stdin := [txt "y"] |}
           FileNotFoundError).
  reflexivity.
Defined.

Lemma start_command_failed_launch_removes_entry_witness :
  let s := linux_session (Present (ln "127.0.0.1 albert.apple.com") true true)
             (Absent true) [] [txt "n"] in
  exists t s1,
    start_command scripted_kill scripted_sleep ascii_decimal 4300
      (fixed_popen (inr FileNotFoundError)) (fixed_poll None) (fixed_nap false)
      3 80 false s = (t, s1, inr (SystemExit 1)) /\
    hosts_view s1 = world_of (remove_from_hosts HOSTS_ENTRY (hosts_view s)) /\
    stdin s1 = stdin s /\
    In (XPrint MsgRevertingHosts) t.
Proof.
  cbv zeta.
  apply (start_command_failed_launch_removes_entry (list (option exn))
           scripted_kill scripted_sleep ascii_decimal 4300
           (fixed_popen (inr FileNotFoundError)) (fixed_poll None)
           (fixed_nap false) 3%nat 80%Z
           (linux_session (Present (ln "127.0.0.1 albert.apple.com") true true)
              (Absent true) [] [txt "n"])).
  - reflexivity.
  - vm_compute. reflexivity.
  - vm_compute. reflexivity.
Defined.



Lemma start_command_exit_reasons_witness :
  let s := linux_session (Present (ln "127.0.0.1 albert.apple.com") true true)
             (Absent true) [] [txt "n"] in
  1%Z = 1%Z /\
  (php_version s = Some CalledProcessError \/
   php_version s = Some FileNotFoundError \/
   (php_version s = None /\ false = false /\
    (exists a rest, stdin s = a :: rest /\ lower_is_y a = true) /\
    value_of (add_to_hosts HOSTS_ENTRY (hosts_view s)) = inl false) \/
   (php_version s = None /\
    xvalue_of (manage_hosts_add_interactive false s) = inl tt /\
    xvalue_of (start_php_server (fixed_popen (inr FileNotFoundError)) 80
                 DOC_ROOT
                 (xworld_of (manage_hosts_add_interactive false s))) =
      inl None)).
Proof.
  cbv zeta.
  apply (start_command_exit_reasons (list (option exn))
           scripted_kill scripted_sleep ascii_decimal 4300
           (fixed_popen (inr FileNotFoundError)) (fixed_poll None)
           (fixed_nap false) 3%nat 80%Z false
           (linux_session (Present (ln "127.0.0.1 albert.apple.com") true true)
              (Absent true) [] [txt "n"])
           1%Z).
  vm_compute. reflexivity.
Defined.
